(** * Session-token validation and token exchange of the Shopify app scaffold

    A shallow embedding of the authentication core of the repository:

    - [ShopifyAuthService] (validateSessionToken, validateTokenPayload,
      extractShopFromPayload, sanitizeShop, isValidShopDomain,
      performTokenExchange, storeSession, exchangeSessionToken,
      invalidateSession),
    - [JWKSService] (getShopifyJWKS, verifyJWT, validateSessionToken),
    - [ShopifySessionGuard] (validateSessionToken, validateWithSecret,
      validateTokenClaims),
    - the [ShopifySession] entity and the part of the datastore the service
      drives (update, save, transaction).

    Conventions of the embedding.

    - A JavaScript string is a [string]: a sequence of code units below 256.
      This covers every host name, URL and token the code handles.
    - A property that may be [undefined] at run time is an [option]; a
      JavaScript number holding a count of seconds or milliseconds is a [Z].
    - A function that may throw returns an [Outcome]: [Returned v] or
      [Thrown e], where [e : Msg] is the message of the thrown error, one
      constructor per message template of the source.
    - Everything the code calls but does not define (the JWT libraries, the
      URL parser, the network, the configuration, the clock) is a field of
      [Env] or an explicit argument: the theorems hold for every behaviour of
      those collaborators. A call reads the clock once ([now_ms]).
    - The datastore is a table (a list of rows with pairwise distinct primary
      keys) passed explicitly; log lines and outbound requests that matter
      to a statement are returned next to the result. *)

From Stdlib Require Import ZArith Ascii String Bool Lia.
From stdpp Require Import base option list gmap strings.

Open Scope Z_scope.

(* ===================================================================== *)
(** ** JavaScript string operations used by the source                    *)
(* ===================================================================== *)

Module Js.

Definition code (c : ascii) : N := N_of_ascii c.

Definition in_range (lo hi : N) (c : ascii) : bool :=
  ((lo <=? code c) && (code c <=? hi))%N.

Definition is_lower (c : ascii) : bool := in_range 97 122 c.
Definition is_upper (c : ascii) : bool := in_range 65 90 c.
Definition is_digit (c : ascii) : bool := in_range 48 57 c.
Definition is_dash (c : ascii) : bool := (code c =? 45)%N.

(** The character class [[a-z0-9-]]. *)
Definition is_label_char (c : ascii) : bool :=
  is_lower c || is_digit c || is_dash c.

(** The character class [[a-zA-Z0-9]]. *)
Definition is_alnum (c : ascii) : bool :=
  is_lower c || is_upper c || is_digit c.

(** The character class [[a-zA-Z0-9-]]. *)
Definition is_alnum_dash (c : ascii) : bool := is_alnum c || is_dash c.

(** White space and line terminators below 256, as [String.prototype.trim]
    removes them: TAB, LF, VT, FF, CR, SPACE and NBSP. *)
Definition is_space (c : ascii) : bool :=
  in_range 9 13 c || (code c =? 32)%N || (code c =? 160)%N.

(** [toLowerCase] on one code unit below 256: A-Z and the accented capitals
    of Latin-1 (all of 192..222 but the multiplication sign 215) move up
    by 32. *)
Definition lower_char (c : ascii) : ascii :=
  if is_upper c || (in_range 192 222 c && negb (code c =? 215)%N)
  then ascii_of_N (code c + 32) else c.

Fixpoint toLowerCase (s : string) : string :=
  match s with
  | EmptyString => EmptyString
  | String c r => String (lower_char c) (toLowerCase r)
  end.

Fixpoint trimStart (s : string) : string :=
  match s with
  | String c r => if is_space c then trimStart r else s
  | EmptyString => EmptyString
  end.

(** [trimEnd]: a space is dropped when everything after it has been. *)
Fixpoint trimEnd (s : string) : string :=
  match s with
  | EmptyString => EmptyString
  | String c r =>
      match trimEnd r with
      | EmptyString => if is_space c then EmptyString else String c EmptyString
      | r' => String c r'
      end
  end.

Definition trim (s : string) : string := trimEnd (trimStart s).

(** [s.startsWith(p)], with the rest of [s] after the prefix. *)
Fixpoint strip_prefix (p s : string) : option string :=
  match p, s with
  | EmptyString, _ => Some s
  | String a p', String b s' =>
      if Ascii.eqb a b then strip_prefix p' s' else None
  | String _ _, EmptyString => None
  end.

Definition startsWith (p s : string) : bool :=
  match strip_prefix p s with Some _ => true | None => false end.

(** [s.includes(p)]. *)
Fixpoint includes (p s : string) : bool :=
  startsWith p s ||
  match s with
  | EmptyString => false
  | String _ r => includes p r
  end.

(** [s.replace(p, '')] for a string pattern [p]: the first occurrence of
    [p] is removed, a string without one is returned as it is. *)
Fixpoint remove_first (p s : string) : string :=
  match strip_prefix p s with
  | Some r => r
  | None =>
      match s with
      | EmptyString => EmptyString
      | String c r => String c (remove_first p r)
      end
  end.

(** [s.split(sep)[0]]: the text before the first [sep] (all of [s] when
    there is none). *)
Fixpoint before_first (sep : ascii) (s : string) : string :=
  match s with
  | EmptyString => EmptyString
  | String c r => if Ascii.eqb c sep then EmptyString
                  else String c (before_first sep r)
  end.

(** [s.split(sep)] for a one-character separator: never an empty list. *)
Fixpoint split (sep : ascii) (s : string) : list string :=
  match s with
  | EmptyString => [EmptyString]
  | String c r =>
      if Ascii.eqb c sep then EmptyString :: split sep r
      else match split sep r with
           | x :: xs => String c x :: xs
           | [] => [String c EmptyString]
           end
  end.

(** [s.endsWith(p)]. *)
Fixpoint endsWith (p s : string) : bool :=
  String.eqb p s ||
  match s with
  | EmptyString => false
  | String _ r => endsWith p r
  end.

(** The longest prefix of [s] made of characters of class [cls], and what
    follows it: how a greedy [cls*] or [cls+] at the head of a pattern
    consumes its input. *)
Fixpoint span (cls : ascii -> bool) (s : string) : string * string :=
  match s with
  | EmptyString => (EmptyString, EmptyString)
  | String c r =>
      if cls c then let '(a, b) := span cls r in (String c a, b)
      else (EmptyString, s)
  end.

Fixpoint all_chars (cls : ascii -> bool) (s : string) : bool :=
  match s with
  | EmptyString => true
  | String c r => cls c && all_chars cls r
  end.

(** JavaScript truthiness of a string that may be undefined. *)
Definition truthy_str (o : option string) : bool :=
  match o with
  | Some (String _ _) => true
  | _ => false
  end.

(** JavaScript truthiness of an integer that may be undefined. *)
Definition truthy_num (o : option Z) : bool :=
  match o with
  | Some n => negb (n =? 0)
  | None => false
  end.

(** [a || b] on strings that may be undefined: [a] when truthy, else [b]. *)
Definition or_else (a b : option string) : option string :=
  if truthy_str a then a else b.

(** [x || ''] *)
Definition or_empty (a : option string) : string :=
  match a with
  | Some s => s
  | None => EmptyString
  end.

(** [xs.join(sep)] *)
Fixpoint join (sep : string) (xs : list string) : string :=
  match xs with
  | [] => EmptyString
  | [x] => x
  | x :: rest => x +:+ sep +:+ join sep rest
  end.

(** [String(x)] for a string that may be undefined, as a constructor or a
    template literal converts its argument. *)
Definition to_string (a : option string) : string :=
  match a with
  | Some s => s
  | None => "undefined"
  end.

End Js.

(* ===================================================================== *)
(** ** Errors and results                                                 *)
(* ===================================================================== *)

(** The message of a thrown error, one constructor per message template.
    A wrapper ([InvalidSessionToken], [TokenExchangeFailed],
    [JwtValidationFailed], [JwtVerificationFailed]) carries the message it
    was built from, as the template literal of the source does. *)
Inductive Msg : Type :=
  (* ShopifyAuthService *)
| MissingConfiguration (key : string)
    (* `Missing required configuration: ${key}` *)
| InvalidJwtPayloadFormat
    (* 'Invalid JWT payload format' *)
| MissingRequiredFields
    (* 'Session token missing required fields (iss, dest, aud, sub)' *)
| InvalidAudience (expected got : string)
    (* `Invalid session token audience. Expected: ..., Got: ...` *)
| TokenExpired (expiredBy : Z)
    (* `Session token expired ${expiredBy} seconds ago` *)
| TokenNotValidFor (notValidFor : Z)
    (* `Session token not valid for ${notValidFor} seconds` *)
| TokenTooOld
    (* 'Session token too old' *)
| InvalidShopDomainInToken (shop : string)
    (* `Invalid shop domain in session token: ${shop}` *)
| InvalidIssuerFormat (iss : string)
    (* `Invalid issuer format: ${payload.iss}` *)
| CannotExtractShop
    (* 'Cannot extract shop domain from session token' *)
| ShopDomainRequired
    (* 'Shop domain is required' *)
| InvalidShopDomainFormat (shop : string)
    (* `Invalid shop domain format: ${shop}` *)
| InvalidShopNameFormat (name : string)
    (* `Invalid shop name format: ${shopName}` *)
| ExchangeRejected (status : Z) (body : string)
    (* `Token exchange failed: ${response.status} ${errorText}` *)
| InvalidSessionToken (cause : Msg)
    (* UnauthorizedException(`Invalid session token: ${errorMessage}`) *)
| TokenExchangeFailed (cause : Msg)
    (* UnauthorizedException(`Token exchange failed: ${errorMessage}`) *)
| FailedToInvalidate (shop : string)
    (* `Failed to invalidate session for shop: ${shop}` *)
  (* ShopifySessionGuard *)
| SecretNotConfigured
    (* 'SHOPIFY_API_SECRET not configured' *)
| InvalidTokenFormat
    (* 'Invalid token format' *)
| JwtValidationFailed (cause : Msg)
    (* `JWT validation failed: ${error.message}` *)
| SessionTokenHasExpired
    (* 'Session token has expired' *)
| SessionTokenNotYetValid
    (* 'Session token is not yet valid' *)
| InvalidAudienceInToken
    (* 'Invalid audience in session token' *)
| DomainsDoNotMatch
    (* 'Issuer and destination domains do not match' *)
| InvalidShopDomainSuffix
    (* 'Invalid shop domain format' *)
| InvalidUrlFormat
    (* 'Invalid URL format' *)
  (* JWKSService *)
| JwksFetchFailed (status : Z) (statusText : string)
    (* `Failed to fetch JWKS: ${response.status} ${response.statusText}` *)
| InvalidJwksFormat
    (* 'Invalid JWKS response format' *)
| MissingKid
    (* 'JWT header missing kid (key ID)' *)
| NoMatchingKey (kid : string)
    (* `No matching key found for kid: ${kid}` *)
| JwtVerificationFailed (cause : Msg)
    (* `JWT verification failed: ${error.message}` *)
| MissingIssuer
    (* 'JWT missing issuer (iss) claim' *)
  (* thrown by a collaborator: a library, the network, the datastore *)
| External (what : string).

Inductive Outcome (A : Type) : Type :=
| Returned (a : A)
| Thrown (e : Msg).

Arguments Returned {A} a.
Arguments Thrown {A} e.

Definition bind {A B : Type} (m : Outcome A) (k : A -> Outcome B) : Outcome B :=
  match m with
  | Returned a => k a
  | Thrown e => Thrown e
  end.

(** [try { m } catch (error) { throw new E(wrap(error.message)) }] *)
Definition rethrow {A : Type} (wrap : Msg -> Msg) (m : Outcome A) : Outcome A :=
  match m with
  | Returned a => Returned a
  | Thrown e => Thrown (wrap e)
  end.

(** [try { m } catch { h }] *)
Definition orElse {A : Type} (m : Outcome A) (h : Msg -> Outcome A) : Outcome A :=
  match m with
  | Returned a => Returned a
  | Thrown e => h e
  end.

Definition guard_that (ok : bool) (e : Msg) : Outcome unit :=
  if ok then Returned tt else Thrown e.

Declare Scope outcome_scope.
Delimit Scope outcome_scope with outcome.
Notation "'let*' x ':=' m 'in' k" := (bind m (fun x => k))
  (at level 10, x name, m at level 100, k at level 200) : outcome_scope.
Notation "'require' b 'orThrow' err 'in' k" := (bind (guard_that b err) (fun _ => k))
  (at level 10, b at level 100, err at level 9, k at level 200) : outcome_scope.
Open Scope outcome_scope.

(* ===================================================================== *)
(** ** Data                                                               *)
(* ===================================================================== *)

(** [SessionTokenPayload] (types/jwt.types.ts). The interface declares
    every claim, the decoded token may lack any of them. *)
Record SessionTokenPayload : Type := {
  iss : option string;
  dest : option string;
  aud : option string;
  sub : option string;
  exp : option Z;
  nbf : option Z;
  iat : option Z;
  jti : option string;
  sid : option string
}.

(** What [JwtService.verify] hands back: an object, or anything else. *)
Inductive Decoded : Type :=
| DecodedObject (p : SessionTokenPayload)
| DecodedOther.

(** [ShopifyUser] (types/shopify.types.ts). *)
Record ShopifyUser : Type := {
  user_id : Z;
  first_name : string;
  last_name : string;
  email : string;
  email_verified : bool;
  account_owner : bool;
  locale : string;
  collaborator : bool
}.

(** The wire format of the token exchange (types/shopify.types.ts). *)
Module Exchange.

(** [ShopifyTokenExchangeResponse]. *)
Record Response : Type := {
  access_token : option string;
  scope : option string;
  expires_in : option Z;
  associated_user_scope : option string;
  associated_user : option ShopifyUser
}.

(** [ShopifyTokenExchangeRequest]. *)
Record Request : Type := {
  client_id : string;
  client_secret : string;
  grant_type : string;
  subject_token : string;
  subject_token_type : string;
  requested_token_type : string
}.

End Exchange.

Inductive TokenType : Type := Online | Offline.

#[global] Instance TokenType_eq_dec : EqDecision TokenType.
Proof. solve_decision. Defined.

(** [JWKSKey] (services/jwks.service.ts). *)
Record JWKSKey : Type := {
  key_kty : string;
  key_kid : string;
  key_use : string;
  key_n : string;
  key_e : string;
  key_alg : string
}.

(** The answer to a [fetch]: the promise rejects, or a response arrives
    with its status, its body as text and its body parsed as JSON ([None]
    when [response.json()] throws). *)
Inductive HttpReply (A : Type) : Type :=
| NetworkFailure (what : string)
| Reply (status : Z) (statusText : string) (text : string) (json : option A).

Arguments NetworkFailure {A} what.
Arguments Reply {A} status statusText text json.

(** [response.ok] *)
Definition status_ok (status : Z) : bool := (200 <=? status) && (status <=? 299).

(** The collaborators of the code. *)
Record Env : Type := {
  (** [ConfigService.get(key)] *)
  config_get : string -> option string;
  (** [process.env.NODE_ENV] *)
  node_env : option string;
  (** [JwtService.verify(token, { secret, algorithms: ['HS256'] })] *)
  jwt_verify : string -> string -> Outcome Decoded;
  (** [jose.decodeJwt(token)] *)
  jose_decodeJwt : string -> Outcome SessionTokenPayload;
  (** [jose.decodeProtectedHeader(token).kid] *)
  jose_header_kid : string -> Outcome (option string);
  (** [jose.importJWK(key)] followed by
      [jose.jwtVerify(token, publicKey, { issuer, audience })] *)
  jose_jwtVerify :
    string -> JWKSKey -> string -> option string -> Outcome SessionTokenPayload;
  (** [new URL(url).hostname], [None] when the constructor throws *)
  url_hostname : string -> option string;
  (** [fetch(jwksUrl)]; the JSON body is [{ keys }], [keys] being [None]
      when the property is missing or not an array *)
  fetch_jwks : string -> HttpReply (option (list JWKSKey));
  (** [fetch(tokenExchangeUrl, { method: 'POST', body })] *)
  fetch_token :
    string -> Exchange.Request -> HttpReply Exchange.Response
}.

Definition is_production (env : Env) : bool :=
  match node_env env with
  | Some v => String.eqb v "production"
  | None => false
  end.

(** [Math.floor(Date.now() / 1000)] *)
Definition seconds (now_ms : Z) : Z := now_ms / 1000.

(** What an [async] function without [return] resolves to, next to a
    number for comparison. *)
Inductive JsValue : Type :=
| JsUndefined
| JsNumber (z : Z).

(** A line of the log. *)
Inductive LogLine : Type :=
| LogInvalidated (affected : nat) (sanitizedShop : string)
    (* `Invalidated ${result.affected} sessions for shop: ${sanitizedShop}` *)
| LogInvalidateError (shop : string) (errorMessage : Msg).
    (* 'Error invalidating session:', { shop, error } *)

(** The exceptions a controller or a guard answers a request with. *)
Inductive HttpError : Type :=
| UnauthorizedException (message : string)
| BadRequestException (message : string).

(** What a request handler does: it returns a body or throws. *)
Inductive HttpResult (A : Type) : Type :=
| Completed (body : A)
| Rejected (error : HttpError).

Arguments Completed {A} body.
Arguments Rejected {A} error.

(** The latest and earliest instants a [Date] can hold, in milliseconds:
    outside them the date is invalid and [toISOString] throws. *)
Definition MAX_DATE_MS : Z := 8640000000000000.

(** [new Date(seconds * 1000).toISOString()]: the instant rendered, in
    milliseconds; [None] when the call throws, as it does for an undefined
    argument (the product is NaN) and past the range of [Date]. *)
Definition iso_of_seconds (t : option Z) : option Z :=
  match t with
  | Some x =>
      if (- MAX_DATE_MS <=? x * 1000) && (x * 1000 <=? MAX_DATE_MS)
      then Some (x * 1000) else None
  | None => None
  end.

(* ===================================================================== *)
(** ** The session table                                                  *)
(* ===================================================================== *)

(** The columns of [ShopifySession] (entities/shopify-session.entity.ts)
    other than the primary column [id], which is the key of the table.
    In an instance handed to [save], [None] is a property left undefined;
    in a stored row it is SQL NULL. *)
Record ShopifySession : Type := {
  shop : string;
  userId : option string;
  accessToken : option string;
  onlineAccessToken : option string;
  scope : list string;
  expiresAt : option Z;
  userInfo : option ShopifyUser;
  createdAt : Z;
  updatedAt : Z;
  isActive : bool
}.

(** The table [shopify_sessions]: primary key [id] to the other columns. *)
Abbreviation Table := (gmap string ShopifySession).

Module Datastore.

(** The where-clause [{ shop, isActive: true }]. *)
Definition active_in (s : string) (kr : string * ShopifySession) : Prop :=
  shop kr.2 = s /\ isActive kr.2 = true.

#[global] Instance active_in_dec s kr : Decision (active_in s kr).
Proof. unfold active_in. apply _. Defined.

(** The set clause [{ isActive: false, updatedAt: new Date() }]. *)
Definition deactivated (now_ms : Z) (r : ShopifySession) : ShopifySession :=
  {| shop := shop r; userId := userId r; accessToken := accessToken r;
     onlineAccessToken := onlineAccessToken r; scope := scope r;
     expiresAt := expiresAt r; userInfo := userInfo r;
     createdAt := createdAt r; updatedAt := now_ms; isActive := false |}.

(** [update(ShopifySession, { shop, isActive: true },
            { isActive: false, updatedAt: new Date() })]:
    the number of rows affected and the table afterwards. *)
Definition update (s : string) (now_ms : Z) (tbl : Table) : nat * Table :=
  (size (filter (active_in s) tbl),
   (fun r => if decide (shop r = s /\ isActive r = true)
             then deactivated now_ms r else r) <$> tbl).

(** What an UPDATE issued by [save] leaves in a row that exists: a
    property of the instance that is undefined is not written, the column
    keeps what it held. *)
Definition merged (old new : ShopifySession) : ShopifySession :=
  {| shop := shop new;
     userId := from_option Some (userId old) (userId new);
     accessToken := from_option Some (accessToken old) (accessToken new);
     onlineAccessToken :=
       from_option Some (onlineAccessToken old) (onlineAccessToken new);
     scope := scope new;
     expiresAt := from_option Some (expiresAt old) (expiresAt new);
     userInfo := from_option Some (userInfo old) (userInfo new);
     createdAt := createdAt new;
     updatedAt := updatedAt new;
     isActive := isActive new |}.

Section Save.

(** The constraints the schema puts on the table beyond the primary key
    (NOT NULL columns, unique indexes): a statement that would leave the
    table in a state they refuse fails. *)
Variable schema_ok : Table -> bool.

(** [save(entity)]: UPDATE when a row with the primary key exists, INSERT
    otherwise; the row as stored and the table afterwards. An instance
    without primary key cannot be stored. *)
Definition save (key : option string) (entity : ShopifySession) (tbl : Table)
  : Outcome (string * ShopifySession * Table) :=
  match key with
  | None => Thrown (External "null value in column id")
  | Some k =>
      let row := match tbl !! k with
                 | Some old => merged old entity
                 | None => entity
                 end in
      let tbl' := <[k := row]> tbl in
      if schema_ok tbl' then Returned (k, row, tbl')
      else Thrown (External "constraint violation")
  end.

End Save.

(** [manager.transaction(body)]: the statements of a body that throws are
    rolled back. *)
Definition transaction {A : Type} (body : Table -> Outcome (A * Table))
    (tbl : Table) : Outcome A * Table :=
  match body tbl with
  | Returned (a, tbl') => (Returned a, tbl')
  | Thrown err => (Thrown err, tbl)
  end.

(** The schema of the table that TypeORM synchronizes with the entity:
    [accessToken] and [userId] are not nullable. *)
Definition entity_schema (tbl : Table) : bool :=
  bool_decide (map_Forall
    (fun _ r => is_Some (accessToken r) /\ is_Some (userId r)) tbl).

(** The rows
    [findOne({ where: { shop, isActive: true }, order: { updatedAt: 'DESC' } })]
    may return: the active rows of the shop that none is newer than. *)
Definition newest_active (s : string) (tbl : Table)
  : list (string * ShopifySession) :=
  let rows := map_to_list (filter (active_in s) tbl) in
  filter (fun kr : string * ShopifySession =>
            Forall (fun kr' : string * ShopifySession =>
                      updatedAt kr'.2 <= updatedAt kr.2) rows)
         rows.

(** Which of several equally new rows comes back is the database's choice:
    it returns one of them, and nothing only when there is none. *)
Definition Choice : Type :=
  list (string * ShopifySession) -> option (string * ShopifySession).

Definition chooses (pick : Choice) : Prop :=
  forall rows,
    match pick rows with
    | Some kr => kr ∈ rows
    | None => rows = []
    end.

(** [findOne]: the data source declares no query cache, so the [cache]
    option of the call has no effect. *)
Definition findOne (pick : Choice) (s : string) (tbl : Table)
  : option (string * ShopifySession) :=
  pick (newest_active s tbl).

End Datastore.

(* ===================================================================== *)
(** ** ShopifyAuthService                                                 *)
(* ===================================================================== *)

Module ShopifyAuthService.


Definition SESSION_TOKEN_LIFETIME : Z := 60.

(** [getRequiredConfig] *)
Definition getRequiredConfig (env : Env) (key : string) : Outcome string :=
  match config_get env key with
  | Some (String c r) => Returned (String c r)
  | _ => Thrown (MissingConfiguration key)
  end.

(** [/^[a-zA-Z0-9][a-zA-Z0-9-]*SUFFIX$/] for SUFFIX one of [suffixes]
    (each starts with a dot, which the class before it excludes, so the
    class consumes the whole run of letters, digits and dashes). *)
Definition host_with_suffix (suffixes : list string) (shop : string) : bool :=
  match shop with
  | String c r =>
      Js.is_alnum c &&
      existsb (String.eqb (snd (Js.span Js.is_alnum_dash r))) suffixes
  | EmptyString => false
  end.

(** [isValidShopDomain] *)
Definition isValidShopDomain (env : Env) (shop : string) : bool :=
  match shop with
  | EmptyString => false
  | _ =>
      host_with_suffix [".myshopify.com"] shop ||
      (negb (is_production env) &&
       host_with_suffix [".ngrok.io"; ".localhost"; ".local"] shop)
  end.

(** [s.replace(/^https?:\/\//, '')] *)
Definition strip_protocol (s : string) : string :=
  match Js.strip_prefix "https://" s with
  | Some r => r
  | None =>
      match Js.strip_prefix "http://" s with
      | Some r => r
      | None => s
      end
  end.

(** Group 1 of
    [/^([a-z0-9-]+)(?:\.myshopify\.com|\.ngrok\.io|\.localhost|\.local)?/]:
    the greedy [+] takes the longest run, after which the optional group
    matches whatever follows (as one of its alternatives or as nothing), so
    the match fails only when the run is empty. *)
Definition shop_name_match (s : string) : option string :=
  match fst (Js.span Js.is_label_char s) with
  | EmptyString => None
  | name => Some name
  end.

(** [sanitizeShop] *)
Definition sanitizeShop (env : Env) (shop : string) : Outcome string :=
  match shop with
  | EmptyString => Thrown ShopDomainRequired
  | _ =>
      let cleanShop := Js.toLowerCase (Js.trim shop) in
      let withoutProtocol := strip_protocol cleanShop in
      match shop_name_match withoutProtocol with
      | None => Thrown (InvalidShopDomainFormat shop)
      | Some shopName =>
          match shopName with
          | EmptyString => Thrown (InvalidShopNameFormat shopName)
          | _ =>
              if negb (Js.all_chars Js.is_label_char shopName)
              then Thrown (InvalidShopNameFormat shopName)
              else if is_production env
              then Returned (shopName +:+ ".myshopify.com")
              else if Js.includes ".ngrok.io" withoutProtocol
                      || Js.includes ".localhost" withoutProtocol
                      || Js.includes ".local" withoutProtocol
              then Returned withoutProtocol
              else Returned (shopName +:+ ".myshopify.com")
          end
      end
  end.

(** [extractShopFromPayload] *)
Definition extractShopFromPayload (env : Env) (payload : SessionTokenPayload)
  : Outcome string :=
  let shop :=
    if Js.truthy_str (iss payload) then
      Js.before_first "/"
        (Js.remove_first "/admin"
           (Js.remove_first "https://" (Js.or_empty (iss payload))))
    else if Js.truthy_str (dest payload) then
      Js.before_first "/"
        (Js.remove_first "https://" (Js.or_empty (dest payload)))
    else EmptyString in
  match shop with
  | EmptyString => Thrown CannotExtractShop
  | _ => sanitizeShop env shop
  end.

(** [validateTokenPayload] *)
Definition validateTokenPayload (env : Env) (now_ms : Z)
    (payload : SessionTokenPayload) (expectedClientId : string) : Outcome unit :=
  let now := seconds now_ms in
  require (Js.truthy_str (iss payload) && Js.truthy_str (dest payload)
           && Js.truthy_str (aud payload) && Js.truthy_str (sub payload))
    orThrow MissingRequiredFields in
  require (String.eqb (Js.or_empty (aud payload)) expectedClientId)
    orThrow (InvalidAudience expectedClientId (Js.or_empty (aud payload))) in
  require negb (Js.truthy_num (exp payload) && (default 0 (exp payload) <? now))
    orThrow (TokenExpired (now - default 0 (exp payload))) in
  require negb (Js.truthy_num (nbf payload) && (default 0 (nbf payload) >? now))
    orThrow (TokenNotValidFor (default 0 (nbf payload) - now)) in
  require negb (Js.truthy_num (iat payload)
                && (now - default 0 (iat payload) >? SESSION_TOKEN_LIFETIME + 30))
    orThrow TokenTooOld in
  let* shop := extractShopFromPayload env payload in
  require (isValidShopDomain env shop) orThrow (InvalidShopDomainInToken shop) in
  require (Js.includes ".myshopify.com" (Js.or_empty (iss payload)))
    orThrow (InvalidIssuerFormat (Js.or_empty (iss payload))) in
  Returned tt.

(** [validateSessionToken] of the service: HMAC verification with the
    client secret, then [validateTokenPayload]; every error leaves as an
    [UnauthorizedException]. *)
Definition validateSessionToken (env : Env) (now_ms : Z) (sessionToken : string)
  : Outcome SessionTokenPayload :=
  rethrow InvalidSessionToken
    (let* clientSecret := getRequiredConfig env "SHOPIFY_API_SECRET" in
     let* clientId := getRequiredConfig env "SHOPIFY_API_KEY" in
     let* rawPayload := jwt_verify env sessionToken clientSecret in
     let* payload := match rawPayload with
                     | DecodedObject p => Returned p
                     | DecodedOther => Thrown InvalidJwtPayloadFormat
                     end in
     let* _ := validateTokenPayload env now_ms payload clientId in
     let* _ := extractShopFromPayload env payload in
     Returned payload).


Definition token_exchange_url (s : string) : string :=
  "https://" +:+ s +:+ "/admin/oauth/access_token".

Definition requested_urn (tokenType : TokenType) : string :=
  match tokenType with
  | Online => "urn:shopify:params:oauth:token-type:online-access-token"
  | Offline => "urn:shopify:params:oauth:token-type:offline-access-token"
  end.

(** The [requestBody] of [performTokenExchange]. *)
Definition request_body (clientId clientSecret sessionToken : string)
    (tokenType : TokenType) : Exchange.Request :=
  {| Exchange.client_id := clientId;
     Exchange.client_secret := clientSecret;
     Exchange.grant_type := "urn:ietf:params:oauth:grant-type:token-exchange";
     Exchange.subject_token := sessionToken;
     Exchange.subject_token_type := "urn:ietf:params:oauth:token-type:id_token";
     Exchange.requested_token_type := requested_urn tokenType |}.

(** [performTokenExchange]: the result and the URLs requested. *)
Definition performTokenExchange (env : Env) (s sessionToken : string)
    (tokenType : TokenType) : Outcome Exchange.Response * list string :=
  match getRequiredConfig env "SHOPIFY_API_KEY" with
  | Thrown err => (Thrown err, [])
  | Returned clientId =>
      match getRequiredConfig env "SHOPIFY_API_SECRET" with
      | Thrown err => (Thrown err, [])
      | Returned clientSecret =>
          let tokenExchangeUrl := token_exchange_url s in
          let requestBody :=
            request_body clientId clientSecret sessionToken tokenType in
          (match fetch_token env tokenExchangeUrl requestBody with
           | NetworkFailure what => Thrown (External what)
           | Reply status _ errorText json =>
               if negb (status_ok status)
               then Thrown (ExchangeRejected status errorText)
               else match json with
                    | Some result => Returned result
                    | None => Thrown (External "invalid json response body")
                    end
           end, [tokenExchangeUrl])
      end
  end.

(** The instance [storeSession] builds: [manager.create] and the
    assignments that depend on the token type. *)
Definition new_session (now_ms : Z) (s : string) (payload : SessionTokenPayload)
    (tokenResponse : Exchange.Response) (tokenType : TokenType) : ShopifySession :=
  {| shop := s;
     userId := sub payload;
     accessToken :=
       match tokenType with
       | Online => None
       | Offline => Exchange.access_token tokenResponse
       end;
     onlineAccessToken :=
       match tokenType with
       | Online => Exchange.access_token tokenResponse
       | Offline => None
       end;
     scope :=
       if Js.truthy_str (Exchange.scope tokenResponse)
       then Js.split "," (Js.or_empty (Exchange.scope tokenResponse))
       else [];
     expiresAt :=
       match tokenType with
       | Online =>
           if Js.truthy_num (Exchange.expires_in tokenResponse)
           then Some (now_ms + default 0 (Exchange.expires_in tokenResponse) * 1000)
           else None
       | Offline => None
       end;
     userInfo :=
       match tokenType with
       | Online => Exchange.associated_user tokenResponse
       | Offline => None
       end;
     createdAt := now_ms;
     updatedAt := now_ms;
     isActive := true |}.

(** The body of the transaction of [storeSession]. *)
Definition storeSession_body (schema_ok : Table -> bool) (now_ms : Z)
    (s : string) (payload : SessionTokenPayload)
    (tokenResponse : Exchange.Response) (tokenType : TokenType)
    (tbl : Table) : Outcome (string * ShopifySession * Table) :=
  let tbl1 := (Datastore.update s now_ms tbl).2 in
  let session := new_session now_ms s payload tokenResponse tokenType in
  Datastore.save schema_ok (Js.or_else (sid payload) (jti payload)) session tbl1.

(** [storeSession] *)
Definition storeSession (schema_ok : Table -> bool) (now_ms : Z)
    (s : string) (payload : SessionTokenPayload)
    (tokenResponse : Exchange.Response) (tokenType : TokenType)
    (tbl : Table) : Outcome (string * ShopifySession) * Table :=
  Datastore.transaction
    (fun t =>
       let* saved :=
         storeSession_body schema_ok now_ms s payload tokenResponse tokenType t in
       Returned (saved.1, saved.2))
    tbl.

(** What a call of [exchangeSessionToken] leaves behind. *)
Record ExchangeRun : Type := {
  result : Outcome Exchange.Response;
  table_after : Table;
  requested : list string
}.

(** [exchangeSessionToken] *)
Definition exchangeSessionToken (env : Env) (schema_ok : Table -> bool)
    (now_ms : Z) (tbl : Table) (sessionToken : string) (tokenType : TokenType)
  : ExchangeRun :=
  match validateSessionToken env now_ms sessionToken with
  | Thrown err =>
      {| result := Thrown (TokenExchangeFailed err);
         table_after := tbl; requested := [] |}
  | Returned payload =>
      match extractShopFromPayload env payload with
      | Thrown err =>
          {| result := Thrown (TokenExchangeFailed err);
             table_after := tbl; requested := [] |}
      | Returned s =>
          match performTokenExchange env s sessionToken tokenType with
          | (Thrown err, urls) =>
              {| result := Thrown (TokenExchangeFailed err);
                 table_after := tbl; requested := urls |}
          | (Returned response, urls) =>
              match storeSession schema_ok now_ms s payload response tokenType tbl with
              | (Thrown err, tbl') =>
                  {| result := Thrown (TokenExchangeFailed err);
                     table_after := tbl'; requested := urls |}
              | (Returned _, tbl') =>
                  {| result := Returned response;
                     table_after := tbl'; requested := urls |}
              end
          end
      end
  end.

(** What a call of [invalidateSession] leaves behind. *)
Record InvalidateRun : Type := {
  resolved : Outcome JsValue;
  table_left : Table;
  logged : list LogLine
}.

(** [invalidateSession]: declared [Promise<void>], the count of affected
    rows goes to the log only. *)
Definition invalidateSession (env : Env) (now_ms : Z) (tbl : Table)
    (s : string) : InvalidateRun :=
  match sanitizeShop env s with
  | Returned sanitizedShop =>
      let '(affected, tbl') := Datastore.update sanitizedShop now_ms tbl in
      {| resolved := Returned JsUndefined;
         table_left := tbl';
         logged := [LogInvalidated affected sanitizedShop] |}
  | Thrown err =>
      {| resolved := Thrown (FailedToInvalidate s);
         table_left := tbl;
         logged := [LogInvalidateError s err] |}
  end.

(** [getSessionByShop]: the row found, with its [id]; null when there is
    none and when the shop cannot be sanitized. *)
Definition getSessionByShop (env : Env) (pick : Datastore.Choice) (tbl : Table)
    (s : string) : option (string * ShopifySession) :=
  match sanitizeShop env s with
  | Returned sanitizedShop => Datastore.findOne pick sanitizedShop tbl
  | Thrown _ => None
  end.

(** [session.expiresAt && new Date(session.expiresAt) > new Date()] *)
Definition expires_later (now_ms : Z) (session : ShopifySession) : bool :=
  match expiresAt session with
  | Some t => t >? now_ms
  | None => false
  end.

(** [refreshOnlineToken] *)
Definition refreshOnlineToken (env : Env) (pick : Datastore.Choice)
    (now_ms : Z) (tbl : Table) (s : string) : option string :=
  match getSessionByShop env pick tbl s with
  | None => None
  | Some (_, session) =>
      if negb (Js.truthy_str (onlineAccessToken session)) then None
      else if expires_later now_ms session then onlineAccessToken session
      else None
  end.

Definition requiredConfigs : list string :=
  ["SHOPIFY_API_KEY"; "SHOPIFY_API_SECRET"].

(** [validateConfiguration], run by the constructor. *)
Definition validateConfiguration (env : Env) : Outcome unit :=
  match List.filter (fun key => negb (Js.truthy_str (config_get env key)))
          requiredConfigs with
  | [] => Returned tt
  | missingConfigs => Thrown (MissingConfiguration (Js.join ", " missingConfigs))
  end.

(** [HealthCheckResponse] as [healthCheck] fills it; [timestamp] is the
    instant that [toISOString] renders. *)
Record HealthCheckResponse : Type := {
  status : string;
  timestamp : Z;
  version : string;
  shopifyApiVersion : string;
  configuration : list (string * bool);
  dependencies : list (string * bool)
}.

(** [healthCheck] *)
Definition healthCheck (env : Env) (now_ms : Z) : HealthCheckResponse :=
  let configStatus :=
    List.map (fun key => (key, Js.truthy_str (config_get env key)))
      requiredConfigs in
  let allConfigsValid := forallb snd configStatus in
  {| status := if allConfigsValid then "healthy" else "degraded";
     timestamp := now_ms;
     version := "2.0.0";
     shopifyApiVersion := "2025-07";
     configuration := configStatus;
     dependencies := [("database", true); ("jwt", true)] |}.

End ShopifyAuthService.

(* ===================================================================== *)
(** ** JWKSService                                                        *)
(* ===================================================================== *)

Module JWKSService.

(** The two maps of the service: [jwksCache] and [cacheExpiry]. *)
Record Cache : Type := {
  jwksCache : gmap string (list JWKSKey);
  cacheExpiry : gmap string Z
}.

Definition CACHE_TTL : Z := 3600000.

Definition cache_key (s : string) : string := "shopify_" +:+ s.

Definition jwks_url (s : string) : string :=
  "https://" +:+ s +:+ "/.well-known/jwks.json".

(** [isValidCache] *)
Definition isValidCache (now_ms : Z) (c : Cache) (cacheKey : string) : bool :=
  match cacheExpiry c !! cacheKey with
  | Some expiry => negb (expiry =? 0) && (now_ms <? expiry)
  | None => false
  end.

(** [getShopifyJWKS]: the keys ([None] when the cache holds an expiry
    without keys, which [get(cacheKey)!] passes on as undefined) and the
    cache afterwards. *)
Definition getShopifyJWKS (env : Env) (now_ms : Z) (c : Cache) (s : string)
  : Outcome (option (list JWKSKey)) * Cache :=
  let cacheKey := cache_key s in
  if isValidCache now_ms c cacheKey then (Returned (jwksCache c !! cacheKey), c)
  else
    match fetch_jwks env (jwks_url s) with
    | NetworkFailure what => (Thrown (External what), c)
    | Reply status statusText _ json =>
        if negb (status_ok status)
        then (Thrown (JwksFetchFailed status statusText), c)
        else match json with
             | None => (Thrown (External "invalid json response body"), c)
             | Some None => (Thrown InvalidJwksFormat, c)
             | Some (Some keys) =>
                 (Returned (Some keys),
                  {| jwksCache := <[cacheKey := keys]> (jwksCache c);
                     cacheExpiry :=
                       <[cacheKey := now_ms + CACHE_TTL]> (cacheExpiry c) |})
             end
    end.

(** [keys.find((k) => k.kid === kid)] *)
Definition find_key (kid : string) (keys : list JWKSKey) : option JWKSKey :=
  List.find (fun k => String.eqb (key_kid k) kid) keys.

(** [verifyJWT] *)
Definition verifyJWT (env : Env) (now_ms : Z) (c : Cache) (token s : string)
  : Outcome SessionTokenPayload * Cache :=
  let '(fetched, c') := getShopifyJWKS env now_ms c s in
  (rethrow JwtVerificationFailed
     (let* keys := fetched in
      let* header_kid := jose_header_kid env token in
      let* kid := match header_kid with
                  | Some (String a r) => Returned (String a r)
                  | _ => Thrown MissingKid
                  end in
      let* keys := match keys with
                   | Some ks => Returned ks
                   | None => Thrown (External "keys is undefined")
                   end in
      let* key := match find_key kid keys with
                  | Some k => Returned k
                  | None => Thrown (NoMatchingKey kid)
                  end in
      jose_jwtVerify env token key ("https://" +:+ s)
        (config_get env "SHOPIFY_API_KEY")),
   c').

(** [validateSessionToken] of the JWKS service. *)
Definition validateSessionToken (env : Env) (now_ms : Z) (c : Cache)
    (token : string) : Outcome SessionTokenPayload * Cache :=
  match jose_decodeJwt env token with
  | Thrown err => (Thrown err, c)
  | Returned payload =>
      if negb (Js.truthy_str (iss payload)) then (Thrown MissingIssuer, c)
      else
        match url_hostname env (Js.or_empty (iss payload)) with
        | None => (Thrown (External "Invalid URL"), c)
        | Some s => verifyJWT env now_ms c token s
        end
  end.

(** [clearCache] *)
Definition clearCache (c : Cache) (s : string) : Cache :=
  {| jwksCache := delete (cache_key s) (jwksCache c);
     cacheExpiry := delete (cache_key s) (cacheExpiry c) |}.

(** [clearAllCache] *)
Definition clearAllCache (c : Cache) : Cache :=
  {| jwksCache := ∅; cacheExpiry := ∅ |}.

End JWKSService.

(* ===================================================================== *)
(** ** ShopifySessionGuard                                                *)
(* ===================================================================== *)

Module ShopifySessionGuard.

(** [extractDomainFromUrl] *)
Definition extractDomainFromUrl (env : Env) (url : string) : Outcome string :=
  match url_hostname env url with
  | Some h => Returned h
  | None => Thrown InvalidUrlFormat
  end.

(** [a <= b] and [a > b] when [a] may be undefined: a comparison with
    undefined is false. *)
Definition num_le (a : option Z) (b : Z) : bool :=
  match a with Some x => x <=? b | None => false end.
Definition num_gt (a : option Z) (b : Z) : bool :=
  match a with Some x => x >? b | None => false end.

(** [token.aud !== clientId] *)
Definition differs (a b : option string) : bool :=
  negb (bool_decide (a = b)).

(** [validateTokenClaims] *)
Definition validateTokenClaims (env : Env) (now_ms : Z)
    (token : SessionTokenPayload) : Outcome unit :=
  let now := seconds now_ms in
  let clientId := config_get env "SHOPIFY_API_KEY" in
  require negb (num_le (exp token) now) orThrow SessionTokenHasExpired in
  require negb (num_gt (nbf token) now) orThrow SessionTokenNotYetValid in
  require negb (differs (aud token) clientId) orThrow InvalidAudienceInToken in
  let* issuerDomain :=
    extractDomainFromUrl env (Js.or_empty (Js.or_else (iss token) (Some ""))) in
  let* destDomain :=
    extractDomainFromUrl env (Js.or_empty (Js.or_else (dest token) (Some ""))) in
  require (String.eqb issuerDomain destDomain) orThrow DomainsDoNotMatch in
  require (Js.endsWith ".myshopify.com" destDomain)
    orThrow InvalidShopDomainSuffix in
  Returned tt.

(** [validateWithSecret] *)
Definition validateWithSecret (env : Env) (now_ms : Z) (token : string)
  : Outcome SessionTokenPayload :=
  match config_get env "SHOPIFY_API_SECRET" with
  | Some (String a r) =>
      let clientSecret := String a r in
      rethrow JwtValidationFailed
        (let* decoded := jwt_verify env token clientSecret in
         let* typedDecoded := match decoded with
                              | DecodedObject p => Returned p
                              | DecodedOther => Thrown InvalidTokenFormat
                              end in
         let* _ := validateTokenClaims env now_ms typedDecoded in
         Returned typedDecoded)
  | _ => Thrown SecretNotConfigured
  end.

(** The [try] block of [validateSessionToken]: key-set verification
    followed by the claim checks. *)
Definition validateWithJwks (env : Env) (now_ms : Z) (c : JWKSService.Cache)
    (token : string) : Outcome SessionTokenPayload * JWKSService.Cache :=
  let '(verified, c') := JWKSService.validateSessionToken env now_ms c token in
  (let* decoded := verified in
   let* _ := validateTokenClaims env now_ms decoded in
   Returned decoded,
   c').

(** [validateSessionToken] of the guard. *)
Definition validateSessionToken (env : Env) (now_ms : Z) (c : JWKSService.Cache)
    (token : string) : Outcome SessionTokenPayload * JWKSService.Cache :=
  let '(first, c') := validateWithJwks env now_ms c token in
  (orElse first (fun _ => validateWithSecret env now_ms token), c').

(** The parts of the request the guard reads: the [Authorization] header
    and the [id_token] query parameter. *)
Record Request : Type := {
  authorization : option string;
  query_id_token : option string
}.

(** [extractSessionToken] *)
Definition extractSessionToken (request : Request) : option string :=
  match
    match authorization request with
    | Some authHeader => Js.strip_prefix "Bearer " authHeader
    | None => None
    end
  with
  | Some token => Some token
  | None =>
      if Js.truthy_str (query_id_token request) then query_id_token request
      else None
  end.

(** [extractShopFromDest] *)
Definition extractShopFromDest (env : Env) (destination : option string)
  : option string :=
  url_hostname env (Js.to_string destination).

(** What [canActivate] attaches to the request it lets through. *)
Record Attached : Type := {
  shopifySession : SessionTokenPayload;
  attached_shop : string;
  originalSessionToken : string
}.

(** [canActivate]: every error of the [try] block leaves as
    [UnauthorizedException('Invalid session token')]. *)
Definition canActivate (env : Env) (now_ms : Z) (c : JWKSService.Cache)
    (request : Request) : HttpResult Attached * JWKSService.Cache :=
  match extractSessionToken request with
  | Some (String a r) =>
      let sessionToken := String a r in
      let '(validated, c') := validateSessionToken env now_ms c sessionToken in
      (match validated with
       | Returned decodedToken =>
           match extractShopFromDest env (dest decodedToken) with
           | Some h =>
               Completed {| shopifySession := decodedToken;
                            attached_shop := h;
                            originalSessionToken := sessionToken |}
           | None => Rejected (UnauthorizedException "Invalid session token")
           end
       | Thrown _ => Rejected (UnauthorizedException "Invalid session token")
       end, c')
  | _ => (Rejected (UnauthorizedException "Invalid session token"), c)
  end.

End ShopifySessionGuard.

(* ===================================================================== *)
(** ** AuthController                                                     *)
(* ===================================================================== *)

(** The response bodies of the controller (types/shopify.types.ts); a
    property the handler leaves out is [None]. *)
Module SessionValidationResult.
Record t : Type := {
  success : bool;
  shop : option string;
  userId : option string;
  expiresAt : option Z
}.
End SessionValidationResult.

Module TokenExchangeResult.
Record t : Type := {
  success : bool;
  access_token : option string;
  scope : option string;
  expires_in : option Z;
  token_type : TokenType;
  associated_user : option ShopifyUser
}.
End TokenExchangeResult.

Module SessionInfo.
Record t : Type := {
  hasSession : bool;
  shop : string;
  isActive : option bool;
  hasOnlineToken : option bool;
  hasOfflineToken : option bool;
  scope : option (list string);
  expiresAt : option Z;
  updatedAt : option Z
}.
End SessionInfo.

Module LogoutResponse.
Record t : Type := {
  success : bool;
  message : string
}.
End LogoutResponse.

Module AuthController.

(** [authHeader?.startsWith('Bearer ')] and [authHeader.substring(7)] *)
Definition bearer (authHeader : option string) : option string :=
  match authHeader with
  | Some h => Js.strip_prefix "Bearer " h
  | None => None
  end.

(** [a || b] where [b] is computed only when [a] is falsy *)
Definition first_truthy (a b : option string) : option string :=
  if Js.truthy_str a then a else b.

(** [validateToken] *)
Definition validateToken (env : Env) (now_ms : Z) (authHeader : option string)
  : HttpResult SessionValidationResult.t :=
  match bearer authHeader with
  | None =>
      Rejected (UnauthorizedException "Missing or invalid authorization header")
  | Some sessionToken =>
      match ShopifyAuthService.validateSessionToken env now_ms sessionToken with
      | Returned payload =>
          match iso_of_seconds (exp payload) with
          | Some instant =>
              Completed
                {| SessionValidationResult.success := true;
                   SessionValidationResult.shop :=
                     first_truthy
                       (Js.remove_first "https://" <$> dest payload)
                       ((fun i => Js.remove_first "/admin"
                                    (Js.remove_first "https://" i))
                          <$> iss payload);
                   SessionValidationResult.userId := sub payload;
                   SessionValidationResult.expiresAt := Some instant |}
          | None => Rejected (UnauthorizedException "Invalid session token")
          end
      | Thrown _ => Rejected (UnauthorizedException "Invalid session token")
      end
  end.

(** What a call of [exchangeToken] leaves behind. *)
Record ExchangeReply : Type := {
  reply : HttpResult TokenExchangeResult.t;
  reply_table : Table;
  reply_requested : list string
}.

(** [exchangeToken]; [tokenType] is [None] when the body does not name
    one, and then ['offline']. *)
Definition exchangeToken (env : Env) (schema_ok : Table -> bool) (now_ms : Z)
    (tbl : Table) (authHeader : option string) (tokenType : option TokenType)
  : ExchangeReply :=
  match bearer authHeader with
  | None =>
      {| reply := Rejected (UnauthorizedException
                              "Missing or invalid authorization header");
         reply_table := tbl; reply_requested := [] |}
  | Some sessionToken =>
      let ty := default Offline tokenType in
      let run := ShopifyAuthService.exchangeSessionToken
                   env schema_ok now_ms tbl sessionToken ty in
      {| reply :=
           match ShopifyAuthService.result run with
           | Returned result =>
               Completed
                 {| TokenExchangeResult.success := true;
                    TokenExchangeResult.access_token := Exchange.access_token result;
                    TokenExchangeResult.scope := Exchange.scope result;
                    TokenExchangeResult.token_type := ty;
                    TokenExchangeResult.expires_in := Exchange.expires_in result;
                    TokenExchangeResult.associated_user :=
                      Exchange.associated_user result |}
           | Thrown _ => Rejected (UnauthorizedException "Token exchange failed")
           end;
         reply_table := ShopifyAuthService.table_after run;
         reply_requested := ShopifyAuthService.requested run |}
  end.

(** [getSession]; the query parameter is [None] when the request has
    none. *)
Definition getSession (env : Env) (pick : Datastore.Choice) (tbl : Table)
    (shopParam : option string) : HttpResult SessionInfo.t :=
  match shopParam with
  | Some (String a r) =>
      let s := String a r in
      match ShopifyAuthService.getSessionByShop env pick tbl s with
      | None =>
          Completed {| SessionInfo.hasSession := false; SessionInfo.shop := s;
                       SessionInfo.isActive := None;
                       SessionInfo.hasOnlineToken := None;
                       SessionInfo.hasOfflineToken := None;
                       SessionInfo.scope := None;
                       SessionInfo.expiresAt := None;
                       SessionInfo.updatedAt := None |}
      | Some (_, session) =>
          Completed {| SessionInfo.hasSession := true;
                       SessionInfo.shop := shop session;
                       SessionInfo.isActive := Some (isActive session);
                       SessionInfo.hasOnlineToken :=
                         Some (Js.truthy_str (onlineAccessToken session));
                       SessionInfo.hasOfflineToken :=
                         Some (Js.truthy_str (accessToken session));
                       SessionInfo.scope := Some (scope session);
                       SessionInfo.expiresAt := expiresAt session;
                       SessionInfo.updatedAt := Some (updatedAt session) |}
      end
  | _ => Rejected (BadRequestException "Shop parameter required")
  end.

(** What a call of [logout] leaves behind. *)
Record LogoutReply : Type := {
  logout_reply : HttpResult LogoutResponse.t;
  logout_table : Table
}.

(** [logout] *)
Definition logout (env : Env) (now_ms : Z) (tbl : Table)
    (shopParam : option string) : LogoutReply :=
  match shopParam with
  | Some (String a r) =>
      let s := String a r in
      let run := ShopifyAuthService.invalidateSession env now_ms tbl s in
      {| logout_reply :=
           match ShopifyAuthService.resolved run with
           | Returned _ =>
               Completed
                 {| LogoutResponse.success := true;
                    LogoutResponse.message :=
                      "Sessions invalidated for shop: " +:+ s |}
           | Thrown _ => Rejected (UnauthorizedException "Logout failed")
           end;
         logout_table := ShopifyAuthService.table_left run |}
  | _ =>
      {| logout_reply := Rejected (BadRequestException "Shop parameter required");
         logout_table := tbl |}
  end.

End AuthController.

(* ===================================================================== *)
(** ** The gateway's ShopifyAuthService                                   *)
(* ===================================================================== *)

(** [ShopifyAuthService] of the API gateway
    (api-gateway/src/services/shopify-auth.service.ts). *)
Module GatewayAuthService.

(** [this.shopifyApiKey] and [this.shopifyApiSecret]:
    [configService.get(key) || ''] *)
Definition shopifyApiKey (env : Env) : string :=
  Js.or_empty (Js.or_else (config_get env "SHOPIFY_API_KEY") (Some "")).
Definition shopifyApiSecret (env : Env) : string :=
  Js.or_empty (Js.or_else (config_get env "SHOPIFY_API_SECRET") (Some "")).

(** Group 1 of [/^([a-z0-9-]+)(?:\.myshopify\.com)?/] *)
Definition shop_name_match (s : string) : option string :=
  match fst (Js.span Js.is_label_char s) with
  | EmptyString => None
  | name => Some name
  end.

(** [sanitizeShop]: the empty string for what it cannot sanitize. *)
Definition sanitizeShop (s : string) : string :=
  match s with
  | EmptyString => EmptyString
  | _ =>
      let cleanShop := Js.toLowerCase (Js.trim s) in
      let withoutProtocol := ShopifyAuthService.strip_protocol cleanShop in
      match shop_name_match withoutProtocol with
      | None => EmptyString
      | Some shopName => shopName +:+ ".myshopify.com"
      end
  end.

(** [validateSessionToken]: true or false, never an exception. *)
Definition validateSessionToken (env : Env) (now_ms : Z) (sessionToken : string)
  : bool :=
  match shopifyApiSecret env with
  | EmptyString => false
  | secret =>
      match jwt_verify env sessionToken secret with
      | Returned (DecodedObject payload) =>
          Js.truthy_str (iss payload) && Js.truthy_str (dest payload)
          && Js.truthy_str (aud payload) && Js.truthy_str (sub payload)
          && bool_decide (aud payload = Some (shopifyApiKey env))
          && negb (Js.truthy_num (exp payload)
                   && (default 0 (exp payload) <? seconds now_ms))
      | _ => false
      end
  end.

End GatewayAuthService.

(* ===================================================================== *)
(** ** A concrete world to run the code in                                *)
(* ===================================================================== *)

(** Test doubles for the collaborators, used to evaluate the code on
    explicit inputs. A token is listed with what a decoder reads from it
    and with the key its signature was made for. *)
Module World.

Record Token : Type := {
  text : string;
  header_kid : option string;
  claims : SessionTokenPayload;
  (** the secret of an HS256 signature, if the token carries one *)
  hs256_secret : option string;
  (** the modulus of the public key an RS256 signature verifies under *)
  rs256_modulus : option string
}.

Definition lookup_token (tokens : list Token) (t : string) : option Token :=
  List.find (fun k => String.eqb (text k) t) tokens.

(** Host of an [https://host/path] URL. *)
Definition hostname (url : string) : option string :=
  match Js.strip_prefix "https://" url with
  | Some r =>
      match Js.before_first "/" r with
      | EmptyString => None
      | h => Some h
      end
  | None => None
  end.

Definition CLIENT_ID : string := "abc".
Definition CLIENT_SECRET : string := "shhh".

Definition config (key : string) : option string :=
  if String.eqb key "SHOPIFY_API_KEY" then Some CLIENT_ID
  else if String.eqb key "SHOPIFY_API_SECRET" then Some CLIENT_SECRET
  else None.

Definition shop_key : JWKSKey :=
  {| key_kty := "RSA"; key_kid := "k1"; key_use := "sig";
     key_n := "modulus-1"; key_e := "AQAB"; key_alg := "RS256" |}.

(** The key set is published for one shop, every other host is down. *)
Definition jwks_endpoint (url : string) : HttpReply (option (list JWKSKey)) :=
  if String.eqb url "https://a-shop.myshopify.com/.well-known/jwks.json"
  then Reply 200 "OK" "" (Some (Some [shop_key]))
  else NetworkFailure "connect ECONNREFUSED".

(** The clock of the examples, in milliseconds and in seconds. *)
Definition NOW_MS : Z := 1700000000000.
Definition NOW : Z := 1700000000.

(** [JwtService.verify(token, { secret, algorithms: ['HS256'] })] as the
    library answers at the clock of the examples: it refuses a token of
    another algorithm, then a signature made with another secret, then a
    token that is not yet active, then an expired one, and returns the
    claims of the others. *)
Definition verify_hs256 (tokens : list Token) (t secret : string)
  : Outcome Decoded :=
  match lookup_token tokens t with
  | Some k =>
      match hs256_secret k with
      | None => Thrown (External "invalid algorithm")
      | Some signed_with =>
          if negb (String.eqb signed_with secret)
          then Thrown (External "invalid signature")
          else if match nbf (claims k) with
                  | Some t0 => NOW <? t0
                  | None => false
                  end
          then Thrown (External "jwt not active")
          else if match exp (claims k) with
                  | Some x => x <=? NOW
                  | None => false
                  end
          then Thrown (External "jwt expired")
          else Returned (DecodedObject (claims k))
      end
  | None => Thrown (External "jwt malformed")
  end.

Definition world (production : bool) (tokens : list Token)
    (token_endpoint : string -> Exchange.Request -> HttpReply Exchange.Response)
  : Env :=
  {| config_get := config;
     node_env := if production then Some "production" else Some "development";
     jwt_verify := verify_hs256 tokens;
     jose_decodeJwt := fun t =>
       match lookup_token tokens t with
       | Some k => Returned (claims k)
       | None => Thrown (External "Invalid JWT")
       end;
     jose_header_kid := fun t =>
       match lookup_token tokens t with
       | Some k => Returned (header_kid k)
       | None => Thrown (External "Invalid Token or Protected Header formatting")
       end;
     jose_jwtVerify := fun t key issuer audience =>
       match lookup_token tokens t with
       | Some k =>
           if negb (bool_decide (rs256_modulus k = Some (key_n key)))
           then Thrown (External "signature verification failed")
           else if negb (bool_decide (iss (claims k) = Some issuer))
           then Thrown (External "unexpected iss claim value")
           else if negb (bool_decide (aud (claims k) = audience))
           then Thrown (External "unexpected aud claim value")
           else Returned (claims k)
       | None => Thrown (External "Invalid Compact JWS")
       end;
     url_hostname := hostname;
     fetch_jwks := jwks_endpoint;
     fetch_token := token_endpoint |}.

Definition payload (issuer destination audience : string) (expires : option Z)
  : SessionTokenPayload :=
  {| iss := Some issuer; dest := Some destination; aud := Some audience;
     sub := Some "42"; exp := expires; nbf := Some (NOW - 1);
     iat := Some (NOW - 1); jti := Some "jti-1"; sid := Some "sid-1" |}.

Definition hs256 (t : string) (p : SessionTokenPayload) : Token :=
  {| text := t; header_kid := None; claims := p;
     hs256_secret := Some CLIENT_SECRET; rs256_modulus := None |}.

Definition rs256 (t : string) (p : SessionTokenPayload) : Token :=
  {| text := t; header_kid := Some "k1"; claims := p;
     hs256_secret := None; rs256_modulus := Some "modulus-1" |}.

Definition forged (t : string) (p : SessionTokenPayload) : Token :=
  {| text := t; header_kid := None; claims := p;
     hs256_secret := Some "not-the-secret"; rs256_modulus := None |}.

Definition ADMIN : string := "https://test-shop.myshopify.com/admin".
Definition STORE : string := "https://test-shop.myshopify.com".

Definition tokens : list Token :=
  [ hs256 "hs.good" (payload ADMIN STORE "abc" (Some (NOW + 60)));
    hs256 "hs.noexp" (payload ADMIN STORE "abc" None);
    hs256 "hs.expired" (payload ADMIN STORE "abc" (Some (NOW - 1)));
    hs256 "hs.mismatch"
      (payload ADMIN "https://other-shop.myshopify.com" "abc" (Some (NOW + 60)));
    hs256 "hs.expired.mismatch"
      (payload ADMIN "https://other-shop.myshopify.com" "abc" (Some (NOW - 1)));
    hs256 "hs.wrongaud" (payload ADMIN STORE "wrong" (Some (NOW + 3600)));
    hs256 "hs.expired.wrongaud" (payload ADMIN STORE "wrong" (Some (NOW - 1)));
    forged "forged.expired" (payload ADMIN STORE "abc" (Some (NOW - 1)));
    rs256 "rs.good"
      (payload "https://a-shop.myshopify.com" "https://a-shop.myshopify.com"
         "abc" (Some (NOW + 60)));
    rs256 "rs.mismatch"
      (payload "https://a-shop.myshopify.com" "https://b-shop.myshopify.com"
         "abc" (Some (NOW + 60)));
    rs256 "rs.wrongaud"
      (payload "https://a-shop.myshopify.com" "https://a-shop.myshopify.com"
         "wrong" (Some (NOW + 60))) ].

(** A provider that grants the offline token of the scenario. *)
Definition granting : string -> Exchange.Request -> HttpReply Exchange.Response :=
  fun _ _ =>
    Reply 200 "OK" "{...}"
      (Some {| Exchange.access_token := Some "tok1";
               Exchange.scope := Some "read_products";
               Exchange.expires_in := None;
               Exchange.associated_user_scope := None;
               Exchange.associated_user := None |}).

(** A provider that answers 401. *)
Definition rejecting : string -> Exchange.Request -> HttpReply Exchange.Response :=
  fun _ _ => Reply 401 "Unauthorized" "invalid_subject_token" None.

Definition production : Env := world true tokens granting.
Definition production_rejecting : Env := world true tokens rejecting.

Definition empty_cache : JWKSService.Cache :=
  {| JWKSService.jwksCache := ∅; JWKSService.cacheExpiry := ∅ |}.

(** Two stored sessions of the test shop, and one of another shop. *)
Definition session (s user token : string) (online : option string)
    (expires : option Z) (active : bool) : ShopifySession :=
  {| shop := s; userId := Some user; accessToken := Some token;
     onlineAccessToken := online; scope := ["read_orders"];
     expiresAt := expires; userInfo := None;
     createdAt := 1600000000000; updatedAt := 1600000000000;
     isActive := active |}.

Definition SHOP : string := "test-shop.myshopify.com".

(** A table whose active row of the test shop has another key than the
    token's session id. *)
Definition table_other_key : Table :=
  {[ "sid-0" := session SHOP "41" "tok0" None None true;
     "sid-9" := session "other-shop.myshopify.com" "42" "tok9" None None true ]}.

(** A table whose active row of the test shop is keyed by the token's
    session id, left by an earlier exchange of the same session. *)
Definition table_same_key : Table :=
  {[ "sid-1" := session SHOP "42" "tok0" (Some "user-tok") (Some 1700086400000) true;
     "sid-9" := session "other-shop.myshopify.com" "42" "tok9" None None true ]}.

(** A database that returns the first of the rows it may return. *)
Definition first_row : Datastore.Choice := head.

(** A table with an online session that expires a day after the clock of
    the examples. *)
Definition table_online : Table :=
  {[ "sid-1" := session SHOP "42" "tok0" (Some "user-tok")
                  (Some (NOW_MS + 86400000)) true ]}.

(** A provider that grants an online token. *)
Definition granting_online
  : string -> Exchange.Request -> HttpReply Exchange.Response :=
  fun _ _ =>
    Reply 200 "OK" "{...}"
      (Some {| Exchange.access_token := Some "user-tok";
               Exchange.scope := Some "read_products";
               Exchange.expires_in := Some 86400;
               Exchange.associated_user_scope := Some "read_products";
               Exchange.associated_user := None |}).

Definition production_online : Env := world true tokens granting_online.
Definition development : Env := world false tokens granting.

(** The same collaborators with every key-set host down. *)
Definition jwks_down (env : Env) : Env :=
  {| config_get := config_get env;
     node_env := node_env env;
     jwt_verify := jwt_verify env;
     jose_decodeJwt := jose_decodeJwt env;
     jose_header_kid := jose_header_kid env;
     jose_jwtVerify := jose_jwtVerify env;
     url_hostname := url_hostname env;
     fetch_jwks := fun _ => NetworkFailure "connect ECONNREFUSED";
     fetch_token := fetch_token env |}.


End World.


(* ===================================================================== *)
(** ** The code on a few inputs                                           *)
(* ===================================================================== *)

Example sanitizeShop_trims_and_lowercases :
  ShopifyAuthService.sanitizeShop World.production "  HTTPS://My-Shop.myshopify.com/admin "
  = Returned "my-shop.myshopify.com".
Proof. vm_compute. reflexivity. Qed.

Example sanitizeShop_keeps_tunnel_host_in_development :
  ShopifyAuthService.sanitizeShop (World.world false [] World.granting)
    "https://My-App.ngrok.io"
  = Returned "my-app.ngrok.io".
Proof. vm_compute. reflexivity. Qed.

Example sanitizeShop_refuses_leading_dot :
  ShopifyAuthService.sanitizeShop World.production ".myshopify.com"
  = Thrown (InvalidShopDomainFormat ".myshopify.com").
Proof. vm_compute. reflexivity. Qed.

Example isValidShopDomain_refuses_leading_dash :
  ShopifyAuthService.isValidShopDomain World.production "-shop.myshopify.com" = false.
Proof. vm_compute. reflexivity. Qed.

Example isValidShopDomain_refuses_longer_host :
  ShopifyAuthService.isValidShopDomain World.production
    "shop.myshopify.com.attacker.com" = false.
Proof. vm_compute. reflexivity. Qed.

Example extractShop_from_issuer :
  ShopifyAuthService.extractShopFromPayload World.production
    (World.payload World.ADMIN World.STORE "abc" None)
  = Returned "test-shop.myshopify.com".
Proof. vm_compute. reflexivity. Qed.

Example split_scopes :
  Js.split "," "read_products,write_orders" = ["read_products"; "write_orders"].
Proof. vm_compute. reflexivity. Qed.

Example guard_accepts_hmac_token :
  (ShopifySessionGuard.validateSessionToken World.production World.NOW_MS
     World.empty_cache "hs.good").1
  = Returned (World.payload World.ADMIN World.STORE "abc" (Some (World.NOW + 60))).
Proof. vm_compute. reflexivity. Qed.

Example jwks_cache_filled_by_fetch :
  JWKSService.isValidCache (World.NOW_MS + 1)
    (ShopifySessionGuard.validateSessionToken World.production World.NOW_MS
       World.empty_cache "rs.good").2
    (JWKSService.cache_key "a-shop.myshopify.com") = true.
Proof. vm_compute. reflexivity. Qed.

(* ===================================================================== *)
(** ** Strings                                                            *)
(* ===================================================================== *)

Section StringFacts.

Variable cls : ascii -> bool.

Lemma span_app (s : string) :
  s = (Js.span cls s).1 +:+ (Js.span cls s).2.
Proof.
  induction s as [|c r IH]; simpl; [reflexivity|].
  destruct (cls c); [|reflexivity].
  destruct (Js.span cls r) as [a b]; simpl in *.
  change (String c r = String c (a +:+ b)). now f_equal.
Qed.

Lemma span_all (s : string) : Js.all_chars cls (Js.span cls s).1 = true.
Proof.
  induction s as [|c r IH]; simpl; [reflexivity|].
  destruct (cls c) eqn:Hc; [|reflexivity].
  destruct (Js.span cls r) as [a b]; simpl in *.
  now rewrite Hc, IH.
Qed.

(** The run is the longest one: what follows it does not start with a
    character of the class. *)
Lemma span_maximal (s : string) :
  (Js.span cls s).2 = EmptyString \/
  exists c r, (Js.span cls s).2 = String c r /\ cls c = false.
Proof.
  induction s as [|c r IH]; simpl; [now left|].
  destruct (cls c) eqn:Hc.
  - destruct (Js.span cls r) as [a b]; simpl in *. exact IH.
  - right. now exists c, r.
Qed.

End StringFacts.

Lemma endsWith_refl (p : string) : Js.endsWith p p = true.
Proof. destruct p; simpl; [reflexivity|]. now rewrite Ascii.eqb_refl, String.eqb_refl. Qed.

Lemma endsWith_app (a p : string) : Js.endsWith p (a +:+ p) = true.
Proof.
  induction a as [|c a IH].
  - apply endsWith_refl.
  - change (Js.endsWith p (String c (a +:+ p)) = true).
    simpl. rewrite IH. apply orb_true_r.
Qed.

(* ===================================================================== *)
(** ** sanitizeShop                                                       *)
(* ===================================================================== *)

(** What [sanitizeShop] returns in production: the longest run of
    [[a-z0-9-]] at the head of the trimmed, lowercased, protocol-stripped
    input, followed by [.myshopify.com]. *)
Lemma sanitizeShop_production (env : Env) (s r : string) :
  is_production env = true ->
  ShopifyAuthService.sanitizeShop env s = Returned r ->
  exists name rest,
    ShopifyAuthService.strip_protocol (Js.toLowerCase (Js.trim s)) = name +:+ rest
    /\ name <> EmptyString
    /\ Js.all_chars Js.is_label_char name = true
    /\ (rest = EmptyString \/
        exists c rest', rest = String c rest' /\ Js.is_label_char c = false)
    /\ r = name +:+ ".myshopify.com".
Proof.
  intros Hprod H. unfold ShopifyAuthService.sanitizeShop in H.
  destruct s as [|c0 s0]; [discriminate|].
  set (w := ShopifyAuthService.strip_protocol (Js.toLowerCase (Js.trim (String c0 s0)))) in *.
  unfold ShopifyAuthService.shop_name_match in H.
  pose proof (span_app Js.is_label_char w) as Happ.
  pose proof (span_all Js.is_label_char w) as Hall.
  pose proof (span_maximal Js.is_label_char w) as Hmax.
  destruct (Js.span Js.is_label_char w) as [name rest]; simpl in *.
  destruct name as [|a name']; [discriminate|].
  rewrite Hall, Hprod in H. simpl in H.
  exists (String a name'), rest.
  repeat split; try assumption; try discriminate.
  now inversion H.
Qed.

Lemma extractShop_sanitized (env : Env) (p : SessionTokenPayload) (s : string) :
  ShopifyAuthService.extractShopFromPayload env p = Returned s ->
  exists raw, ShopifyAuthService.sanitizeShop env raw = Returned s.
Proof.
  unfold ShopifyAuthService.extractShopFromPayload.
  match goal with |- context [match ?x with EmptyString => _ | String _ _ => _ end] =>
    destruct x eqn:E end; [discriminate|].
  intros H. eauto.
Qed.

Lemma performTokenExchange_requested (env : Env) (s tok : string) (ty : TokenType) :
  forall url,
    In url (ShopifyAuthService.performTokenExchange env s tok ty).2 ->
    url = ShopifyAuthService.token_exchange_url s.
Proof.
  intros url. unfold ShopifyAuthService.performTokenExchange.
  destruct (ShopifyAuthService.getRequiredConfig env "SHOPIFY_API_KEY"); simpl; [|tauto].
  destruct (ShopifyAuthService.getRequiredConfig env "SHOPIFY_API_SECRET"); simpl; [|tauto].
  intros [H|[]]. now symmetry.
Qed.

Lemma exchange_requested (env : Env) (schema_ok : Table -> bool) (now_ms : Z)
    (tbl : Table) (tok : string) (ty : TokenType) (url : string) :
  In url (ShopifyAuthService.requested
            (ShopifyAuthService.exchangeSessionToken env schema_ok now_ms tbl tok ty)) ->
  exists p s,
    ShopifyAuthService.validateSessionToken env now_ms tok = Returned p
    /\ ShopifyAuthService.extractShopFromPayload env p = Returned s
    /\ url = ShopifyAuthService.token_exchange_url s.
Proof.
  unfold ShopifyAuthService.exchangeSessionToken.
  destruct (ShopifyAuthService.validateSessionToken env now_ms tok) as [p|]; simpl; [|tauto].
  destruct (ShopifyAuthService.extractShopFromPayload env p) as [s|] eqn:Hs; simpl; [|tauto].
  pose proof (performTokenExchange_requested env s tok ty) as Hreq.
  destruct (ShopifyAuthService.performTokenExchange env s tok ty) as [[resp|err] urls]; simpl in *.
  - destruct (ShopifyAuthService.storeSession schema_ok now_ms s p resp ty tbl) as [[?|?] ?];
      simpl; intros Hin; exists p, s; auto.
  - intros Hin; exists p, s; auto.
Qed.

(** C10. In production, whenever [sanitizeShop] succeeds its result is
    [<name>.myshopify.com], where [<name>] is the leading [[a-z0-9-]+] label
    of the input after the code has trimmed it, lowercased it and removed
    the protocol ([<name>] is not empty, is made of label characters, and
    is followed by the end of the input or by a character outside the
    class). So ["evil-shop.attacker.com"] becomes
    ["evil-shop.myshopify.com"], and every URL [exchangeSessionToken]
    requests is the token endpoint of a host ending in [.myshopify.com]. *)
Theorem sanitizeShop_production_normal_form (env : Env) :
  is_production env = true ->
  (forall s r,
      ShopifyAuthService.sanitizeShop env s = Returned r ->
      exists name rest,
        ShopifyAuthService.strip_protocol (Js.toLowerCase (Js.trim s)) = name +:+ rest
        /\ name <> EmptyString
        /\ Js.all_chars Js.is_label_char name = true
        /\ (rest = EmptyString \/
            exists c rest', rest = String c rest' /\ Js.is_label_char c = false)
        /\ r = name +:+ ".myshopify.com"
        /\ Js.endsWith ".myshopify.com" r = true)
  /\ ShopifyAuthService.sanitizeShop env "evil-shop.attacker.com"
     = Returned "evil-shop.myshopify.com"
  /\ (forall schema_ok now_ms tbl tok ty url,
        In url (ShopifyAuthService.requested
                  (ShopifyAuthService.exchangeSessionToken
                     env schema_ok now_ms tbl tok ty)) ->
        exists s,
          url = "https://" +:+ s +:+ "/admin/oauth/access_token"
          /\ Js.endsWith ".myshopify.com" s = true).
Proof.
  intros Hprod. split; [|split].
  - intros s r H.
    destruct (sanitizeShop_production env s r Hprod H)
      as (name & rest & H1 & H2 & H3 & H4 & H5).
    exists name, rest. repeat split; try assumption.
    subst r. apply endsWith_app.
  - unfold ShopifyAuthService.sanitizeShop. rewrite Hprod. reflexivity.
  - intros schema_ok now_ms tbl tok ty url Hin.
    destruct (exchange_requested _ _ _ _ _ _ _ Hin) as (p & s & _ & Hs & ->).
    destruct (extractShop_sanitized _ _ _ Hs) as (raw & Hraw).
    destruct (sanitizeShop_production env raw s Hprod Hraw)
      as (name & rest & _ & _ & _ & _ & ->).
    exists (name +:+ ".myshopify.com"). split; [reflexivity|apply endsWith_app].
Qed.

(** [sanitizeShop_production_normal_form] on the test world. *)
Lemma sanitizeShop_production_normal_form_witness :
  is_production World.production = true
  /\ ShopifyAuthService.sanitizeShop World.production "  HTTPS://My-Shop.Example.org/x "
     = Returned "my-shop.myshopify.com"
  /\ ShopifyAuthService.sanitizeShop World.production "evil-shop.attacker.com"
     = Returned "evil-shop.myshopify.com"
  /\ ShopifyAuthService.requested
       (ShopifyAuthService.exchangeSessionToken World.production
          Datastore.entity_schema World.NOW_MS World.table_other_key
          "hs.good" Offline)
     = ["https://test-shop.myshopify.com/admin/oauth/access_token"].
Proof.
  pose proof (sanitizeShop_production_normal_form World.production eq_refl)
    as (_ & Hevil & _).
  split; [reflexivity|]. split; [vm_compute; reflexivity|].
  split; [exact Hevil|vm_compute; reflexivity].
Defined.

(* ===================================================================== *)
(** ** ShopifyAuthService.validateSessionToken                            *)
(* ===================================================================== *)

Section ServiceValidation.

Variables (env : Env) (now_ms : Z) (tok secret clientId : string)
          (p : SessionTokenPayload).

Hypothesis Hsecret :
  ShopifyAuthService.getRequiredConfig env "SHOPIFY_API_SECRET" = Returned secret.
Hypothesis Hkey :
  ShopifyAuthService.getRequiredConfig env "SHOPIFY_API_KEY" = Returned clientId.
Hypothesis Hverify : jwt_verify env tok secret = Returned (DecodedObject p).

(** Once the signature has verified, the outcome is that of the claim
    checks. *)
Lemma service_after_verify :
  ShopifyAuthService.validateSessionToken env now_ms tok =
  rethrow InvalidSessionToken
    (let* _ := ShopifyAuthService.validateTokenPayload env now_ms p clientId in
     let* _ := ShopifyAuthService.extractShopFromPayload env p in
     Returned p).
Proof.
  unfold ShopifyAuthService.validateSessionToken.
  rewrite Hsecret; simpl. rewrite Hkey; simpl. rewrite Hverify; simpl.
  reflexivity.
Qed.

Hypothesis Hrequired :
  Js.truthy_str (iss p) && Js.truthy_str (dest p)
  && Js.truthy_str (aud p) && Js.truthy_str (sub p) = true.

(** The audience is the first claim compared. *)
Lemma service_wrong_audience (a : string) :
  aud p = Some a -> a <> clientId ->
  ShopifyAuthService.validateSessionToken env now_ms tok
  = Thrown (InvalidSessionToken (InvalidAudience clientId a)).
Proof.
  intros Ha Hne. rewrite service_after_verify.
  unfold ShopifyAuthService.validateTokenPayload.
  rewrite Hrequired, Ha; simpl.
  destruct (String.eqb_spec a clientId) as [->|_]; [contradiction|reflexivity].
Qed.

(** A payload that passes every check is handed back. *)
Lemma service_accepts (s : string) :
  aud p = Some clientId ->
  (forall x, exp p = Some x -> x = 0 \/ seconds now_ms <= x) ->
  (forall t, nbf p = Some t -> t <= seconds now_ms) ->
  (forall t, iat p = Some t -> seconds now_ms - t <= 90) ->
  ShopifyAuthService.extractShopFromPayload env p = Returned s ->
  ShopifyAuthService.isValidShopDomain env s = true ->
  Js.includes ".myshopify.com" (Js.or_empty (iss p)) = true ->
  ShopifyAuthService.validateSessionToken env now_ms tok = Returned p.
Proof.
  intros Ha Hexp Hnbf Hiat Hshop Hvalid Hiss. rewrite service_after_verify.
  unfold ShopifyAuthService.validateTokenPayload.
  rewrite Hrequired, Ha; simpl. rewrite String.eqb_refl; simpl.
  assert (E1 : Js.truthy_num (exp p) && (default 0 (exp p) <? seconds now_ms) = false).
  { destruct (exp p) as [x|]; [|reflexivity]; simpl.
    destruct (Hexp x eq_refl) as [->|Hle]; [reflexivity|].
    destruct (Z.ltb_spec x (seconds now_ms)); [lia|apply andb_false_r]. }
  assert (E2 : Js.truthy_num (nbf p) && (default 0 (nbf p) >? seconds now_ms) = false).
  { destruct (nbf p) as [t|]; [|reflexivity]; simpl.
    specialize (Hnbf t eq_refl).
    rewrite Z.gtb_ltb. destruct (Z.ltb_spec (seconds now_ms) t); [lia|apply andb_false_r]. }
  assert (E3 : Js.truthy_num (iat p)
               && (seconds now_ms - default 0 (iat p)
                   >? ShopifyAuthService.SESSION_TOKEN_LIFETIME + 30) = false).
  { destruct (iat p) as [t|]; [|reflexivity]; simpl.
    specialize (Hiat t eq_refl). unfold ShopifyAuthService.SESSION_TOKEN_LIFETIME.
    rewrite Z.gtb_ltb. destruct (Z.ltb_spec (60 + 30) (seconds now_ms - t)); [lia|apply andb_false_r]. }
  rewrite E1, E2, E3; simpl.
  rewrite Hshop; simpl. rewrite Hvalid, Hiss; simpl. reflexivity.
Qed.

End ServiceValidation.

(** C9. [ShopifyAuthService.validateSessionToken] accepts a token without
    [exp] claim: when the HMAC signature verifies, [iss], [dest], [aud]
    and [sub] are present and valid ([aud] is the client id, the shop taken
    from [iss] is a valid shop domain, [iss] mentions [.myshopify.com]) and
    [nbf] and [iat], when the token carries them, are in range, the payload
    is returned. No check looks at a claim that is absent. *)
Theorem service_accepts_token_without_exp
    (env : Env) (now_ms : Z) (tok secret clientId : string)
    (p : SessionTokenPayload) (s : string) :
  ShopifyAuthService.getRequiredConfig env "SHOPIFY_API_SECRET" = Returned secret ->
  ShopifyAuthService.getRequiredConfig env "SHOPIFY_API_KEY" = Returned clientId ->
  jwt_verify env tok secret = Returned (DecodedObject p) ->
  exp p = None ->
  Js.truthy_str (iss p) = true -> Js.truthy_str (dest p) = true ->
  Js.truthy_str (sub p) = true ->
  aud p = Some clientId ->
  (forall t, nbf p = Some t -> t <= seconds now_ms) ->
  (forall t, iat p = Some t -> seconds now_ms - t <= 90) ->
  ShopifyAuthService.extractShopFromPayload env p = Returned s ->
  ShopifyAuthService.isValidShopDomain env s = true ->
  Js.includes ".myshopify.com" (Js.or_empty (iss p)) = true ->
  ShopifyAuthService.validateSessionToken env now_ms tok = Returned p.
Proof.
  intros Hsecret Hkey Hverify Hexp Hiss Hdest Hsub Haud Hnbf Hiat Hshop Hvalid Hmy.
  apply (service_accepts env now_ms tok secret clientId p Hsecret Hkey Hverify)
    with (s := s); try assumption.
  - rewrite Hiss, Hdest, Hsub, Haud.
    unfold ShopifyAuthService.getRequiredConfig in Hkey.
    destruct (config_get env "SHOPIFY_API_KEY") as [[|c r]|]; try discriminate.
    inversion Hkey; subst. reflexivity.
  - intros x Hx. rewrite Hexp in Hx. discriminate.
Qed.

(** [service_accepts_token_without_exp] on the test world. *)
Lemma service_accepts_token_without_exp_witness :
  exp (World.payload World.ADMIN World.STORE "abc" None) = None
  /\ ShopifyAuthService.validateSessionToken World.production World.NOW_MS "hs.noexp"
     = Returned (World.payload World.ADMIN World.STORE "abc" None).
Proof.
  split; [reflexivity|].
  apply (service_accepts_token_without_exp World.production World.NOW_MS
           "hs.noexp" "shhh" "abc"
           (World.payload World.ADMIN World.STORE "abc" None)
           "test-shop.myshopify.com");
    [ reflexivity | reflexivity | reflexivity | reflexivity | reflexivity
    | reflexivity | reflexivity | reflexivity
    | intros t Ht; inversion Ht; discriminate
    | intros t Ht; inversion Ht; discriminate
    | vm_compute; reflexivity | vm_compute; reflexivity
    | vm_compute; reflexivity ].
Defined.

(* ===================================================================== *)
(** ** The session table: update, save, transaction                       *)
(* ===================================================================== *)

Section TableFacts.

Variables (s : string) (now_ms : Z) (tbl : Table).

Lemma update_lookup (k : string) :
  (Datastore.update s now_ms tbl).2 !! k
  = (fun r => if decide (shop r = s /\ isActive r = true)
              then Datastore.deactivated now_ms r else r) <$> tbl !! k.
Proof. unfold Datastore.update; simpl. apply lookup_fmap. Qed.

Lemma update_active (k : string) (r : ShopifySession) :
  tbl !! k = Some r -> shop r = s -> isActive r = true ->
  (Datastore.update s now_ms tbl).2 !! k = Some (Datastore.deactivated now_ms r).
Proof.
  intros Hk Hs Ha. rewrite update_lookup, Hk; simpl.
  destruct (decide (shop r = s /\ isActive r = true)) as [_|Hn]; [reflexivity|].
  exfalso; apply Hn; now split.
Qed.

Lemma update_other (k : string) (r : ShopifySession) :
  tbl !! k = Some r -> ~ (shop r = s /\ isActive r = true) ->
  (Datastore.update s now_ms tbl).2 !! k = Some r.
Proof.
  intros Hk Hn. rewrite update_lookup, Hk; simpl.
  destruct (decide (shop r = s /\ isActive r = true)); [contradiction|reflexivity].
Qed.

(** After the update no row of the shop is active. *)
Lemma update_deactivates :
  filter (Datastore.active_in s) (Datastore.update s now_ms tbl).2 = ∅.
Proof.
  apply map_empty; intros k. apply map_lookup_filter_None_2.
  destruct (tbl !! k) as [r|] eqn:Hk.
  - right. intros x Hx [Hs Ha]; simpl in *.
    rewrite update_lookup, Hk in Hx; simpl in Hx. inversion Hx as [Hx']; clear Hx.
    destruct (decide (shop r = s /\ isActive r = true)) as [_|Hn]; subst x.
    + simpl in Ha. discriminate.
    + apply Hn; now split.
  - left. now rewrite update_lookup, Hk.
Qed.

Lemma update_affected :
  (Datastore.update s now_ms tbl).1 = size (filter (Datastore.active_in s) tbl).
Proof. reflexivity. Qed.

End TableFacts.

(** A table without active row of the shop is left as it is, and no row
    is counted. *)
Lemma update_nothing (s : string) (now_ms : Z) (tbl : Table) :
  filter (Datastore.active_in s) tbl = ∅ ->
  Datastore.update s now_ms tbl = (0%nat, tbl).
Proof.
  intros He. unfold Datastore.update. rewrite He, map_size_empty. f_equal.
  apply map_eq; intros k. rewrite lookup_fmap.
  destruct (tbl !! k) as [r|] eqn:Hk; [|reflexivity]; simpl.
  destruct (decide (shop r = s /\ isActive r = true)) as [Hy|_]; [|reflexivity].
  exfalso. eapply (map_filter_empty_not_lookup _ tbl k r He); [exact Hy|exact Hk].
Qed.

Lemma save_inv (schema_ok : Table -> bool) (key : option string)
    (entity : ShopifySession) (tbl : Table)
    (k : string) (row : ShopifySession) (tbl' : Table) :
  Datastore.save schema_ok key entity tbl = Returned (k, row, tbl') ->
  key = Some k
  /\ tbl' = <[k := row]> tbl
  /\ row = match tbl !! k with
           | Some old => Datastore.merged old entity
           | None => entity
           end
  /\ schema_ok tbl' = true.
Proof.
  unfold Datastore.save. destruct key as [k0|]; [|discriminate].
  destruct (schema_ok _) eqn:Hok; [|discriminate].
  intros H; inversion H; subst. auto.
Qed.

Lemma saved_row_fields (entity : ShopifySession) (o : option ShopifySession) :
  let row := match o with
             | Some old => Datastore.merged old entity
             | None => entity
             end in
  shop row = shop entity /\ isActive row = isActive entity
  /\ scope row = scope entity
  /\ (forall t, accessToken entity = Some t -> accessToken row = Some t)
  /\ (o = None -> row = entity).
Proof.
  destruct o as [old|]; simpl.
  - repeat split; try discriminate. intros t ->. reflexivity.
  - repeat split; auto.
Qed.

(** The transaction of [storeSession] is all or nothing. *)
Lemma storeSession_all_or_nothing (schema_ok : Table -> bool) (now_ms : Z)
    (s : string) (p : SessionTokenPayload) (resp : Exchange.Response)
    (ty : TokenType) (tbl : Table) :
  (exists k row tbl',
      ShopifyAuthService.storeSession_body schema_ok now_ms s p resp ty tbl
      = Returned (k, row, tbl')
      /\ ShopifyAuthService.storeSession schema_ok now_ms s p resp ty tbl
         = (Returned (k, row), tbl'))
  \/ (exists err,
         ShopifyAuthService.storeSession schema_ok now_ms s p resp ty tbl
         = (Thrown err, tbl)).
Proof.
  unfold ShopifyAuthService.storeSession, Datastore.transaction.
  destruct (ShopifyAuthService.storeSession_body schema_ok now_ms s p resp ty tbl)
    as [[[k row] tbl']|err]; simpl.
  - left. now exists k, row, tbl'.
  - right. now exists err.
Qed.

Lemma storeSession_rollback (schema_ok : Table -> bool) (now_ms : Z)
    (s : string) (p : SessionTokenPayload) (resp : Exchange.Response)
    (ty : TokenType) (tbl tbl' : Table) (err : Msg) :
  ShopifyAuthService.storeSession schema_ok now_ms s p resp ty tbl = (Thrown err, tbl') ->
  tbl' = tbl.
Proof.
  destruct (storeSession_all_or_nothing schema_ok now_ms s p resp ty tbl)
    as [(k & row & t & _ & ->)|(e & ->)]; intros H; inversion H; reflexivity.
Qed.

(** What a successful exchange went through. *)
Lemma exchange_success_inv (env : Env) (schema_ok : Table -> bool) (now_ms : Z)
    (tbl : Table) (tok : string) (ty : TokenType) (response : Exchange.Response) :
  ShopifyAuthService.result
    (ShopifyAuthService.exchangeSessionToken env schema_ok now_ms tbl tok ty)
  = Returned response ->
  exists p s urls k row,
    ShopifyAuthService.validateSessionToken env now_ms tok = Returned p
    /\ ShopifyAuthService.extractShopFromPayload env p = Returned s
    /\ ShopifyAuthService.performTokenExchange env s tok ty = (Returned response, urls)
    /\ ShopifyAuthService.storeSession_body schema_ok now_ms s p response ty tbl
       = Returned (k, row,
           ShopifyAuthService.table_after
             (ShopifyAuthService.exchangeSessionToken env schema_ok now_ms tbl tok ty))
    /\ ShopifyAuthService.storeSession schema_ok now_ms s p response ty tbl
       = (Returned (k, row),
          ShopifyAuthService.table_after
            (ShopifyAuthService.exchangeSessionToken env schema_ok now_ms tbl tok ty)).
Proof.
  unfold ShopifyAuthService.exchangeSessionToken.
  destruct (ShopifyAuthService.validateSessionToken env now_ms tok) as [p|];
    [|discriminate].
  destruct (ShopifyAuthService.extractShopFromPayload env p) as [s|] eqn:Hshop;
    [|discriminate].
  destruct (ShopifyAuthService.performTokenExchange env s tok ty)
    as [[resp|] urls] eqn:Hperform; [|discriminate].
  destruct (storeSession_all_or_nothing schema_ok now_ms s p resp ty tbl)
    as [(k & row & t & Hb & Hs)|(e & Hs)]; rewrite Hs; simpl; [|discriminate].
  intros H; inversion H; subst. exists p, s, urls, k, row.
  repeat split; auto.
Qed.

(** A failed exchange leaves the table as it was. *)
Lemma exchange_failure_frame (env : Env) (schema_ok : Table -> bool) (now_ms : Z)
    (tbl : Table) (tok : string) (ty : TokenType) (err : Msg) :
  ShopifyAuthService.result
    (ShopifyAuthService.exchangeSessionToken env schema_ok now_ms tbl tok ty)
  = Thrown err ->
  ShopifyAuthService.table_after
    (ShopifyAuthService.exchangeSessionToken env schema_ok now_ms tbl tok ty) = tbl.
Proof.
  unfold ShopifyAuthService.exchangeSessionToken.
  destruct (ShopifyAuthService.validateSessionToken env now_ms tok) as [p|];
    [|reflexivity].
  destruct (ShopifyAuthService.extractShopFromPayload env p) as [s|]; [|reflexivity].
  destruct (ShopifyAuthService.performTokenExchange env s tok ty) as [[resp|] urls];
    [|reflexivity].
  destruct (storeSession_all_or_nothing schema_ok now_ms s p resp ty tbl)
    as [(k & row & t & Hb & Hs)|(e & Hs)]; rewrite Hs; simpl;
    [discriminate|reflexivity].
Qed.

(** The table a successful [storeSession] leaves: the update, then the
    row under its key; that row is the one active row of the shop. *)
Lemma storeSession_body_inv (schema_ok : Table -> bool) (now_ms : Z)
    (s : string) (p : SessionTokenPayload) (resp : Exchange.Response)
    (ty : TokenType) (tbl : Table) (k : string) (row : ShopifySession)
    (tbl' : Table) :
  ShopifyAuthService.storeSession_body schema_ok now_ms s p resp ty tbl
  = Returned (k, row, tbl') ->
  let entity := ShopifyAuthService.new_session now_ms s p resp ty in
  Js.or_else (sid p) (jti p) = Some k
  /\ tbl' = <[k := row]> (Datastore.update s now_ms tbl).2
  /\ row = match (Datastore.update s now_ms tbl).2 !! k with
           | Some old => Datastore.merged old entity
           | None => entity
           end
  /\ shop row = s /\ isActive row = true
  /\ filter (Datastore.active_in s) tbl' = {[k := row]}.
Proof.
  unfold ShopifyAuthService.storeSession_body. intros H.
  apply save_inv in H as (Hk & Ht & Hr & _).
  pose proof (saved_row_fields (ShopifyAuthService.new_session now_ms s p resp ty)
                ((Datastore.update s now_ms tbl).2 !! k)) as (Hs & Ha & _).
  rewrite <- Hr in Hs, Ha. simpl in Hs, Ha.
  repeat split; try assumption.
  subst tbl'. rewrite map_filter_insert_True by (split; assumption).
  rewrite update_deactivates. reflexivity.
Qed.

(* ===================================================================== *)
(** ** exchangeSessionToken and the session table                         *)
(* ===================================================================== *)

(** C1. A successful [exchangeSessionToken] has run [storeSession] for the
    shop derived from the token: one transaction that deactivates the
    active rows of that shop and then saves the new row (a transaction
    that throws leaves the table untouched). The table it leaves holds
    exactly one active row of that shop, hence at most one for each token
    type, however rows are sorted into token types. *)
Theorem exchange_leaves_one_active_row
    (env : Env) (schema_ok : Table -> bool) (now_ms : Z) (tbl : Table)
    (tok : string) (ty : TokenType) (response : Exchange.Response) :
  ShopifyAuthService.result
    (ShopifyAuthService.exchangeSessionToken env schema_ok now_ms tbl tok ty)
  = Returned response ->
  exists p s key row,
    ShopifyAuthService.validateSessionToken env now_ms tok = Returned p
    /\ ShopifyAuthService.extractShopFromPayload env p = Returned s
    /\ ShopifyAuthService.storeSession schema_ok now_ms s p response ty tbl
       = (Returned (key, row),
          ShopifyAuthService.table_after
            (ShopifyAuthService.exchangeSessionToken env schema_ok now_ms tbl tok ty))
    /\ ShopifyAuthService.table_after
         (ShopifyAuthService.exchangeSessionToken env schema_ok now_ms tbl tok ty)
       = <[key := row]> (Datastore.update s now_ms tbl).2
    /\ shop row = s /\ isActive row = true
    /\ size (filter (Datastore.active_in s)
               (ShopifyAuthService.table_after
                  (ShopifyAuthService.exchangeSessionToken
                     env schema_ok now_ms tbl tok ty))) = 1%nat
    /\ (forall (kind : ShopifySession -> TokenType) (t : TokenType),
          (size (filter (fun kr : string * ShopifySession =>
                           Datastore.active_in s kr /\ kind kr.2 = t)
                   (ShopifyAuthService.table_after
                      (ShopifyAuthService.exchangeSessionToken
                         env schema_ok now_ms tbl tok ty))) <= 1)%nat)
    /\ (forall tbl0 err tbl1,
          ShopifyAuthService.storeSession schema_ok now_ms s p response ty tbl0
          = (Thrown err, tbl1) -> tbl1 = tbl0).
Proof.
  intros H.
  destruct (exchange_success_inv _ _ _ _ _ _ _ H)
    as (p & s & urls & k & row & Hv & Hs & _ & Hbody & Hstore).
  set (after := ShopifyAuthService.table_after _) in *.
  destruct (storeSession_body_inv _ _ _ _ _ _ _ _ _ _ Hbody)
    as (_ & Hafter & _ & Hshop & Hactive & Hfilter).
  assert (Hone : size (filter (Datastore.active_in s) after) = 1%nat)
    by (rewrite Hfilter; apply map_size_singleton).
  exists p, s, k, row. repeat split; try assumption.
  - intros kind t. rewrite <- Hone. apply map_subseteq_size.
    apply map_filter_subseteq_ext. intros i x _ [Hx _]. exact Hx.
  - intros tbl0 err tbl1. apply storeSession_rollback.
Qed.

(** [exchange_leaves_one_active_row] on the test world. *)
Lemma exchange_leaves_one_active_row_witness :
  ShopifyAuthService.result
    (ShopifyAuthService.exchangeSessionToken World.production
       Datastore.entity_schema World.NOW_MS World.table_other_key
       "hs.good" Offline)
  = Returned {| Exchange.access_token := Some "tok1";
                Exchange.scope := Some "read_products";
                Exchange.expires_in := None;
                Exchange.associated_user_scope := None;
                Exchange.associated_user := None |}
  /\ size (filter (Datastore.active_in "test-shop.myshopify.com")
             (ShopifyAuthService.table_after
                (ShopifyAuthService.exchangeSessionToken World.production
                   Datastore.entity_schema World.NOW_MS World.table_other_key
                   "hs.good" Offline))) = 1%nat.
Proof.
  assert (H : ShopifyAuthService.result
                (ShopifyAuthService.exchangeSessionToken World.production
                   Datastore.entity_schema World.NOW_MS World.table_other_key
                   "hs.good" Offline)
              = Returned {| Exchange.access_token := Some "tok1";
                            Exchange.scope := Some "read_products";
                            Exchange.expires_in := None;
                            Exchange.associated_user_scope := None;
                            Exchange.associated_user := None |})
    by (vm_compute; reflexivity).
  split; [exact H|].
  destruct (exchange_leaves_one_active_row _ _ _ _ _ _ _ H)
    as (p & s & key & row & Hv & Hs & _ & _ & _ & _ & Hone & _).
  assert (Hp : p = World.payload World.ADMIN World.STORE "abc" (Some (World.NOW + 60)))
    by (vm_compute in Hv; inversion Hv; reflexivity).
  subst p. vm_compute in Hs. inversion Hs; subst s. exact Hone.
Defined.

(** C5. When the token endpoint answers the exchange request with a
    status outside 200..299, [exchangeSessionToken] throws
    [Token exchange failed: Token exchange failed: <status> <body>], has
    made that one request, and leaves the session table as it was: nothing
    is written, nothing is deactivated. *)
Theorem exchange_rejected_leaves_store
    (env : Env) (schema_ok : Table -> bool) (now_ms : Z) (tbl : Table)
    (tok : string) (ty : TokenType) (p : SessionTokenPayload)
    (s clientId clientSecret : string)
    (status : Z) (statusText body : string) (json : option Exchange.Response) :
  ShopifyAuthService.validateSessionToken env now_ms tok = Returned p ->
  ShopifyAuthService.extractShopFromPayload env p = Returned s ->
  ShopifyAuthService.getRequiredConfig env "SHOPIFY_API_KEY" = Returned clientId ->
  ShopifyAuthService.getRequiredConfig env "SHOPIFY_API_SECRET" = Returned clientSecret ->
  fetch_token env (ShopifyAuthService.token_exchange_url s)
    (ShopifyAuthService.request_body clientId clientSecret tok ty)
  = Reply status statusText body json ->
  status_ok status = false ->
  ShopifyAuthService.exchangeSessionToken env schema_ok now_ms tbl tok ty
  = {| ShopifyAuthService.result :=
         Thrown (TokenExchangeFailed (ExchangeRejected status body));
       ShopifyAuthService.table_after := tbl;
       ShopifyAuthService.requested := [ShopifyAuthService.token_exchange_url s] |}.
Proof.
  intros Hv Hs Hkey Hsecret Hfetch Hstatus.
  unfold ShopifyAuthService.exchangeSessionToken,
    ShopifyAuthService.performTokenExchange.
  rewrite Hv, Hs, Hkey, Hsecret; simpl. rewrite Hfetch, Hstatus; simpl.
  reflexivity.
Qed.

(** [exchange_rejected_leaves_store] on the test world. *)
Lemma exchange_rejected_leaves_store_witness :
  status_ok 401 = false
  /\ ShopifyAuthService.exchangeSessionToken World.production_rejecting
       Datastore.entity_schema World.NOW_MS World.table_other_key
       "hs.good" Offline
     = {| ShopifyAuthService.result :=
            Thrown (TokenExchangeFailed
                      (ExchangeRejected 401 "invalid_subject_token"));
          ShopifyAuthService.table_after := World.table_other_key;
          ShopifyAuthService.requested :=
            [ShopifyAuthService.token_exchange_url "test-shop.myshopify.com"] |}.
Proof.
  split; [reflexivity|].
  apply (exchange_rejected_leaves_store World.production_rejecting
           Datastore.entity_schema World.NOW_MS World.table_other_key
           "hs.good" Offline
           (World.payload World.ADMIN World.STORE "abc" (Some (World.NOW + 60)))
           "test-shop.myshopify.com" "abc" "shhh"
           401 "Unauthorized" "invalid_subject_token" None);
    vm_compute; reflexivity.
Defined.

(** The claim C6 as the spec words it fails when the table already holds
    the row of the token's session id: [save] rewrites that row in place,
    so a row of the shop that was active before the exchange is active
    after it. *)
Lemma offline_exchange_keeps_same_key_row_active :
  (exists response,
      ShopifyAuthService.result
        (ShopifyAuthService.exchangeSessionToken World.production
           Datastore.entity_schema World.NOW_MS World.table_same_key
           "hs.good" Offline) = Returned response
      /\ Exchange.access_token response = Some "tok1"
      /\ Exchange.scope response = Some "read_products")
  /\ (exists before,
         World.table_same_key !! "sid-1" = Some before
         /\ shop before = "test-shop.myshopify.com" /\ isActive before = true)
  /\ (exists after,
         ShopifyAuthService.table_after
           (ShopifyAuthService.exchangeSessionToken World.production
              Datastore.entity_schema World.NOW_MS World.table_same_key
              "hs.good" Offline) !! "sid-1" = Some after
         /\ shop after = "test-shop.myshopify.com" /\ isActive after = true).
Proof.
  split; [|split].
  - eexists. split; [vm_compute; reflexivity|]. split; reflexivity.
  - eexists. split; [vm_compute; reflexivity|]. split; reflexivity.
  - eexists. split; [vm_compute; reflexivity|]. split; reflexivity.
Qed.

(** C6, amended. After a successful offline exchange answered with
    [{access_token: "tok1", scope: "read_products"}], the table holds,
    under the token's session id ([sid], else [jti]), an active row of the
    derived shop with [accessToken = "tok1"] and [scope = ["read_products"]];
    its [expiresAt] is null when no row had that key before; and every
    row of the shop that was active under another key is now the same row
    deactivated. *)
Theorem offline_exchange_persists
    (env : Env) (schema_ok : Table -> bool) (now_ms : Z) (tbl : Table)
    (tok : string) (response : Exchange.Response) :
  ShopifyAuthService.result
    (ShopifyAuthService.exchangeSessionToken env schema_ok now_ms tbl tok Offline)
  = Returned response ->
  Exchange.access_token response = Some "tok1" ->
  Exchange.scope response = Some "read_products" ->
  exists p s key row,
    ShopifyAuthService.validateSessionToken env now_ms tok = Returned p
    /\ ShopifyAuthService.extractShopFromPayload env p = Returned s
    /\ Js.or_else (sid p) (jti p) = Some key
    /\ ShopifyAuthService.table_after
         (ShopifyAuthService.exchangeSessionToken env schema_ok now_ms tbl tok Offline)
       !! key = Some row
    /\ shop row = s
    /\ accessToken row = Some "tok1"
    /\ scope row = ["read_products"]
    /\ isActive row = true
    /\ (tbl !! key = None -> expiresAt row = None)
    /\ (forall k r,
          k <> key -> tbl !! k = Some r -> shop r = s -> isActive r = true ->
          ShopifyAuthService.table_after
            (ShopifyAuthService.exchangeSessionToken
               env schema_ok now_ms tbl tok Offline) !! k
          = Some (Datastore.deactivated now_ms r)).
Proof.
  intros H Htok Hscope.
  destruct (exchange_success_inv _ _ _ _ _ _ _ H)
    as (p & s & urls & k & row & Hv & Hs & _ & Hbody & _).
  set (after := ShopifyAuthService.table_after _) in *.
  destruct (storeSession_body_inv _ _ _ _ _ _ _ _ _ _ Hbody)
    as (Hkey & Hafter & Hrow & Hshop & Hactive & _).
  pose proof (saved_row_fields
                (ShopifyAuthService.new_session now_ms s p response Offline)
                ((Datastore.update s now_ms tbl).2 !! k))
    as (_ & _ & Hsc & Hacc & Hfresh).
  rewrite <- Hrow in Hsc, Hacc, Hfresh. simpl in Hsc, Hacc.
  exists p, s, k, row. repeat split; try assumption.
  - subst after. rewrite Hafter. apply lookup_insert_eq.
  - apply Hacc. exact Htok.
  - rewrite Hsc, Hscope. reflexivity.
  - intros Hnone. rewrite Hfresh; [reflexivity|].
    rewrite update_lookup, Hnone. reflexivity.
  - intros k' r Hne Hk' Hr Ha. subst after. rewrite Hafter.
    rewrite lookup_insert_ne by congruence.
    now apply update_active.
Qed.

(** [offline_exchange_persists] on the test world. *)
Lemma offline_exchange_persists_witness :
  ShopifyAuthService.table_after
    (ShopifyAuthService.exchangeSessionToken World.production
       Datastore.entity_schema World.NOW_MS World.table_other_key
       "hs.good" Offline) !! "sid-0"
  = Some (Datastore.deactivated World.NOW_MS
            (World.session World.SHOP "41" "tok0" None None true))
  /\ exists row,
      ShopifyAuthService.table_after
        (ShopifyAuthService.exchangeSessionToken World.production
           Datastore.entity_schema World.NOW_MS World.table_other_key
           "hs.good" Offline) !! "sid-1" = Some row
      /\ accessToken row = Some "tok1" /\ scope row = ["read_products"]
      /\ expiresAt row = None /\ isActive row = true.
Proof.
  destruct (offline_exchange_persists World.production Datastore.entity_schema
              World.NOW_MS World.table_other_key "hs.good" _
              ltac:(vm_compute; reflexivity) eq_refl eq_refl)
    as (p & s & key & row & Hv & Hs & Hk & Hrow & _ & Hacc & Hsc & Hact & Hexp & Hold).
  assert (Hp : p = World.payload World.ADMIN World.STORE "abc" (Some (World.NOW + 60)))
    by (vm_compute in Hv; inversion Hv; reflexivity).
  subst p. vm_compute in Hs. inversion Hs; subst s.
  vm_compute in Hk. inversion Hk; subst key.
  split.
  - apply Hold; [discriminate|vm_compute; reflexivity|reflexivity|reflexivity].
  - exists row. repeat split; try assumption.
    apply Hexp. vm_compute; reflexivity.
Defined.

(* ===================================================================== *)
(** ** invalidateSession                                                  *)
(* ===================================================================== *)

(** The claim C8 as the spec words it fails on the return value:
    [invalidateSession] is declared [Promise<void>] and resolves to
    undefined; the number of rows affected (here 1) is written to the log
    and not handed to the caller. *)
Lemma invalidateSession_resolves_to_undefined :
  ShopifyAuthService.logged
    (ShopifyAuthService.invalidateSession World.production World.NOW_MS
       World.table_other_key "test-shop.myshopify.com")
  = [LogInvalidated 1 "test-shop.myshopify.com"]
  /\ ShopifyAuthService.resolved
       (ShopifyAuthService.invalidateSession World.production World.NOW_MS
          World.table_other_key "test-shop.myshopify.com")
     = Returned JsUndefined
  /\ ShopifyAuthService.resolved
       (ShopifyAuthService.invalidateSession World.production World.NOW_MS
          World.table_other_key "test-shop.myshopify.com")
     <> Returned (JsNumber 1).
Proof.
  split; [vm_compute; reflexivity|].
  split; [vm_compute; reflexivity|].
  vm_compute. discriminate.
Qed.

(** What [invalidateSession] does with a shop it can sanitize. *)
Lemma invalidateSession_run (env : Env) (now_ms : Z) (tbl : Table)
    (s sanitizedShop : string) :
  ShopifyAuthService.sanitizeShop env s = Returned sanitizedShop ->
  ShopifyAuthService.invalidateSession env now_ms tbl s
  = {| ShopifyAuthService.resolved := Returned JsUndefined;
       ShopifyAuthService.table_left :=
         (Datastore.update sanitizedShop now_ms tbl).2;
       ShopifyAuthService.logged :=
         [LogInvalidated (Datastore.update sanitizedShop now_ms tbl).1
            sanitizedShop] |}.
Proof.
  intros Hs. unfold ShopifyAuthService.invalidateSession. rewrite Hs.
  destruct (Datastore.update sanitizedShop now_ms tbl). reflexivity.
Qed.

(** C8, amended. For a shop argument that [sanitizeShop] accepts,
    [invalidateSession] deactivates every active row of the sanitized shop
    and leaves every other row as it is; it resolves to undefined and logs
    the number of rows affected; a second call succeeds as well, affects
    zero rows and leaves the table unchanged. *)
Theorem invalidateSession_deactivates_idempotent
    (env : Env) (now_ms later_ms : Z) (tbl : Table) (s sanitizedShop : string) :
  ShopifyAuthService.sanitizeShop env s = Returned sanitizedShop ->
  ShopifyAuthService.resolved (ShopifyAuthService.invalidateSession env now_ms tbl s)
  = Returned JsUndefined
  /\ ShopifyAuthService.logged (ShopifyAuthService.invalidateSession env now_ms tbl s)
     = [LogInvalidated (size (filter (Datastore.active_in sanitizedShop) tbl))
          sanitizedShop]
  /\ filter (Datastore.active_in sanitizedShop)
       (ShopifyAuthService.table_left
          (ShopifyAuthService.invalidateSession env now_ms tbl s)) = ∅
  /\ (forall k r,
        tbl !! k = Some r -> shop r = sanitizedShop -> isActive r = true ->
        ShopifyAuthService.table_left
          (ShopifyAuthService.invalidateSession env now_ms tbl s) !! k
        = Some (Datastore.deactivated now_ms r))
  /\ (forall k r,
        tbl !! k = Some r -> ~ (shop r = sanitizedShop /\ isActive r = true) ->
        ShopifyAuthService.table_left
          (ShopifyAuthService.invalidateSession env now_ms tbl s) !! k = Some r)
  /\ ShopifyAuthService.invalidateSession env later_ms
       (ShopifyAuthService.table_left
          (ShopifyAuthService.invalidateSession env now_ms tbl s)) s
     = {| ShopifyAuthService.resolved := Returned JsUndefined;
          ShopifyAuthService.table_left :=
            ShopifyAuthService.table_left
              (ShopifyAuthService.invalidateSession env now_ms tbl s);
          ShopifyAuthService.logged := [LogInvalidated 0 sanitizedShop] |}.
Proof.
  intros Hs. rewrite !(invalidateSession_run _ _ _ _ _ Hs).
  cbn [ShopifyAuthService.resolved ShopifyAuthService.table_left
       ShopifyAuthService.logged].
  split; [reflexivity|].
  split; [reflexivity|].
  split; [apply update_deactivates|].
  split; [intros k r; apply update_active|].
  split; [intros k r; apply update_other|].
  rewrite update_nothing by apply update_deactivates.
  reflexivity.
Qed.

(** [invalidateSession_deactivates_idempotent] on the test world. *)
Lemma invalidateSession_deactivates_idempotent_witness :
  ShopifyAuthService.sanitizeShop World.production "Test-Shop.myshopify.com"
  = Returned "test-shop.myshopify.com"
  /\ ShopifyAuthService.logged
       (ShopifyAuthService.invalidateSession World.production World.NOW_MS
          World.table_other_key "Test-Shop.myshopify.com")
     = [LogInvalidated 1 "test-shop.myshopify.com"]
  /\ ShopifyAuthService.invalidateSession World.production (World.NOW_MS + 5)
       (ShopifyAuthService.table_left
          (ShopifyAuthService.invalidateSession World.production World.NOW_MS
             World.table_other_key "Test-Shop.myshopify.com"))
       "Test-Shop.myshopify.com"
     = {| ShopifyAuthService.resolved := Returned JsUndefined;
          ShopifyAuthService.table_left :=
            ShopifyAuthService.table_left
              (ShopifyAuthService.invalidateSession World.production World.NOW_MS
                 World.table_other_key "Test-Shop.myshopify.com");
          ShopifyAuthService.logged := [LogInvalidated 0 "test-shop.myshopify.com"] |}.
Proof.
  destruct (invalidateSession_deactivates_idempotent World.production
              World.NOW_MS (World.NOW_MS + 5) World.table_other_key
              "Test-Shop.myshopify.com" "test-shop.myshopify.com"
              ltac:(vm_compute; reflexivity))
    as (_ & Hlog & _ & _ & _ & Hagain).
  split; [vm_compute; reflexivity|].
  split; [rewrite Hlog; vm_compute; reflexivity|exact Hagain].
Defined.

(* ===================================================================== *)
(** ** ShopifySessionGuard.validateSessionToken                           *)
(* ===================================================================== *)

Section GuardFacts.

Variables (env : Env) (now_ms : Z) (c : JWKSService.Cache) (tok : string).

Lemma guard_unfold :
  (ShopifySessionGuard.validateSessionToken env now_ms c tok).1
  = orElse
      (let* decoded := (JWKSService.validateSessionToken env now_ms c tok).1 in
       let* _ := ShopifySessionGuard.validateTokenClaims env now_ms decoded in
       Returned decoded)
      (fun _ => ShopifySessionGuard.validateWithSecret env now_ms tok).
Proof.
  unfold ShopifySessionGuard.validateSessionToken,
    ShopifySessionGuard.validateWithJwks.
  destruct (JWKSService.validateSessionToken env now_ms c tok) as [verified c'].
  reflexivity.
Qed.

(** The key set comes first: what it verifies and the claim checks pass
    is the result. *)
Lemma guard_jwks_accepts (p : SessionTokenPayload) :
  (JWKSService.validateSessionToken env now_ms c tok).1 = Returned p ->
  ShopifySessionGuard.validateTokenClaims env now_ms p = Returned tt ->
  (ShopifySessionGuard.validateSessionToken env now_ms c tok).1 = Returned p.
Proof. intros H1 H2. rewrite guard_unfold, H1; simpl. rewrite H2. reflexivity. Qed.

(** Any error of the key-set strategy hands the token to the secret. *)
Lemma guard_falls_back (err : Msg) :
  (JWKSService.validateSessionToken env now_ms c tok).1 = Thrown err ->
  (ShopifySessionGuard.validateSessionToken env now_ms c tok).1
  = ShopifySessionGuard.validateWithSecret env now_ms tok.
Proof. intros H. rewrite guard_unfold, H. reflexivity. Qed.

(** So does a failed claim check after the key set has verified. *)
Lemma guard_falls_back_on_claims (p : SessionTokenPayload) (err : Msg) :
  (JWKSService.validateSessionToken env now_ms c tok).1 = Returned p ->
  ShopifySessionGuard.validateTokenClaims env now_ms p = Thrown err ->
  (ShopifySessionGuard.validateSessionToken env now_ms c tok).1
  = ShopifySessionGuard.validateWithSecret env now_ms tok.
Proof. intros H1 H2. rewrite guard_unfold, H1; simpl. rewrite H2. reflexivity. Qed.

(** A key set that cannot be fetched is one of those errors. *)
Lemma jwks_network_failure (payload : SessionTokenPayload) (host what : string) :
  jose_decodeJwt env tok = Returned payload ->
  Js.truthy_str (iss payload) = true ->
  url_hostname env (Js.or_empty (iss payload)) = Some host ->
  JWKSService.isValidCache now_ms c (JWKSService.cache_key host) = false ->
  fetch_jwks env (JWKSService.jwks_url host) = NetworkFailure what ->
  (JWKSService.validateSessionToken env now_ms c tok).1
  = Thrown (JwtVerificationFailed (External what)).
Proof.
  intros Hd Hi Hu Hc Hf.
  unfold JWKSService.validateSessionToken. rewrite Hd, Hi, Hu; simpl.
  unfold JWKSService.verifyJWT, JWKSService.getShopifyJWKS.
  rewrite Hc, Hf. reflexivity.
Qed.

(** When the secret decides: the outcome of [validateWithSecret] once the
    HMAC signature has verified. *)
Lemma secret_after_verify (secret : string) (p : SessionTokenPayload) :
  ShopifyAuthService.getRequiredConfig env "SHOPIFY_API_SECRET" = Returned secret ->
  jwt_verify env tok secret = Returned (DecodedObject p) ->
  ShopifySessionGuard.validateWithSecret env now_ms tok
  = rethrow JwtValidationFailed
      (let* _ := ShopifySessionGuard.validateTokenClaims env now_ms p in
       Returned p).
Proof.
  unfold ShopifyAuthService.getRequiredConfig, ShopifySessionGuard.validateWithSecret.
  destruct (config_get env "SHOPIFY_API_SECRET") as [[|a r]|]; try discriminate.
  intros H; inversion H; subst. intros ->. reflexivity.
Qed.

Lemma secret_accepts_inv (p : SessionTokenPayload) :
  ShopifySessionGuard.validateWithSecret env now_ms tok = Returned p ->
  exists secret,
    ShopifyAuthService.getRequiredConfig env "SHOPIFY_API_SECRET" = Returned secret
    /\ jwt_verify env tok secret = Returned (DecodedObject p)
    /\ ShopifySessionGuard.validateTokenClaims env now_ms p = Returned tt.
Proof.
  unfold ShopifyAuthService.getRequiredConfig, ShopifySessionGuard.validateWithSecret.
  destruct (config_get env "SHOPIFY_API_SECRET") as [[|a r]|]; try discriminate.
  destruct (jwt_verify env tok (String a r)) as [[q|]|] eqn:Hv; simpl; try discriminate.
  destruct (ShopifySessionGuard.validateTokenClaims env now_ms q) as [[]|] eqn:Hc;
    simpl; try discriminate.
  intros H; inversion H; subst. exists (String a r). auto.
Qed.

(** Whatever the guard accepts has passed [validateTokenClaims]. *)
Lemma guard_accepts_inv (p : SessionTokenPayload) :
  (ShopifySessionGuard.validateSessionToken env now_ms c tok).1 = Returned p ->
  ShopifySessionGuard.validateTokenClaims env now_ms p = Returned tt
  /\ ((JWKSService.validateSessionToken env now_ms c tok).1 = Returned p
      \/ exists secret,
          ShopifyAuthService.getRequiredConfig env "SHOPIFY_API_SECRET"
          = Returned secret
          /\ jwt_verify env tok secret = Returned (DecodedObject p)).
Proof.
  rewrite guard_unfold.
  destruct (JWKSService.validateSessionToken env now_ms c tok).1 as [q|] eqn:Hj; simpl.
  - destruct (ShopifySessionGuard.validateTokenClaims env now_ms q) as [[]|] eqn:Hc;
      simpl.
    + intros H; inversion H; subst. auto.
    + intros H. destruct (secret_accepts_inv p H) as (secret & H1 & H2 & H3).
      split; [exact H3|]. right. now exists secret.
  - intros H. destruct (secret_accepts_inv p H) as (secret & H1 & H2 & H3).
    split; [exact H3|]. right. now exists secret.
Qed.

(** When the key-set strategy verifies nothing but the payload the secret
    verifies, and that payload fails a claim check, the check's error is
    what the guard reports. *)
Lemma guard_reports_claim_error (secret : string) (p : SessionTokenPayload)
    (err : Msg) :
  ShopifyAuthService.getRequiredConfig env "SHOPIFY_API_SECRET" = Returned secret ->
  jwt_verify env tok secret = Returned (DecodedObject p) ->
  (forall q, (JWKSService.validateSessionToken env now_ms c tok).1 = Returned q ->
             q = p) ->
  ShopifySessionGuard.validateTokenClaims env now_ms p = Thrown err ->
  (ShopifySessionGuard.validateSessionToken env now_ms c tok).1
  = Thrown (JwtValidationFailed err).
Proof.
  intros Hs Hv Hsame Hc.
  assert (Hsec : ShopifySessionGuard.validateWithSecret env now_ms tok
                 = Thrown (JwtValidationFailed err)).
  { rewrite (secret_after_verify secret p Hs Hv), Hc. reflexivity. }
  destruct (JWKSService.validateSessionToken env now_ms c tok).1 as [q|e] eqn:Hj.
  - rewrite (Hsame q eq_refl) in Hj.
    rewrite (guard_falls_back_on_claims p err Hj Hc). exact Hsec.
  - rewrite (guard_falls_back e Hj). exact Hsec.
Qed.

End GuardFacts.

(** The order of the checks of [validateTokenClaims]. *)
Lemma claims_wrong_audience (env : Env) (now_ms : Z) (p : SessionTokenPayload) :
  ShopifySessionGuard.num_le (exp p) (seconds now_ms) = false ->
  ShopifySessionGuard.num_gt (nbf p) (seconds now_ms) = false ->
  aud p <> config_get env "SHOPIFY_API_KEY" ->
  ShopifySessionGuard.validateTokenClaims env now_ms p = Thrown InvalidAudienceInToken.
Proof.
  intros He Hn Ha. unfold ShopifySessionGuard.validateTokenClaims.
  rewrite He, Hn; simpl. unfold ShopifySessionGuard.differs.
  rewrite bool_decide_eq_false_2 by exact Ha. reflexivity.
Qed.

Lemma claims_domain_mismatch (env : Env) (now_ms : Z) (p : SessionTokenPayload)
    (issuerDomain destDomain : string) :
  ShopifySessionGuard.num_le (exp p) (seconds now_ms) = false ->
  ShopifySessionGuard.num_gt (nbf p) (seconds now_ms) = false ->
  aud p = config_get env "SHOPIFY_API_KEY" ->
  url_hostname env (Js.or_empty (Js.or_else (iss p) (Some ""))) = Some issuerDomain ->
  url_hostname env (Js.or_empty (Js.or_else (dest p) (Some ""))) = Some destDomain ->
  issuerDomain <> destDomain ->
  ShopifySessionGuard.validateTokenClaims env now_ms p = Thrown DomainsDoNotMatch.
Proof.
  intros He Hn Ha Hi Hd Hne. unfold ShopifySessionGuard.validateTokenClaims.
  rewrite He, Hn; simpl. unfold ShopifySessionGuard.differs.
  rewrite bool_decide_eq_true_2 by exact Ha. simpl.
  unfold ShopifySessionGuard.extractDomainFromUrl. rewrite Hi, Hd; simpl.
  destruct (String.eqb_spec issuerDomain destDomain); [contradiction|reflexivity].
Qed.

(** Claims that pass have an issuer and a destination on one host. *)
Lemma claims_pass_same_host (env : Env) (now_ms : Z) (p : SessionTokenPayload) :
  ShopifySessionGuard.validateTokenClaims env now_ms p = Returned tt ->
  exists h,
    url_hostname env (Js.or_empty (Js.or_else (iss p) (Some ""))) = Some h
    /\ url_hostname env (Js.or_empty (Js.or_else (dest p) (Some ""))) = Some h.
Proof.
  unfold ShopifySessionGuard.validateTokenClaims.
  destruct (negb (ShopifySessionGuard.num_le (exp p) (seconds now_ms)));
    simpl; [|discriminate].
  destruct (negb (ShopifySessionGuard.num_gt (nbf p) (seconds now_ms)));
    simpl; [|discriminate].
  destruct (negb (ShopifySessionGuard.differs (aud p) (config_get env "SHOPIFY_API_KEY")));
    simpl; [|discriminate].
  unfold ShopifySessionGuard.extractDomainFromUrl.
  destruct (url_hostname env (Js.or_empty (Js.or_else (iss p) (Some ""))))
    as [hi|]; simpl; [|discriminate].
  destruct (url_hostname env (Js.or_empty (Js.or_else (dest p) (Some ""))))
    as [hd|]; simpl; [|discriminate].
  destruct (String.eqb_spec hi hd) as [->|]; simpl; [|discriminate].
  intros _. now exists hd.
Qed.

(** C4. The guard tries the key set first: a token the key-set strategy
    verifies and whose claims pass is accepted as decoded. Whenever that
    strategy throws, a failed key-set fetch included, or the claim checks
    after it throw, the outcome is that of [validateWithSecret], the HMAC
    verification with the configured client secret. A token is accepted if
    and only if one of the two strategies verifies it and the payload it
    yields passes [validateTokenClaims]. *)
Theorem guard_key_set_first_then_secret
    (env : Env) (now_ms : Z) (c : JWKSService.Cache) (tok : string) :
  (forall p,
      (JWKSService.validateSessionToken env now_ms c tok).1 = Returned p ->
      ShopifySessionGuard.validateTokenClaims env now_ms p = Returned tt ->
      (ShopifySessionGuard.validateSessionToken env now_ms c tok).1 = Returned p)
  /\ (forall err,
        (JWKSService.validateSessionToken env now_ms c tok).1 = Thrown err ->
        (ShopifySessionGuard.validateSessionToken env now_ms c tok).1
        = ShopifySessionGuard.validateWithSecret env now_ms tok)
  /\ (forall payload host what,
        jose_decodeJwt env tok = Returned payload ->
        Js.truthy_str (iss payload) = true ->
        url_hostname env (Js.or_empty (iss payload)) = Some host ->
        JWKSService.isValidCache now_ms c (JWKSService.cache_key host) = false ->
        fetch_jwks env (JWKSService.jwks_url host) = NetworkFailure what ->
        (ShopifySessionGuard.validateSessionToken env now_ms c tok).1
        = ShopifySessionGuard.validateWithSecret env now_ms tok)
  /\ (forall p err,
        (JWKSService.validateSessionToken env now_ms c tok).1 = Returned p ->
        ShopifySessionGuard.validateTokenClaims env now_ms p = Thrown err ->
        (ShopifySessionGuard.validateSessionToken env now_ms c tok).1
        = ShopifySessionGuard.validateWithSecret env now_ms tok)
  /\ ((exists p,
          (ShopifySessionGuard.validateSessionToken env now_ms c tok).1 = Returned p)
      <->
      (exists p,
          (JWKSService.validateSessionToken env now_ms c tok).1 = Returned p
          /\ ShopifySessionGuard.validateTokenClaims env now_ms p = Returned tt)
      \/ (exists secret p,
             ShopifyAuthService.getRequiredConfig env "SHOPIFY_API_SECRET"
             = Returned secret
             /\ jwt_verify env tok secret = Returned (DecodedObject p)
             /\ ShopifySessionGuard.validateTokenClaims env now_ms p = Returned tt)).
Proof.
  split; [intros p; apply guard_jwks_accepts|].
  split; [intros err; apply guard_falls_back|].
  split.
  { intros payload host what Hd Hi Hu Hc Hf.
    eapply guard_falls_back. eapply jwks_network_failure; eassumption. }
  split; [intros p err; apply guard_falls_back_on_claims|].
  split.
  - intros [p Hp]. destruct (guard_accepts_inv env now_ms c tok p Hp)
      as (Hc & [Hj|(secret & Hs & Hv)]).
    + left. now exists p.
    + right. now exists secret, p.
  - intros [(p & Hj & Hc)|(secret & p & Hs & Hv & Hc)].
    + exists p. now apply guard_jwks_accepts.
    + assert (Hsec : ShopifySessionGuard.validateWithSecret env now_ms tok = Returned p).
      { rewrite (secret_after_verify env now_ms tok secret p Hs Hv), Hc. reflexivity. }
      destruct (JWKSService.validateSessionToken env now_ms c tok).1 as [q|e] eqn:Hj.
      * destruct (ShopifySessionGuard.validateTokenClaims env now_ms q) as [[]|e] eqn:Hq.
        -- exists q. now apply guard_jwks_accepts.
        -- exists p. rewrite (guard_falls_back_on_claims env now_ms c tok q e Hj Hq).
           exact Hsec.
      * exists p. rewrite (guard_falls_back env now_ms c tok e Hj). exact Hsec.
Qed.

(** [guard_key_set_first_then_secret] on the test world. *)
Lemma guard_key_set_first_then_secret_witness :
  fetch_jwks World.production (JWKSService.jwks_url "test-shop.myshopify.com")
  = NetworkFailure "connect ECONNREFUSED"
  /\ (ShopifySessionGuard.validateSessionToken World.production World.NOW_MS
        World.empty_cache "hs.good").1
     = ShopifySessionGuard.validateWithSecret World.production World.NOW_MS "hs.good"
  /\ (ShopifySessionGuard.validateSessionToken World.production World.NOW_MS
        World.empty_cache "rs.good").1
     = Returned (World.payload "https://a-shop.myshopify.com"
                   "https://a-shop.myshopify.com" "abc" (Some (World.NOW + 60))).
Proof.
  destruct (guard_key_set_first_then_secret World.production World.NOW_MS
              World.empty_cache "hs.good") as (_ & _ & Hnet & _).
  destruct (guard_key_set_first_then_secret World.production World.NOW_MS
              World.empty_cache "rs.good") as (Hfirst & _).
  split; [reflexivity|]. split.
  - apply (Hnet (World.payload World.ADMIN World.STORE "abc" (Some (World.NOW + 60)))
             "test-shop.myshopify.com" "connect ECONNREFUSED");
      vm_compute; reflexivity.
  - apply Hfirst; vm_compute; reflexivity.
Defined.

(* ===================================================================== *)
(** ** Normal forms of shop domains                                       *)
(* ===================================================================== *)

(** A character of a label is no white space, is its own lower case and
    is neither a dot nor a colon. *)
Lemma label_char_facts (c : ascii) :
  Js.is_label_char c = true ->
  Js.is_space c = false /\ Js.lower_char c = c
  /\ Ascii.eqb c "." = false /\ Ascii.eqb c ":" = false.
Proof.
  destruct c as [[] [] [] [] [] [] [] []]; vm_compute; intros H;
    try discriminate H; repeat split.
Qed.

Lemma all_chars_app (cls : ascii -> bool) (a b : string) :
  Js.all_chars cls (a +:+ b) = Js.all_chars cls a && Js.all_chars cls b.
Proof.
  induction a as [|c a IH]; [reflexivity|].
  change (Js.all_chars cls (String c (a +:+ b))
          = Js.all_chars cls (String c a) && Js.all_chars cls b).
  simpl. rewrite IH. apply andb_assoc.
Qed.

Lemma all_chars_impl (cls cls' : ascii -> bool) (s : string) :
  (forall c, cls c = true -> cls' c = true) ->
  Js.all_chars cls s = true -> Js.all_chars cls' s = true.
Proof.
  intros Himp. induction s as [|c s IH]; simpl; [reflexivity|].
  intros H. apply andb_true_iff in H as [Hc Hs].
  now rewrite (Himp c Hc), (IH Hs).
Qed.

Lemma strip_prefix_Some (p s r : string) :
  Js.strip_prefix p s = Some r -> s = p +:+ r.
Proof.
  revert s. induction p as [|a p IH]; intros s; simpl.
  - intros H; now inversion H.
  - destruct s as [|b s]; [discriminate|].
    destruct (Ascii.eqb_spec a b) as [->|]; [|discriminate].
    intros H. change (String b s = String b (p +:+ r)). f_equal. now apply IH.
Qed.

(** A prefix that holds a character outside a class is no prefix of a
    string made of the class. *)
Lemma strip_prefix_outside (cls : ascii -> bool) (p s : string) :
  Js.all_chars cls p = false -> Js.all_chars cls s = true ->
  Js.strip_prefix p s = None.
Proof.
  intros Hp Hs. destruct (Js.strip_prefix p s) as [r|] eqn:E; [|reflexivity].
  apply strip_prefix_Some in E. subst s.
  rewrite all_chars_app, Hp in Hs. discriminate.
Qed.

Lemma toLowerCase_app (a b : string) :
  Js.toLowerCase (a +:+ b) = Js.toLowerCase a +:+ Js.toLowerCase b.
Proof.
  induction a as [|c a IH]; [reflexivity|].
  change (Js.toLowerCase (String c (a +:+ b))
          = String (Js.lower_char c) (Js.toLowerCase a +:+ Js.toLowerCase b)).
  simpl. now rewrite IH.
Qed.

Lemma toLowerCase_label (name : string) :
  Js.all_chars Js.is_label_char name = true -> Js.toLowerCase name = name.
Proof.
  induction name as [|c s IH]; simpl; [reflexivity|].
  intros H. apply andb_true_iff in H as [Hc Hs].
  destruct (label_char_facts c Hc) as (_ & -> & _). now rewrite (IH Hs).
Qed.

Lemma trimEnd_app (a b : string) :
  b <> EmptyString -> Js.trimEnd b = b -> Js.trimEnd (a +:+ b) = a +:+ b.
Proof.
  intros Hne Hb. induction a as [|c a IH]; [exact Hb|].
  change (Js.trimEnd (String c (a +:+ b)) = String c (a +:+ b)).
  simpl. rewrite IH.
  destruct (a +:+ b) eqn:E; [|reflexivity].
  destruct a; [|discriminate E]. simpl in E. contradiction.
Qed.

Lemma span_exact (cls : ascii -> bool) (name rest : string) :
  Js.all_chars cls name = true ->
  (rest = EmptyString \/ exists c r, rest = String c r /\ cls c = false) ->
  Js.span cls (name +:+ rest) = (name, rest).
Proof.
  intros Hn Hr. induction name as [|c s IH].
  - destruct Hr as [->|(c & r & -> & Hc)]; simpl; [reflexivity|].
    now rewrite Hc.
  - simpl in Hn. apply andb_true_iff in Hn as [Hc Hs].
    change (Js.span cls (String c (s +:+ rest)) = (String c s, rest)).
    simpl. rewrite Hc, (IH Hs). reflexivity.
Qed.

(** A name of label characters followed by [.myshopify.com] goes through
    the normalisation of [sanitizeShop] unchanged. *)
Lemma normal_form_fixed (name : string) :
  name <> EmptyString ->
  Js.all_chars Js.is_label_char name = true ->
  ShopifyAuthService.strip_protocol
    (Js.toLowerCase (Js.trim (name +:+ ".myshopify.com")))
  = name +:+ ".myshopify.com".
Proof.
  intros Hne Hall.
  assert (Htrim : Js.trim (name +:+ ".myshopify.com") = name +:+ ".myshopify.com").
  { unfold Js.trim.
    assert (Hstart : Js.trimStart (name +:+ ".myshopify.com")
                     = name +:+ ".myshopify.com").
    { destruct name as [|c s]; [contradiction|].
      simpl in Hall. apply andb_true_iff in Hall as [Hc _].
      destruct (label_char_facts c Hc) as (Hsp & _).
      change (Js.trimStart (String c (s +:+ ".myshopify.com"))
              = String c (s +:+ ".myshopify.com")).
      simpl. now rewrite Hsp. }
    rewrite Hstart. apply trimEnd_app; [discriminate|reflexivity]. }
  rewrite Htrim, toLowerCase_app, (toLowerCase_label name Hall).
  change (Js.toLowerCase ".myshopify.com") with ".myshopify.com".
  assert (Hhost : Js.all_chars (fun c => negb (Ascii.eqb c ":"))
                    (name +:+ ".myshopify.com") = true).
  { rewrite all_chars_app. apply andb_true_iff. split; [|reflexivity].
    apply (all_chars_impl Js.is_label_char); [|exact Hall].
    intros c Hc. destruct (label_char_facts c Hc) as (_ & _ & _ & ->).
    reflexivity. }
  unfold ShopifyAuthService.strip_protocol.
  rewrite (strip_prefix_outside (fun c => negb (Ascii.eqb c ":")) "https://"
             _ eq_refl Hhost).
  rewrite (strip_prefix_outside (fun c => negb (Ascii.eqb c ":")) "http://"
             _ eq_refl Hhost).
  reflexivity.
Qed.

Lemma span_normal_form (name : string) :
  Js.all_chars Js.is_label_char name = true ->
  Js.span Js.is_label_char (name +:+ ".myshopify.com") = (name, ".myshopify.com").
Proof.
  intros Hall. apply span_exact; [exact Hall|].
  right. exists "."%char, "myshopify.com". split; reflexivity.
Qed.

Lemma sanitizeShop_fixed_point (env : Env) (s r : string) :
  is_production env = true ->
  ShopifyAuthService.sanitizeShop env s = Returned r ->
  ShopifyAuthService.sanitizeShop env r = Returned r.
Proof.
  intros Hprod H.
  destruct (sanitizeShop_production env s r Hprod H)
    as (name & rest & _ & Hne & Hall & _ & ->).
  unfold ShopifyAuthService.sanitizeShop.
  destruct (name +:+ ".myshopify.com") eqn:E.
  { destruct name; [contradiction|discriminate E]. }
  rewrite <- E. rewrite (normal_form_fixed name Hne Hall).
  unfold ShopifyAuthService.shop_name_match.
  rewrite (span_normal_form name Hall). simpl.
  destruct name as [|c n]; [contradiction|].
  rewrite Hall, Hprod. reflexivity.
Qed.

(** In production [sanitizeShop] returns a fixed point of itself: a shop
    read back from a stored row, or sanitized a second time on the way to
    the table, is the same shop. *)
Theorem sanitizeShop_idempotent_in_production (env : Env) (s r : string) :
  is_production env = true ->
  ShopifyAuthService.sanitizeShop env s = Returned r ->
  ShopifyAuthService.sanitizeShop env r = Returned r.
Proof. apply sanitizeShop_fixed_point. Qed.

(** [sanitizeShop_idempotent_in_production] on the test world. *)
Lemma sanitizeShop_idempotent_in_production_witness :
  ShopifyAuthService.sanitizeShop World.production " https://Test-Shop.example.org/x"
  = Returned "test-shop.myshopify.com"
  /\ ShopifyAuthService.sanitizeShop World.production "test-shop.myshopify.com"
     = Returned "test-shop.myshopify.com".
Proof.
  assert (H : ShopifyAuthService.sanitizeShop World.production
                " https://Test-Shop.example.org/x"
              = Returned "test-shop.myshopify.com") by (vm_compute; reflexivity).
  split; [exact H|].
  exact (sanitizeShop_idempotent_in_production World.production _ _ eq_refl H).
Defined.

(** Outside production a second pass can change the result: a tunnel
    host written behind two protocols loses one at each pass. *)
Example sanitizeShop_not_idempotent_in_development :
  ShopifyAuthService.sanitizeShop World.development "http://http://x.ngrok.io"
  = Returned "http://x.ngrok.io"
  /\ ShopifyAuthService.sanitizeShop World.development "http://x.ngrok.io"
     = Returned "x.ngrok.io".
Proof. split; vm_compute; reflexivity. Qed.

(** The gateway and the auth service in production sanitize alike: the
    auth service accepts a shop exactly when the gateway returns a
    non-empty string for it, and that string is what the auth service
    returns. *)
Theorem gateway_sanitizeShop_agrees_in_production (env : Env) (s r : string) :
  is_production env = true ->
  (ShopifyAuthService.sanitizeShop env s = Returned r
   <-> GatewayAuthService.sanitizeShop s = r /\ r <> EmptyString).
Proof.
  intros Hprod.
  unfold ShopifyAuthService.sanitizeShop, GatewayAuthService.sanitizeShop,
    ShopifyAuthService.shop_name_match, GatewayAuthService.shop_name_match.
  destruct s as [|c0 s0].
  { split; [discriminate|]. intros [<- Hne]. contradiction. }
  set (w := ShopifyAuthService.strip_protocol (Js.toLowerCase (Js.trim (String c0 s0)))).
  pose proof (span_all Js.is_label_char w) as Hall.
  destruct (Js.span Js.is_label_char w) as [name rest]; simpl in *.
  destruct name as [|a n].
  { split; [discriminate|]. intros [<- Hne]. contradiction. }
  rewrite Hall, Hprod. simpl.
  split.
  - intros H; inversion H; subst. split; [reflexivity|discriminate].
  - intros [<- _]. reflexivity.
Qed.

(** [gateway_sanitizeShop_agrees_in_production] on the test world. *)
Lemma gateway_sanitizeShop_agrees_in_production_witness :
  GatewayAuthService.sanitizeShop "HTTPS://My-Shop.myshopify.com/admin"
  = "my-shop.myshopify.com"
  /\ ShopifyAuthService.sanitizeShop World.production
       "HTTPS://My-Shop.myshopify.com/admin"
     = Returned "my-shop.myshopify.com".
Proof.
  split; [vm_compute; reflexivity|].
  apply (gateway_sanitizeShop_agrees_in_production World.production _ _ eq_refl).
  split; [vm_compute; reflexivity|discriminate].
Defined.

(* ===================================================================== *)
(** ** What the service accepts                                           *)
(* ===================================================================== *)

Lemma truthy_num_check (o : option Z) (test : Z -> bool) :
  Js.truthy_num o && test (default 0 o) = false
  <-> forall x, o = Some x -> x = 0 \/ test x = false.
Proof.
  destruct o as [x|]; simpl.
  - destruct (Z.eqb_spec x 0) as [->|Hx]; simpl.
    + split; [intros _ y Hy; inversion Hy; now left|reflexivity].
    + split.
      * intros H y Hy; inversion Hy; subst. now right.
      * intros H. destruct (H x eq_refl) as [?|?]; [contradiction|assumption].
  - split; [intros _ x Hx; discriminate|reflexivity].
Qed.

Lemma service_accepts_iff
    (env : Env) (now_ms : Z) (tok : string) (p : SessionTokenPayload) :
  ShopifyAuthService.validateSessionToken env now_ms tok = Returned p
  <->
  exists secret clientId s,
    ShopifyAuthService.getRequiredConfig env "SHOPIFY_API_SECRET" = Returned secret
    /\ ShopifyAuthService.getRequiredConfig env "SHOPIFY_API_KEY" = Returned clientId
    /\ jwt_verify env tok secret = Returned (DecodedObject p)
    /\ Js.truthy_str (iss p) = true /\ Js.truthy_str (dest p) = true
    /\ Js.truthy_str (sub p) = true
    /\ aud p = Some clientId
    /\ (forall x, exp p = Some x -> x = 0 \/ seconds now_ms <= x)
    /\ (forall t, nbf p = Some t -> t = 0 \/ t <= seconds now_ms)
    /\ (forall t, iat p = Some t -> t = 0 \/ seconds now_ms - t <= 90)
    /\ ShopifyAuthService.extractShopFromPayload env p = Returned s
    /\ ShopifyAuthService.isValidShopDomain env s = true
    /\ Js.includes ".myshopify.com" (Js.or_empty (iss p)) = true.
Proof.
  split.
  - unfold ShopifyAuthService.validateSessionToken.
    destruct (ShopifyAuthService.getRequiredConfig env "SHOPIFY_API_SECRET")
      as [secret|] eqn:Hs; [|discriminate].
    destruct (ShopifyAuthService.getRequiredConfig env "SHOPIFY_API_KEY")
      as [clientId|] eqn:Hk; [|discriminate].
    cbn [bind rethrow].
    destruct (jwt_verify env tok secret) as [[q|]|] eqn:Hv; try discriminate.
    cbn [bind rethrow]. unfold ShopifyAuthService.validateTokenPayload.
    destruct (Js.truthy_str (iss q) && Js.truthy_str (dest q)
              && Js.truthy_str (aud q) && Js.truthy_str (sub q)) eqn:Hreq;
      [|discriminate].
    cbn [bind guard_that rethrow].
    destruct (String.eqb_spec (Js.or_empty (aud q)) clientId) as [Haud|];
      [|discriminate].
    cbn [bind guard_that rethrow].
    destruct (Js.truthy_num (exp q)
              && (default 0 (exp q) <? seconds now_ms)) eqn:Hexp; [discriminate|].
    cbn [bind guard_that rethrow negb].
    destruct (Js.truthy_num (nbf q)
              && (default 0 (nbf q) >? seconds now_ms)) eqn:Hnbf; [discriminate|].
    cbn [bind guard_that rethrow negb].
    destruct (Js.truthy_num (iat q)
              && (seconds now_ms - default 0 (iat q)
                  >? ShopifyAuthService.SESSION_TOKEN_LIFETIME + 30)) eqn:Hiat;
      [discriminate|].
    cbn [bind guard_that rethrow negb].
    destruct (ShopifyAuthService.extractShopFromPayload env q) as [s|] eqn:Hshop;
      [|discriminate].
    cbn [bind guard_that rethrow].
    destruct (ShopifyAuthService.isValidShopDomain env s) eqn:Hvalid; [|discriminate].
    cbn [bind guard_that rethrow].
    destruct (Js.includes ".myshopify.com" (Js.or_empty (iss q))) eqn:Hiss;
      [|discriminate].
    cbn [bind guard_that rethrow].
    intros H; inversion H; subst q.
    apply andb_true_iff in Hreq as [Hreq Hsub].
    apply andb_true_iff in Hreq as [Hreq Haudt].
    apply andb_true_iff in Hreq as [Hisst Hdest].
    exists secret, clientId, s. repeat split; try assumption.
    + destruct (aud p) as [a|]; [|discriminate]. simpl in Haud. now subst.
    + intros x Hx.
      destruct (proj1 (truthy_num_check (exp p) (fun v => v <? seconds now_ms))
                  Hexp x Hx) as [?|Hlt]; [now left|right].
      now apply Z.ltb_ge in Hlt.
    + intros t Ht.
      destruct (proj1 (truthy_num_check (nbf p) (fun v => v >? seconds now_ms))
                  Hnbf t Ht) as [?|Hgt]; [now left|right].
      rewrite Z.gtb_ltb in Hgt. now apply Z.ltb_ge in Hgt.
    + intros t Ht.
      destruct (proj1 (truthy_num_check (iat p)
                         (fun v => seconds now_ms - v
                                   >? ShopifyAuthService.SESSION_TOKEN_LIFETIME + 30))
                  Hiat t Ht) as [?|Hgt]; [now left|right].
      rewrite Z.gtb_ltb in Hgt. apply Z.ltb_ge in Hgt.
      unfold ShopifyAuthService.SESSION_TOKEN_LIFETIME in Hgt. lia.
  - intros (secret & clientId & s & Hs & Hk & Hv & Hiss & Hdest & Hsub & Haud
            & Hexp & Hnbf & Hiat & Hshop & Hvalid & Hmy).
    rewrite (service_after_verify env now_ms tok secret clientId p Hs Hk Hv).
    unfold ShopifyAuthService.validateTokenPayload.
    assert (Haudt : Js.truthy_str (aud p) = true).
    { rewrite Haud. unfold ShopifyAuthService.getRequiredConfig in Hk.
      destruct (config_get env "SHOPIFY_API_KEY") as [[|c r]|]; try discriminate.
      inversion Hk; reflexivity. }
    rewrite Hiss, Hdest, Hsub, Haudt, Haud. cbn [andb bind guard_that Js.or_empty].
    rewrite String.eqb_refl. cbn [bind guard_that].
    assert (E1 : Js.truthy_num (exp p)
                 && (default 0 (exp p) <? seconds now_ms) = false).
    { apply (truthy_num_check (exp p) (fun v => v <? seconds now_ms)).
      intros x Hx. destruct (Hexp x Hx); [now left|right]. now apply Z.ltb_ge. }
    assert (E2 : Js.truthy_num (nbf p)
                 && (default 0 (nbf p) >? seconds now_ms) = false).
    { apply (truthy_num_check (nbf p) (fun v => v >? seconds now_ms)).
      intros x Hx. destruct (Hnbf x Hx); [now left|right].
      rewrite Z.gtb_ltb. now apply Z.ltb_ge. }
    assert (E3 : Js.truthy_num (iat p)
                 && (seconds now_ms - default 0 (iat p)
                     >? ShopifyAuthService.SESSION_TOKEN_LIFETIME + 30) = false).
    { apply (truthy_num_check (iat p)
               (fun v => seconds now_ms - v
                         >? ShopifyAuthService.SESSION_TOKEN_LIFETIME + 30)).
      intros x Hx. destruct (Hiat x Hx); [now left|right].
      rewrite Z.gtb_ltb. apply Z.ltb_ge.
      unfold ShopifyAuthService.SESSION_TOKEN_LIFETIME. lia. }
    rewrite E1, E2, E3. cbn [negb bind guard_that].
    rewrite Hshop. cbn [bind]. rewrite Hvalid, Hmy. reflexivity.
Qed.

(** [ShopifyAuthService.validateSessionToken] returns a payload exactly
    when both credentials are configured, the HMAC verification yields
    that payload, [iss], [dest], [aud] and [sub] are present, [aud] is the
    client id, [exp] is absent, zero or not before now, [nbf] is absent,
    zero or not after now, [iat] is absent, zero or at most 90 seconds
    old, the shop taken from the issuer is a valid shop domain and the
    issuer mentions [.myshopify.com]. It accepts nothing else. *)
Theorem service_accepts_exactly
    (env : Env) (now_ms : Z) (tok : string) (p : SessionTokenPayload) :
  ShopifyAuthService.validateSessionToken env now_ms tok = Returned p
  <->
  exists secret clientId s,
    ShopifyAuthService.getRequiredConfig env "SHOPIFY_API_SECRET" = Returned secret
    /\ ShopifyAuthService.getRequiredConfig env "SHOPIFY_API_KEY" = Returned clientId
    /\ jwt_verify env tok secret = Returned (DecodedObject p)
    /\ Js.truthy_str (iss p) = true /\ Js.truthy_str (dest p) = true
    /\ Js.truthy_str (sub p) = true
    /\ aud p = Some clientId
    /\ (forall x, exp p = Some x -> x = 0 \/ seconds now_ms <= x)
    /\ (forall t, nbf p = Some t -> t = 0 \/ t <= seconds now_ms)
    /\ (forall t, iat p = Some t -> t = 0 \/ seconds now_ms - t <= 90)
    /\ ShopifyAuthService.extractShopFromPayload env p = Returned s
    /\ ShopifyAuthService.isValidShopDomain env s = true
    /\ Js.includes ".myshopify.com" (Js.or_empty (iss p)) = true.
Proof. apply service_accepts_iff. Qed.

(** [service_accepts_exactly] on the test world: the accepted token
    carries the client id as audience. *)
Lemma service_accepts_exactly_witness :
  ShopifyAuthService.validateSessionToken World.production World.NOW_MS "hs.good"
  = Returned (World.payload World.ADMIN World.STORE "abc" (Some (World.NOW + 60)))
  /\ exists clientId,
      ShopifyAuthService.getRequiredConfig World.production "SHOPIFY_API_KEY"
      = Returned clientId
      /\ aud (World.payload World.ADMIN World.STORE "abc" (Some (World.NOW + 60)))
         = Some clientId.
Proof.
  assert (H : ShopifyAuthService.validateSessionToken World.production
                World.NOW_MS "hs.good"
              = Returned (World.payload World.ADMIN World.STORE "abc"
                            (Some (World.NOW + 60))))
    by (vm_compute; reflexivity).
  split; [exact H|].
  destruct (proj1 (service_accepts_exactly World.production World.NOW_MS
                     "hs.good" _) H)
    as (secret & clientId & s & _ & Hk & _ & _ & _ & _ & Ha & _).
  exists clientId. split; assumption.
Defined.

(** Whatever the auth service accepts the gateway accepts: the gateway's
    [validateSessionToken] makes a subset of the checks (signature,
    required claims, audience, expiry) with the same configuration. *)
Theorem gateway_accepts_what_service_accepts
    (env : Env) (now_ms : Z) (tok : string) (p : SessionTokenPayload) :
  ShopifyAuthService.validateSessionToken env now_ms tok = Returned p ->
  GatewayAuthService.validateSessionToken env now_ms tok = true.
Proof.
  intros H. apply service_accepts_iff in H
    as (secret & clientId & s & Hs & Hk & Hv & Hiss & Hdest & Hsub & Haud
        & Hexp & _).
  unfold GatewayAuthService.validateSessionToken,
    GatewayAuthService.shopifyApiSecret, GatewayAuthService.shopifyApiKey.
  unfold ShopifyAuthService.getRequiredConfig in Hs, Hk.
  destruct (config_get env "SHOPIFY_API_SECRET") as [[|a r]|]; try discriminate.
  destruct (config_get env "SHOPIFY_API_KEY") as [[|b q]|]; try discriminate.
  inversion Hs; inversion Hk; subst. simpl.
  rewrite Hv, Hiss, Hdest, Hsub, Haud. simpl.
  rewrite bool_decide_eq_true_2 by reflexivity. simpl.
  apply negb_true_iff.
  apply (truthy_num_check (exp p) (fun v => v <? seconds now_ms)).
  intros x Hx. destruct (Hexp x Hx); [now left|right]. now apply Z.ltb_ge.
Qed.

(** [gateway_accepts_what_service_accepts] on the test world. *)
Lemma gateway_accepts_what_service_accepts_witness :
  GatewayAuthService.validateSessionToken World.production World.NOW_MS "hs.good"
  = true.
Proof.
  apply (gateway_accepts_what_service_accepts World.production World.NOW_MS
           "hs.good"
           (World.payload World.ADMIN World.STORE "abc" (Some (World.NOW + 60)))).
  vm_compute; reflexivity.
Defined.

(** The converse fails: the gateway lets a token through that the auth
    service refuses as issued too long ago. *)
Example gateway_accepts_more_than_service :
  GatewayAuthService.validateSessionToken World.production
    (World.NOW_MS + 200000) "hs.noexp" = true
  /\ ShopifyAuthService.validateSessionToken World.production
       (World.NOW_MS + 200000) "hs.noexp"
     = Thrown (InvalidSessionToken TokenTooOld).
Proof. split; vm_compute; reflexivity. Qed.

(* ===================================================================== *)
(** ** exchangeSessionToken: requests and failures                        *)
(* ===================================================================== *)

Lemma performTokenExchange_at_most_one (env : Env) (s tok : string) (ty : TokenType) :
  (length (ShopifyAuthService.performTokenExchange env s tok ty).2 <= 1)%nat.
Proof.
  unfold ShopifyAuthService.performTokenExchange.
  destruct (ShopifyAuthService.getRequiredConfig env "SHOPIFY_API_KEY"); simpl; [|lia].
  destruct (ShopifyAuthService.getRequiredConfig env "SHOPIFY_API_SECRET"); simpl; lia.
Qed.

(** [exchangeSessionToken] contacts the provider at most once, and not at
    all for a token it does not validate; whatever makes it fail (the
    validation, the provider, the datastore), the session table is left as
    it was. *)
Theorem exchange_requests_and_failures
    (env : Env) (schema_ok : Table -> bool) (now_ms : Z) (tbl : Table)
    (tok : string) (ty : TokenType) :
  (length (ShopifyAuthService.requested
             (ShopifyAuthService.exchangeSessionToken
                env schema_ok now_ms tbl tok ty)) <= 1)%nat
  /\ (forall err,
        ShopifyAuthService.validateSessionToken env now_ms tok = Thrown err ->
        ShopifyAuthService.exchangeSessionToken env schema_ok now_ms tbl tok ty
        = {| ShopifyAuthService.result := Thrown (TokenExchangeFailed err);
             ShopifyAuthService.table_after := tbl;
             ShopifyAuthService.requested := [] |})
  /\ (forall err,
        ShopifyAuthService.result
          (ShopifyAuthService.exchangeSessionToken env schema_ok now_ms tbl tok ty)
        = Thrown err ->
        ShopifyAuthService.table_after
          (ShopifyAuthService.exchangeSessionToken env schema_ok now_ms tbl tok ty)
        = tbl).
Proof.
  split; [|split].
  - unfold ShopifyAuthService.exchangeSessionToken.
    destruct (ShopifyAuthService.validateSessionToken env now_ms tok) as [p|];
      simpl; [|lia].
    destruct (ShopifyAuthService.extractShopFromPayload env p) as [s|]; simpl; [|lia].
    pose proof (performTokenExchange_at_most_one env s tok ty) as Hlen.
    destruct (ShopifyAuthService.performTokenExchange env s tok ty)
      as [[resp|] urls]; simpl in *; [|exact Hlen].
    destruct (ShopifyAuthService.storeSession schema_ok now_ms s p resp ty tbl)
      as [[?|?] ?]; simpl; exact Hlen.
  - intros err Hv. unfold ShopifyAuthService.exchangeSessionToken.
    rewrite Hv. reflexivity.
  - intros err. apply exchange_failure_frame.
Qed.

(** [exchange_requests_and_failures] on the test world: a forged token
    reaches neither the provider nor the table. *)
Lemma exchange_requests_and_failures_witness :
  ShopifyAuthService.exchangeSessionToken World.production
    Datastore.entity_schema World.NOW_MS World.table_other_key
    "forged.expired" Offline
  = {| ShopifyAuthService.result :=
         Thrown (TokenExchangeFailed
                   (InvalidSessionToken (External "invalid signature")));
       ShopifyAuthService.table_after := World.table_other_key;
       ShopifyAuthService.requested := [] |}.
Proof.
  destruct (exchange_requests_and_failures World.production
              Datastore.entity_schema World.NOW_MS World.table_other_key
              "forged.expired" Offline) as (_ & Hinvalid & _).
  apply Hinvalid. vm_compute; reflexivity.
Defined.

(* ===================================================================== *)
(** ** Looking sessions up                                                *)
(* ===================================================================== *)

Lemma newest_active_elem (s : string) (tbl : Table) (kr : string * ShopifySession) :
  kr ∈ Datastore.newest_active s tbl ->
  tbl !! kr.1 = Some kr.2 /\ shop kr.2 = s /\ isActive kr.2 = true
  /\ forall k r, tbl !! k = Some r -> shop r = s -> isActive r = true ->
                 updatedAt r <= updatedAt kr.2.
Proof.
  unfold Datastore.newest_active. intros H.
  apply list_elem_of_filter in H as [Hmax Hin].
  destruct kr as [k0 r0]. apply elem_of_map_to_list in Hin.
  apply map_lookup_filter_Some in Hin as [Hk [Hs Ha]]. simpl in *.
  repeat split; try assumption.
  intros k r Hk' Hs' Ha'. rewrite Forall_forall in Hmax.
  apply (Hmax (k, r)). apply elem_of_map_to_list.
  apply map_lookup_filter_Some. repeat split; assumption.
Qed.

(** A non-empty list of rows has one that none is newer than. *)
Lemma newest_exists (rows : list (string * ShopifySession)) :
  rows <> [] ->
  exists kr, kr ∈ rows
             /\ Forall (fun kr' : string * ShopifySession =>
                          updatedAt kr'.2 <= updatedAt kr.2) rows.
Proof.
  induction rows as [|x rows IH]; [contradiction|]. intros _.
  destruct rows as [|y rows].
  - exists x. split; [left|]. constructor; [lia|constructor].
  - destruct (IH ltac:(discriminate)) as (m & Hm & Hall).
    destruct (Z_le_gt_dec (updatedAt x.2) (updatedAt m.2)) as [Hle|Hgt].
    + exists m. split; [now right|]. constructor; assumption.
    + exists x. split; [left|]. constructor; [lia|].
      eapply Forall_impl; [exact Hall|]. simpl. intros; lia.
Qed.

Lemma newest_active_nil (s : string) (tbl : Table) :
  Datastore.newest_active s tbl = [] <-> filter (Datastore.active_in s) tbl = ∅.
Proof.
  unfold Datastore.newest_active. split.
  - intros H. apply map_to_list_empty_iff.
    destruct (map_to_list (filter (Datastore.active_in s) tbl)) as [|x l] eqn:E;
      [reflexivity|].
    destruct (newest_exists (x :: l) ltac:(discriminate)) as (m & Hm & Hall).
    assert (Hin : m ∈ filter
                    (fun kr : string * ShopifySession =>
                       Forall (fun kr' : string * ShopifySession =>
                                 updatedAt kr'.2 <= updatedAt kr.2) (x :: l))
                    (x :: l))
      by (apply list_elem_of_filter; split; assumption).
    rewrite H in Hin. inversion Hin.
  - intros ->. rewrite map_to_list_empty. reflexivity.
Qed.

Lemma newest_active_singleton (s k : string) (row : ShopifySession) (tbl : Table) :
  filter (Datastore.active_in s) tbl = {[k := row]} ->
  Datastore.newest_active s tbl = [(k, row)].
Proof.
  intros H. unfold Datastore.newest_active. rewrite H, map_to_list_singleton.
  cbv zeta. rewrite filter_cons_True; [reflexivity|].
  constructor; [simpl; lia|constructor].
Qed.

Lemma chooses_nil (pick : Datastore.Choice) :
  Datastore.chooses pick -> pick [] = None.
Proof.
  intros H. specialize (H []). destruct (pick []) as [kr|]; [|reflexivity].
  inversion H.
Qed.

Lemma chooses_singleton (pick : Datastore.Choice) (kr : string * ShopifySession) :
  Datastore.chooses pick -> pick [kr] = Some kr.
Proof.
  intros H. specialize (H [kr]). destruct (pick [kr]) as [x|]; [|discriminate].
  apply list_elem_of_singleton in H. now subst.
Qed.

Lemma getSessionByShop_spec
    (env : Env) (pick : Datastore.Choice) (tbl : Table) (s : string) :
  Datastore.chooses pick ->
  (forall k r,
      ShopifyAuthService.getSessionByShop env pick tbl s = Some (k, r) ->
      exists sanitizedShop,
        ShopifyAuthService.sanitizeShop env s = Returned sanitizedShop
        /\ tbl !! k = Some r /\ shop r = sanitizedShop /\ isActive r = true
        /\ forall k' r', tbl !! k' = Some r' -> shop r' = sanitizedShop ->
                         isActive r' = true -> updatedAt r' <= updatedAt r)
  /\ (forall sanitizedShop,
        ShopifyAuthService.sanitizeShop env s = Returned sanitizedShop ->
        (ShopifyAuthService.getSessionByShop env pick tbl s = None
         <-> filter (Datastore.active_in sanitizedShop) tbl = ∅))
  /\ (forall err,
        ShopifyAuthService.sanitizeShop env s = Thrown err ->
        ShopifyAuthService.getSessionByShop env pick tbl s = None).
Proof.
  intros Hpick. unfold ShopifyAuthService.getSessionByShop, Datastore.findOne.
  split; [|split].
  - intros k r H.
    destruct (ShopifyAuthService.sanitizeShop env s) as [s'|]; [|discriminate].
    exists s'. split; [reflexivity|].
    pose proof (Hpick (Datastore.newest_active s' tbl)) as Hin. rewrite H in Hin.
    apply (newest_active_elem s' tbl (k, r) Hin).
  - intros s' ->. rewrite <- newest_active_nil. split.
    + intros H. pose proof (Hpick (Datastore.newest_active s' tbl)) as Hin.
      now rewrite H in Hin.
    + intros ->. now apply chooses_nil.
  - intros err ->. reflexivity.
Qed.

(** [getSessionByShop] returns a stored, active row of the sanitized
    shop that no other active row of the shop is newer than; it returns
    null exactly when the shop has no active row, and always for a shop
    that cannot be sanitized. It never returns a row of another shop or a
    deactivated row. *)
Theorem getSessionByShop_newest_active
    (env : Env) (pick : Datastore.Choice) (tbl : Table) (s : string) :
  Datastore.chooses pick ->
  (forall k r,
      ShopifyAuthService.getSessionByShop env pick tbl s = Some (k, r) ->
      exists sanitizedShop,
        ShopifyAuthService.sanitizeShop env s = Returned sanitizedShop
        /\ tbl !! k = Some r /\ shop r = sanitizedShop /\ isActive r = true
        /\ forall k' r', tbl !! k' = Some r' -> shop r' = sanitizedShop ->
                         isActive r' = true -> updatedAt r' <= updatedAt r)
  /\ (forall sanitizedShop,
        ShopifyAuthService.sanitizeShop env s = Returned sanitizedShop ->
        (ShopifyAuthService.getSessionByShop env pick tbl s = None
         <-> filter (Datastore.active_in sanitizedShop) tbl = ∅))
  /\ (forall err,
        ShopifyAuthService.sanitizeShop env s = Thrown err ->
        ShopifyAuthService.getSessionByShop env pick tbl s = None).
Proof. apply getSessionByShop_spec. Qed.

Lemma first_row_chooses : Datastore.chooses World.first_row.
Proof.
  intros rows. unfold World.first_row. destruct rows as [|x l]; simpl;
    [reflexivity|left].
Qed.

(** [getSessionByShop_newest_active] on the test world. *)
Lemma getSessionByShop_newest_active_witness :
  ShopifyAuthService.getSessionByShop World.production World.first_row
    World.table_other_key "https://Test-Shop.myshopify.com/"
  = Some ("sid-0", World.session World.SHOP "41" "tok0" None None true)
  /\ World.table_other_key !! "sid-0"
     = Some (World.session World.SHOP "41" "tok0" None None true).
Proof.
  assert (H : ShopifyAuthService.getSessionByShop World.production World.first_row
                World.table_other_key "https://Test-Shop.myshopify.com/"
              = Some ("sid-0", World.session World.SHOP "41" "tok0" None None true))
    by (vm_compute; reflexivity).
  split; [exact H|].
  destruct (getSessionByShop_newest_active World.production World.first_row
              World.table_other_key "https://Test-Shop.myshopify.com/"
              first_row_chooses) as (Hsound & _).
  destruct (Hsound _ _ H) as (s' & _ & Hk & _). exact Hk.
Defined.

(** After a successful exchange, looking the derived shop up returns the
    row the exchange stored, under the token's session id: whichever shop
    argument sanitizes to the derived shop, in production the derived shop
    itself. *)
Theorem exchange_then_lookup
    (env : Env) (schema_ok : Table -> bool) (pick : Datastore.Choice)
    (now_ms : Z) (tbl : Table) (tok : string) (ty : TokenType)
    (response : Exchange.Response) :
  Datastore.chooses pick ->
  ShopifyAuthService.result
    (ShopifyAuthService.exchangeSessionToken env schema_ok now_ms tbl tok ty)
  = Returned response ->
  exists p s key row,
    ShopifyAuthService.validateSessionToken env now_ms tok = Returned p
    /\ ShopifyAuthService.extractShopFromPayload env p = Returned s
    /\ Js.or_else (sid p) (jti p) = Some key
    /\ ShopifyAuthService.table_after
         (ShopifyAuthService.exchangeSessionToken env schema_ok now_ms tbl tok ty)
       !! key = Some row
    /\ (forall raw,
          ShopifyAuthService.sanitizeShop env raw = Returned s ->
          ShopifyAuthService.getSessionByShop env pick
            (ShopifyAuthService.table_after
               (ShopifyAuthService.exchangeSessionToken
                  env schema_ok now_ms tbl tok ty)) raw
          = Some (key, row))
    /\ (is_production env = true ->
        ShopifyAuthService.getSessionByShop env pick
          (ShopifyAuthService.table_after
             (ShopifyAuthService.exchangeSessionToken
                env schema_ok now_ms tbl tok ty)) s
        = Some (key, row)).
Proof.
  intros Hpick H.
  destruct (exchange_success_inv _ _ _ _ _ _ _ H)
    as (p & s & urls & k & row & Hv & Hs & _ & Hbody & _).
  set (after := ShopifyAuthService.table_after _) in *.
  destruct (storeSession_body_inv _ _ _ _ _ _ _ _ _ _ Hbody)
    as (Hkey & Hafter & _ & _ & _ & Hfilter).
  assert (Hlookup : forall raw,
             ShopifyAuthService.sanitizeShop env raw = Returned s ->
             ShopifyAuthService.getSessionByShop env pick after raw = Some (k, row)).
  { intros raw Hraw. unfold ShopifyAuthService.getSessionByShop, Datastore.findOne.
    rewrite Hraw, (newest_active_singleton s k row after Hfilter).
    now apply chooses_singleton. }
  exists p, s, k, row. repeat split; try assumption.
  - rewrite Hafter. apply lookup_insert_eq.
  - intros Hprod. apply Hlookup.
    destruct (extractShop_sanitized env p s Hs) as (raw & Hraw).
    exact (sanitizeShop_fixed_point env raw s Hprod Hraw).
Qed.

(** [exchange_then_lookup] on the test world. *)
Lemma exchange_then_lookup_witness :
  exists row,
    ShopifyAuthService.getSessionByShop World.production World.first_row
      (ShopifyAuthService.table_after
         (ShopifyAuthService.exchangeSessionToken World.production
            Datastore.entity_schema World.NOW_MS World.table_other_key
            "hs.good" Offline)) "test-shop.myshopify.com"
    = Some ("sid-1", row)
    /\ ShopifyAuthService.table_after
         (ShopifyAuthService.exchangeSessionToken World.production
            Datastore.entity_schema World.NOW_MS World.table_other_key
            "hs.good" Offline) !! "sid-1" = Some row.
Proof.
  destruct (exchange_then_lookup World.production Datastore.entity_schema
              World.first_row World.NOW_MS World.table_other_key "hs.good" Offline
              _ first_row_chooses ltac:(vm_compute; reflexivity))
    as (p & s & key & row & Hv & Hs & Hk & Hrow & _ & Hprod).
  assert (Hp : p = World.payload World.ADMIN World.STORE "abc" (Some (World.NOW + 60)))
    by (vm_compute in Hv; inversion Hv; reflexivity).
  subst p. vm_compute in Hs. inversion Hs; subst s.
  vm_compute in Hk. inversion Hk; subst key.
  exists row. split; [exact (Hprod eq_refl)|exact Hrow].
Defined.

(** After [invalidateSession] for a shop, [getSessionByShop] for the
    same argument finds nothing, and the controller's [getSession] after
    its [logout] answers [hasSession: false]. *)
Theorem invalidate_then_lookup
    (env : Env) (pick : Datastore.Choice) (now_ms : Z) (tbl : Table) (s : string) :
  Datastore.chooses pick ->
  ShopifyAuthService.getSessionByShop env pick
    (ShopifyAuthService.table_left
       (ShopifyAuthService.invalidateSession env now_ms tbl s)) s = None
  /\ (s <> EmptyString ->
      AuthController.getSession env pick
        (AuthController.logout_table
           (AuthController.logout env now_ms tbl (Some s))) (Some s)
      = Completed {| SessionInfo.hasSession := false; SessionInfo.shop := s;
                     SessionInfo.isActive := None;
                     SessionInfo.hasOnlineToken := None;
                     SessionInfo.hasOfflineToken := None;
                     SessionInfo.scope := None;
                     SessionInfo.expiresAt := None;
                     SessionInfo.updatedAt := None |}).
Proof.
  intros Hpick.
  assert (Hnone : ShopifyAuthService.getSessionByShop env pick
                    (ShopifyAuthService.table_left
                       (ShopifyAuthService.invalidateSession env now_ms tbl s)) s
                  = None).
  { destruct (ShopifyAuthService.sanitizeShop env s) as [s'|err] eqn:Hs.
    - rewrite (invalidateSession_run env now_ms tbl s s' Hs).
      cbn [ShopifyAuthService.table_left].
      destruct (getSessionByShop_spec env pick
                  (Datastore.update s' now_ms tbl).2 s Hpick) as (_ & Hiff & _).
      apply (Hiff s' Hs). apply update_deactivates.
    - unfold ShopifyAuthService.getSessionByShop. now rewrite Hs. }
  split; [exact Hnone|].
  intros Hne. destruct s as [|a r]; [contradiction|].
  unfold AuthController.logout, AuthController.getSession.
  cbn [AuthController.logout_table]. rewrite Hnone. reflexivity.
Qed.

(** [invalidate_then_lookup] on the test world. *)
Lemma invalidate_then_lookup_witness :
  ShopifyAuthService.getSessionByShop World.production World.first_row
    World.table_other_key "test-shop.myshopify.com"
  = Some ("sid-0", World.session World.SHOP "41" "tok0" None None true)
  /\ ShopifyAuthService.getSessionByShop World.production World.first_row
       (ShopifyAuthService.table_left
          (ShopifyAuthService.invalidateSession World.production World.NOW_MS
             World.table_other_key "test-shop.myshopify.com"))
       "test-shop.myshopify.com" = None.
Proof.
  split; [vm_compute; reflexivity|].
  exact (proj1 (invalidate_then_lookup World.production World.first_row
                  World.NOW_MS World.table_other_key "test-shop.myshopify.com"
                  first_row_chooses)).
Defined.

(** [refreshOnlineToken] hands out a token only when it is the non-empty
    online token of a stored, active row of the sanitized shop whose
    expiry is set and still ahead; it never returns an expired token, a
    token without expiry, or one of a deactivated session. *)
Theorem refreshOnlineToken_only_unexpired
    (env : Env) (pick : Datastore.Choice) (now_ms : Z) (tbl : Table)
    (s token : string) :
  Datastore.chooses pick ->
  ShopifyAuthService.refreshOnlineToken env pick now_ms tbl s = Some token ->
  exists sanitizedShop k r t,
    ShopifyAuthService.sanitizeShop env s = Returned sanitizedShop
    /\ tbl !! k = Some r /\ shop r = sanitizedShop /\ isActive r = true
    /\ onlineAccessToken r = Some token /\ token <> EmptyString
    /\ expiresAt r = Some t /\ now_ms < t.
Proof.
  intros Hpick. unfold ShopifyAuthService.refreshOnlineToken.
  destruct (ShopifyAuthService.getSessionByShop env pick tbl s) as [[k r]|] eqn:Hget;
    [|discriminate].
  destruct (getSessionByShop_spec env pick tbl s Hpick) as (Hsound & _).
  destruct (Hsound k r Hget) as (s' & Hs & Hk & Hshop & Hact & _).
  destruct (onlineAccessToken r) as [[|a o]|] eqn:Ho; simpl; try discriminate.
  unfold ShopifyAuthService.expires_later.
  destruct (expiresAt r) as [t|] eqn:He; [|discriminate].
  destruct (Z.gtb_spec t now_ms) as [Hgt|]; [|discriminate].
  intros H; inversion H; subst token.
  exists s', k, r, t.
  split; [exact Hs|]. split; [exact Hk|]. split; [exact Hshop|].
  split; [exact Hact|]. split; [exact Ho|]. split; [discriminate|].
  split; [exact He|lia].
Qed.

(** [refreshOnlineToken_only_unexpired] on the test world. *)
Lemma refreshOnlineToken_only_unexpired_witness :
  ShopifyAuthService.refreshOnlineToken World.production World.first_row
    World.NOW_MS World.table_online "test-shop.myshopify.com" = Some "user-tok"
  /\ ShopifyAuthService.refreshOnlineToken World.production World.first_row
       (World.NOW_MS + 86400000) World.table_online "test-shop.myshopify.com"
     = None
  /\ exists k r t,
      World.table_online !! k = Some r /\ expiresAt r = Some t /\ World.NOW_MS < t.
Proof.
  assert (H : ShopifyAuthService.refreshOnlineToken World.production World.first_row
                World.NOW_MS World.table_online "test-shop.myshopify.com"
              = Some "user-tok") by (vm_compute; reflexivity).
  split; [exact H|]. split; [vm_compute; reflexivity|].
  destruct (refreshOnlineToken_only_unexpired World.production World.first_row
              World.NOW_MS World.table_online "test-shop.myshopify.com" "user-tok"
              first_row_chooses H)
    as (s' & k & r & t & _ & Hk & _ & _ & _ & _ & He & Hlt).
  exists k, r, t. repeat split; assumption.
Defined.

(* ===================================================================== *)
(** ** storeSession and the constraints of the schema                     *)
(* ===================================================================== *)

Lemma entity_schema_refuses_null (tbl : Table) (k : string) (r : ShopifySession) :
  tbl !! k = Some r -> accessToken r = None -> Datastore.entity_schema tbl = false.
Proof.
  intros Hk Hn. unfold Datastore.entity_schema. apply bool_decide_eq_false_2.
  intros Hall. destruct (Hall k r Hk) as [[t Ht] _]. congruence.
Qed.

(** The exchange once the token is validated and the provider has
    answered: what is left is [storeSession]. *)
Lemma exchange_after_provider
    (env : Env) (schema_ok : Table -> bool) (now_ms : Z) (tbl : Table)
    (tok : string) (ty : TokenType) (p : SessionTokenPayload) (s : string)
    (response : Exchange.Response) (urls : list string) (err : Msg) :
  ShopifyAuthService.validateSessionToken env now_ms tok = Returned p ->
  ShopifyAuthService.extractShopFromPayload env p = Returned s ->
  ShopifyAuthService.performTokenExchange env s tok ty = (Returned response, urls) ->
  ShopifyAuthService.storeSession_body schema_ok now_ms s p response ty tbl
  = Thrown err ->
  ShopifyAuthService.exchangeSessionToken env schema_ok now_ms tbl tok ty
  = {| ShopifyAuthService.result := Thrown (TokenExchangeFailed err);
       ShopifyAuthService.table_after := tbl;
       ShopifyAuthService.requested := urls |}.
Proof.
  intros Hv Hs Hp Hb. unfold ShopifyAuthService.exchangeSessionToken.
  rewrite Hv, Hs, Hp. unfold ShopifyAuthService.storeSession, Datastore.transaction.
  rewrite Hb. reflexivity.
Qed.

(** An online exchange builds a session without [accessToken]. Under a
    schema that refuses a row whose [accessToken] is NULL (the entity
    declares the column not nullable) the INSERT of a session id that is
    not yet stored fails: the exchange throws although the provider has
    granted the token, and the transaction is rolled back, so the rows it
    had deactivated are active again. *)
Theorem online_exchange_new_session_refused
    (env : Env) (schema_ok : Table -> bool) (now_ms : Z) (tbl : Table)
    (tok : string) (p : SessionTokenPayload) (s key : string)
    (response : Exchange.Response) (urls : list string) :
  (forall t k r, t !! k = Some r -> accessToken r = None -> schema_ok t = false) ->
  ShopifyAuthService.validateSessionToken env now_ms tok = Returned p ->
  ShopifyAuthService.extractShopFromPayload env p = Returned s ->
  ShopifyAuthService.performTokenExchange env s tok Online = (Returned response, urls) ->
  Js.or_else (sid p) (jti p) = Some key ->
  tbl !! key = None ->
  ShopifyAuthService.exchangeSessionToken env schema_ok now_ms tbl tok Online
  = {| ShopifyAuthService.result :=
         Thrown (TokenExchangeFailed (External "constraint violation"));
       ShopifyAuthService.table_after := tbl;
       ShopifyAuthService.requested := urls |}.
Proof.
  intros Hschema Hv Hs Hp Hkey Hfresh.
  apply (exchange_after_provider env schema_ok now_ms tbl tok Online p s response urls
           _ Hv Hs Hp).
  unfold ShopifyAuthService.storeSession_body, Datastore.save.
  rewrite Hkey. cbv zeta. rewrite update_lookup, Hfresh. cbn [fmap option_fmap option_map].
  rewrite (Hschema _ key (ShopifyAuthService.new_session now_ms s p response Online)
             (lookup_insert_eq _ _ _) eq_refl).
  reflexivity.
Qed.

(** [online_exchange_new_session_refused] on the test world, with the
    schema of the entity: the provider is asked, nothing is stored. *)
Lemma online_exchange_new_session_refused_witness :
  ShopifyAuthService.exchangeSessionToken World.production_online
    Datastore.entity_schema World.NOW_MS World.table_other_key "hs.good" Online
  = {| ShopifyAuthService.result :=
         Thrown (TokenExchangeFailed (External "constraint violation"));
       ShopifyAuthService.table_after := World.table_other_key;
       ShopifyAuthService.requested :=
         ["https://test-shop.myshopify.com/admin/oauth/access_token"] |}.
Proof.
  apply (online_exchange_new_session_refused World.production_online
           Datastore.entity_schema World.NOW_MS World.table_other_key "hs.good"
           (World.payload World.ADMIN World.STORE "abc" (Some (World.NOW + 60)))
           "test-shop.myshopify.com" "sid-1"
           {| Exchange.access_token := Some "user-tok";
              Exchange.scope := Some "read_products";
              Exchange.expires_in := Some 86400;
              Exchange.associated_user_scope := Some "read_products";
              Exchange.associated_user := None |}).
  - exact entity_schema_refuses_null.
  - vm_compute; reflexivity.
  - vm_compute; reflexivity.
  - vm_compute; reflexivity.
  - vm_compute; reflexivity.
  - vm_compute; reflexivity.
Defined.

(** An online exchange for a session id that is stored is an UPDATE: the
    columns the instance leaves undefined keep what they held, so the
    offline token of the row survives the exchange. *)
Example online_exchange_of_stored_session_keeps_offline_token :
  ShopifyAuthService.result
    (ShopifyAuthService.exchangeSessionToken World.production_online
       Datastore.entity_schema World.NOW_MS World.table_same_key "hs.good" Online)
  = Returned {| Exchange.access_token := Some "user-tok";
                Exchange.scope := Some "read_products";
                Exchange.expires_in := Some 86400;
                Exchange.associated_user_scope := Some "read_products";
                Exchange.associated_user := None |}
  /\ accessToken <$>
       (ShopifyAuthService.table_after
          (ShopifyAuthService.exchangeSessionToken World.production_online
             Datastore.entity_schema World.NOW_MS World.table_same_key
             "hs.good" Online) !! "sid-1")
     = Some (Some "tok0").
Proof. split; vm_compute; reflexivity. Qed.

(* ===================================================================== *)
(** ** The key-set cache                                                  *)
(* ===================================================================== *)

Lemma append_inj_l (p a b : string) : p +:+ a = p +:+ b -> a = b.
Proof.
  induction p as [|ch p IH]; intros H; [exact H|]. apply IH.
  change (String ch (p +:+ a) = String ch (p +:+ b)) in H. now inversion H.
Qed.

Lemma cache_key_inj (s s' : string) :
  JWKSService.cache_key s = JWKSService.cache_key s' -> s = s'.
Proof. apply append_inj_l. Qed.

Lemma isValidCache_spec (now_ms : Z) (c : JWKSService.Cache) (k : string) :
  JWKSService.isValidCache now_ms c k = true
  <-> exists expiry,
        JWKSService.cacheExpiry c !! k = Some expiry /\ expiry <> 0 /\ now_ms < expiry.
Proof.
  unfold JWKSService.isValidCache. split.
  - destruct (JWKSService.cacheExpiry c !! k) as [e|]; [|discriminate].
    intros H. apply andb_true_iff in H as [Hz Hlt].
    exists e. split; [reflexivity|]. split.
    + intros ->. discriminate.
    + now apply Z.ltb_lt.
  - intros (e & -> & Hz & Hlt). apply andb_true_iff. split.
    + apply negb_true_iff. now apply Z.eqb_neq.
    + now apply Z.ltb_lt.
Qed.

Lemma getShopifyJWKS_hit (env : Env) (now_ms : Z) (c : JWKSService.Cache) (s : string) :
  JWKSService.isValidCache now_ms c (JWKSService.cache_key s) = true ->
  JWKSService.getShopifyJWKS env now_ms c s
  = (Returned (JWKSService.jwksCache c !! JWKSService.cache_key s), c).
Proof. intros H. unfold JWKSService.getShopifyJWKS. cbv zeta. now rewrite H. Qed.

Lemma getShopifyJWKS_miss (env : Env) (now_ms : Z) (c : JWKSService.Cache) (s : string) :
  JWKSService.isValidCache now_ms c (JWKSService.cache_key s) = false ->
  JWKSService.getShopifyJWKS env now_ms c s
  = match fetch_jwks env (JWKSService.jwks_url s) with
    | NetworkFailure what => (Thrown (External what), c)
    | Reply status statusText _ json =>
        if negb (status_ok status)
        then (Thrown (JwksFetchFailed status statusText), c)
        else match json with
             | None => (Thrown (External "invalid json response body"), c)
             | Some None => (Thrown InvalidJwksFormat, c)
             | Some (Some keys) =>
                 (Returned (Some keys),
                  {| JWKSService.jwksCache :=
                       <[JWKSService.cache_key s := keys]> (JWKSService.jwksCache c);
                     JWKSService.cacheExpiry :=
                       <[JWKSService.cache_key s := now_ms + JWKSService.CACHE_TTL]>
                         (JWKSService.cacheExpiry c) |})
             end
    end.
Proof. intros H. unfold JWKSService.getShopifyJWKS. cbv zeta. now rewrite H. Qed.

(** What a call of [getShopifyJWKS] does to the cache: nothing when it
    throws or answers from the cache, and nothing to the entries of
    another shop. *)
Lemma getShopifyJWKS_frame (env : Env) (now_ms : Z) (c : JWKSService.Cache)
    (s : string) :
  (forall err, (JWKSService.getShopifyJWKS env now_ms c s).1 = Thrown err ->
               (JWKSService.getShopifyJWKS env now_ms c s).2 = c)
  /\ (forall k, k <> JWKSService.cache_key s ->
        JWKSService.jwksCache (JWKSService.getShopifyJWKS env now_ms c s).2 !! k
        = JWKSService.jwksCache c !! k
        /\ JWKSService.cacheExpiry (JWKSService.getShopifyJWKS env now_ms c s).2 !! k
           = JWKSService.cacheExpiry c !! k).
Proof.
  destruct (JWKSService.isValidCache now_ms c (JWKSService.cache_key s)) eqn:Hvalid.
  - rewrite (getShopifyJWKS_hit env now_ms c s Hvalid). simpl. auto.
  - rewrite (getShopifyJWKS_miss env now_ms c s Hvalid).
    destruct (fetch_jwks env (JWKSService.jwks_url s))
      as [what|status statusText text [[keys|]|]]; simpl; auto;
      destruct (negb (status_ok status)); simpl; auto.
    split; [discriminate|]. intros k Hk.
    split; apply lookup_insert_ne; intros E; apply Hk; now symmetry.
Qed.

(** The answer of [getShopifyJWKS] for a shop depends on the cache through
    the two entries of that shop only. *)
Lemma getShopifyJWKS_ext (env : Env) (now_ms : Z) (c1 c2 : JWKSService.Cache)
    (s : string) :
  JWKSService.jwksCache c1 !! JWKSService.cache_key s
  = JWKSService.jwksCache c2 !! JWKSService.cache_key s ->
  JWKSService.cacheExpiry c1 !! JWKSService.cache_key s
  = JWKSService.cacheExpiry c2 !! JWKSService.cache_key s ->
  (JWKSService.getShopifyJWKS env now_ms c1 s).1
  = (JWKSService.getShopifyJWKS env now_ms c2 s).1.
Proof.
  intros Hk He.
  assert (Hv : JWKSService.isValidCache now_ms c1 (JWKSService.cache_key s)
               = JWKSService.isValidCache now_ms c2 (JWKSService.cache_key s))
    by (unfold JWKSService.isValidCache; now rewrite He).
  destruct (JWKSService.isValidCache now_ms c2 (JWKSService.cache_key s)) eqn:Hvalid.
  - rewrite (getShopifyJWKS_hit env now_ms c1 s Hv),
      (getShopifyJWKS_hit env now_ms c2 s Hvalid). simpl. now rewrite Hk.
  - rewrite (getShopifyJWKS_miss env now_ms c1 s Hv),
      (getShopifyJWKS_miss env now_ms c2 s Hvalid).
    destruct (fetch_jwks env (JWKSService.jwks_url s))
      as [what|status statusText text [[keys|]|]]; simpl; auto;
      destruct (negb (status_ok status)); reflexivity.
Qed.

(** Keys that [getShopifyJWKS] has returned for a shop are served from the
    cache, without a request, until the expiry recorded for the shop: one
    hour after the fetch when the call fetched them. From that instant on
    the cache is not used any more: a key set that cannot be fetched then
    is an error, stale keys are never served. *)
Theorem jwks_keys_cached_until_expiry
    (env : Env) (now_ms : Z) (c c' : JWKSService.Cache) (s : string)
    (keys : list JWKSKey) :
  0 <= now_ms ->
  JWKSService.getShopifyJWKS env now_ms c s = (Returned (Some keys), c') ->
  exists expiry,
    JWKSService.cacheExpiry c' !! JWKSService.cache_key s = Some expiry
    /\ now_ms < expiry
    /\ (JWKSService.isValidCache now_ms c (JWKSService.cache_key s) = false ->
        expiry = now_ms + 3600000)
    /\ (forall env' later,
          later < expiry ->
          JWKSService.getShopifyJWKS env' later c' s = (Returned (Some keys), c'))
    /\ (forall env' later what,
          expiry <= later ->
          fetch_jwks env' (JWKSService.jwks_url s) = NetworkFailure what ->
          JWKSService.getShopifyJWKS env' later c' s = (Thrown (External what), c')).
Proof.
  intros Hnow Hget.
  assert (Hfacts : exists expiry,
             JWKSService.cacheExpiry c' !! JWKSService.cache_key s = Some expiry
             /\ now_ms < expiry
             /\ (JWKSService.isValidCache now_ms c (JWKSService.cache_key s) = false ->
                 expiry = now_ms + 3600000)
             /\ JWKSService.jwksCache c' !! JWKSService.cache_key s = Some keys).
  { destruct (JWKSService.isValidCache now_ms c (JWKSService.cache_key s)) eqn:Hvalid.
    - rewrite (getShopifyJWKS_hit env now_ms c s Hvalid) in Hget.
      inversion Hget; subst c'.
      apply isValidCache_spec in Hvalid as (e & He & _ & Hlt).
      exists e. split; [exact He|]. split; [exact Hlt|].
      split; [discriminate|reflexivity].
    - rewrite (getShopifyJWKS_miss env now_ms c s Hvalid) in Hget.
      destruct (fetch_jwks env (JWKSService.jwks_url s))
        as [what|status statusText text [[ks|]|]];
        try destruct (negb (status_ok status)); try discriminate.
      inversion Hget; subst. exists (now_ms + JWKSService.CACHE_TTL).
      cbn [JWKSService.cacheExpiry JWKSService.jwksCache].
      rewrite !lookup_insert_eq. unfold JWKSService.CACHE_TTL.
      split; [reflexivity|]. split; [lia|]. split; reflexivity. }
  destruct Hfacts as (expiry & He & Hlt & Hfetch & Hk).
  exists expiry. split; [exact He|]. split; [exact Hlt|]. split; [exact Hfetch|].
  split.
  - intros env' later Hlater.
    rewrite getShopifyJWKS_hit; [now rewrite Hk|].
    apply isValidCache_spec. exists expiry. split; [exact He|]. split; lia.
  - intros env' later what Hlater Hdown.
    rewrite getShopifyJWKS_miss; [now rewrite Hdown|].
    unfold JWKSService.isValidCache. rewrite He.
    apply andb_false_iff. right. apply Z.ltb_ge. exact Hlater.
Qed.

(** [jwks_keys_cached_until_expiry] on the test world: the keys fetched
    for the shop are served until the hour is over, with every host
    down. *)
Lemma jwks_keys_cached_until_expiry_witness :
  exists c',
    JWKSService.getShopifyJWKS World.production World.NOW_MS World.empty_cache
      "a-shop.myshopify.com" = (Returned (Some [World.shop_key]), c')
    /\ JWKSService.getShopifyJWKS (World.jwks_down World.production)
         (World.NOW_MS + 3599999) c' "a-shop.myshopify.com"
       = (Returned (Some [World.shop_key]), c')
    /\ JWKSService.getShopifyJWKS (World.jwks_down World.production)
         (World.NOW_MS + 3600000) c' "a-shop.myshopify.com"
       = (Thrown (External "connect ECONNREFUSED"), c').
Proof.
  eexists. split; [vm_compute; reflexivity|].
  destruct (jwks_keys_cached_until_expiry World.production World.NOW_MS
              World.empty_cache _ "a-shop.myshopify.com" [World.shop_key]
              ltac:(vm_compute; discriminate) ltac:(vm_compute; reflexivity))
    as (expiry & He & _ & Hfetch & Hserved & Hstale).
  rewrite (Hfetch ltac:(vm_compute; reflexivity)) in Hserved, Hstale.
  split.
  - apply Hserved. unfold World.NOW_MS. lia.
  - apply Hstale; [unfold World.NOW_MS; lia|reflexivity].
Defined.

(** A call of [getShopifyJWKS] that throws leaves the cache as it was, and
    a call for one shop never changes what the cache holds, or what a
    later call answers, for another shop. *)
Theorem jwks_cache_is_per_shop
    (env : Env) (now_ms : Z) (c : JWKSService.Cache) (s : string) :
  (forall err, (JWKSService.getShopifyJWKS env now_ms c s).1 = Thrown err ->
               (JWKSService.getShopifyJWKS env now_ms c s).2 = c)
  /\ (forall other env' later,
        other <> s ->
        (JWKSService.getShopifyJWKS env' later
           (JWKSService.getShopifyJWKS env now_ms c s).2 other).1
        = (JWKSService.getShopifyJWKS env' later c other).1).
Proof.
  destruct (getShopifyJWKS_frame env now_ms c s) as [Hfail Hother].
  split; [exact Hfail|]. intros other env' later Hne.
  assert (Hk : JWKSService.cache_key other <> JWKSService.cache_key s)
    by (intros E; apply Hne; now apply cache_key_inj).
  destruct (Hother _ Hk) as [H1 H2]. now apply getShopifyJWKS_ext.
Qed.

(** [jwks_cache_is_per_shop] on the test world: the keys cached for one
    shop do not answer for another. *)
Lemma jwks_cache_is_per_shop_witness :
  (JWKSService.getShopifyJWKS World.production World.NOW_MS
     (JWKSService.getShopifyJWKS World.production World.NOW_MS World.empty_cache
        "a-shop.myshopify.com").2 "test-shop.myshopify.com").1
  = Thrown (External "connect ECONNREFUSED").
Proof.
  rewrite (proj2 (jwks_cache_is_per_shop World.production World.NOW_MS
                    World.empty_cache "a-shop.myshopify.com")
             "test-shop.myshopify.com" World.production World.NOW_MS
             ltac:(discriminate)).
  vm_compute; reflexivity.
Defined.

(** After [clearCache] for a shop, [getShopifyJWKS] answers for that shop
    as a service whose cache is empty does, that is from the network,
    and for every other shop as before; when the key set cannot be fetched
    the call throws although keys had been cached. *)
Theorem clearCache_forces_fetch
    (env : Env) (now_ms : Z) (c : JWKSService.Cache) (s : string) :
  (JWKSService.getShopifyJWKS env now_ms (JWKSService.clearCache c s) s).1
  = (JWKSService.getShopifyJWKS env now_ms (JWKSService.clearAllCache c) s).1
  /\ (forall what,
        fetch_jwks env (JWKSService.jwks_url s) = NetworkFailure what ->
        JWKSService.getShopifyJWKS env now_ms (JWKSService.clearCache c s) s
        = (Thrown (External what), JWKSService.clearCache c s))
  /\ (forall other,
        other <> s ->
        (JWKSService.getShopifyJWKS env now_ms (JWKSService.clearCache c s) other).1
        = (JWKSService.getShopifyJWKS env now_ms c other).1).
Proof.
  split; [|split].
  - apply getShopifyJWKS_ext; unfold JWKSService.clearCache, JWKSService.clearAllCache;
      simpl; now rewrite lookup_delete_eq, lookup_empty.
  - intros what Hdown. rewrite getShopifyJWKS_miss; [now rewrite Hdown|].
    unfold JWKSService.isValidCache, JWKSService.clearCache. simpl.
    now rewrite lookup_delete_eq.
  - intros other Hne.
    assert (Hk : JWKSService.cache_key s <> JWKSService.cache_key other)
      by (intros E; apply Hne; symmetry; now apply cache_key_inj).
    apply getShopifyJWKS_ext; unfold JWKSService.clearCache; simpl;
      now rewrite lookup_delete_ne.
Qed.

(** [clearCache_forces_fetch] on the test world: with every host down
    the keys cached for a shop are still served, and no longer once the
    cache of the shop is cleared. *)
Lemma clearCache_forces_fetch_witness :
  (JWKSService.getShopifyJWKS (World.jwks_down World.production)
     (World.NOW_MS + 1)
     (JWKSService.getShopifyJWKS World.production World.NOW_MS World.empty_cache
        "a-shop.myshopify.com").2 "a-shop.myshopify.com").1
  = Returned (Some [World.shop_key])
  /\ (JWKSService.getShopifyJWKS (World.jwks_down World.production)
        (World.NOW_MS + 1)
        (JWKSService.clearCache
           (JWKSService.getShopifyJWKS World.production World.NOW_MS
              World.empty_cache "a-shop.myshopify.com").2
           "a-shop.myshopify.com")
        "a-shop.myshopify.com").1
     = Thrown (External "connect ECONNREFUSED").
Proof.
  split; [vm_compute; reflexivity|].
  destruct (clearCache_forces_fetch (World.jwks_down World.production)
              (World.NOW_MS + 1)
              (JWKSService.getShopifyJWKS World.production World.NOW_MS
                 World.empty_cache "a-shop.myshopify.com").2
              "a-shop.myshopify.com") as (_ & Hdown & _).
  rewrite (Hdown "connect ECONNREFUSED" eq_refl).
  reflexivity.
Defined.

(* ===================================================================== *)
(** ** JWKSService.validateSessionToken                                   *)
(* ===================================================================== *)

Lemma find_key_Some (kid : string) (keys : list JWKSKey) (key : JWKSKey) :
  JWKSService.find_key kid keys = Some key -> key ∈ keys /\ key_kid key = kid.
Proof.
  unfold JWKSService.find_key. intros H. apply find_some in H as [Hin Heq].
  split; [now apply list_elem_of_In|now apply String.eqb_eq].
Qed.

Lemma verifyJWT_inv (env : Env) (now_ms : Z) (c : JWKSService.Cache)
    (tok s : string) (p : SessionTokenPayload) :
  (JWKSService.verifyJWT env now_ms c tok s).1 = Returned p ->
  exists keys kid key,
    (JWKSService.getShopifyJWKS env now_ms c s).1 = Returned (Some keys)
    /\ jose_header_kid env tok = Returned (Some kid) /\ kid <> EmptyString
    /\ JWKSService.find_key kid keys = Some key
    /\ jose_jwtVerify env tok key ("https://" +:+ s)
         (config_get env "SHOPIFY_API_KEY") = Returned p.
Proof.
  unfold JWKSService.verifyJWT.
  destruct (JWKSService.getShopifyJWKS env now_ms c s) as [fetched c'].
  cbn [fst snd]. destruct fetched as [keys|]; cbn [bind rethrow]; [|discriminate].
  destruct (jose_header_kid env tok) as [[[|a r]|]|]; cbn [bind rethrow];
    try discriminate.
  destruct keys as [ks|]; cbn [bind rethrow]; [|discriminate].
  destruct (JWKSService.find_key (String a r) ks) as [key|] eqn:Hf;
    cbn [bind rethrow]; [|discriminate].
  destruct (jose_jwtVerify env tok key ("https://" +:+ s)
              (config_get env "SHOPIFY_API_KEY")) as [q|] eqn:Hj;
    cbn [bind rethrow]; [|discriminate].
  intros H; inversion H; subst q. exists ks, (String a r), key.
  split; [reflexivity|]. split; [reflexivity|]. split; [discriminate|].
  split; [exact Hf|exact Hj].
Qed.

Lemma verifyJWT_wraps (env : Env) (now_ms : Z) (c : JWKSService.Cache)
    (tok s : string) (err : Msg) :
  (JWKSService.verifyJWT env now_ms c tok s).1 = Thrown err ->
  exists cause, err = JwtVerificationFailed cause.
Proof.
  unfold JWKSService.verifyJWT.
  destruct (JWKSService.getShopifyJWKS env now_ms c s) as [fetched c'].
  cbn [fst snd].
  match goal with |- rethrow _ ?m = _ -> _ => destruct m as [q|e] end;
    cbn [rethrow]; [discriminate|].
  intros H; inversion H. now exists e.
Qed.

(** The key-set strategy accepts a token only after the library has
    verified it under a key of the key set of the host named by the
    token's own, still unverified, issuer: the first key whose [kid] is
    the non-empty [kid] of the token's header, with [https://<host>]
    as expected issuer and the configured client id as expected audience.
    Every error raised once the issuer is read is reported as
    [JWT verification failed: ...]. *)
Theorem jwks_accepts_only_under_published_key
    (env : Env) (now_ms : Z) (c : JWKSService.Cache) (tok : string) :
  (forall p,
      (JWKSService.validateSessionToken env now_ms c tok).1 = Returned p ->
      exists unverified host keys kid key,
        jose_decodeJwt env tok = Returned unverified
        /\ Js.truthy_str (iss unverified) = true
        /\ url_hostname env (Js.or_empty (iss unverified)) = Some host
        /\ (JWKSService.getShopifyJWKS env now_ms c host).1 = Returned (Some keys)
        /\ jose_header_kid env tok = Returned (Some kid) /\ kid <> EmptyString
        /\ JWKSService.find_key kid keys = Some key
        /\ key ∈ keys /\ key_kid key = kid
        /\ jose_jwtVerify env tok key ("https://" +:+ host)
             (config_get env "SHOPIFY_API_KEY") = Returned p)
  /\ (forall unverified host err,
        jose_decodeJwt env tok = Returned unverified ->
        Js.truthy_str (iss unverified) = true ->
        url_hostname env (Js.or_empty (iss unverified)) = Some host ->
        (JWKSService.validateSessionToken env now_ms c tok).1 = Thrown err ->
        exists cause, err = JwtVerificationFailed cause).
Proof.
  split.
  - intros p. unfold JWKSService.validateSessionToken.
    destruct (jose_decodeJwt env tok) as [q|]; [|discriminate].
    destruct (Js.truthy_str (iss q)) eqn:Hiss; cbn [negb]; [|discriminate].
    destruct (url_hostname env (Js.or_empty (iss q))) as [host|] eqn:Hhost;
      [|discriminate].
    intros H. apply verifyJWT_inv in H
      as (keys & kid & key & Hkeys & Hkid & Hne & Hfind & Hverify).
    destruct (find_key_Some kid keys key Hfind) as [Hin Heq].
    exists q, host, keys, kid, key.
    split; [reflexivity|]. split; [exact Hiss|]. split; [exact Hhost|].
    split; [exact Hkeys|]. split; [exact Hkid|]. split; [exact Hne|].
    split; [exact Hfind|]. split; [exact Hin|]. split; [exact Heq|exact Hverify].
  - intros q host err Hd Hiss Hhost. unfold JWKSService.validateSessionToken.
    rewrite Hd, Hiss, Hhost. cbn [negb]. apply verifyJWT_wraps.
Qed.

(** [jwks_accepts_only_under_published_key] on the test world. *)
Lemma jwks_accepts_only_under_published_key_witness :
  (JWKSService.validateSessionToken World.production World.NOW_MS
     World.empty_cache "rs.good").1
  = Returned (World.payload "https://a-shop.myshopify.com"
                "https://a-shop.myshopify.com" "abc" (Some (World.NOW + 60)))
  /\ exists key,
      jose_jwtVerify World.production "rs.good" key "https://a-shop.myshopify.com"
        (Some "abc")
      = Returned (World.payload "https://a-shop.myshopify.com"
                    "https://a-shop.myshopify.com" "abc" (Some (World.NOW + 60))).
Proof.
  assert (H : (JWKSService.validateSessionToken World.production World.NOW_MS
                 World.empty_cache "rs.good").1
              = Returned (World.payload "https://a-shop.myshopify.com"
                            "https://a-shop.myshopify.com" "abc"
                            (Some (World.NOW + 60))))
    by (vm_compute; reflexivity).
  split; [exact H|].
  destruct (proj1 (jwks_accepts_only_under_published_key World.production
                     World.NOW_MS World.empty_cache "rs.good") _ H)
    as (q & host & keys & kid & key & Hd & _ & Hhost & _ & _ & _ & _ & _ & _ & Hv).
  vm_compute in Hd. inversion Hd; subst q.
  vm_compute in Hhost. inversion Hhost; subst host.
  exists key. exact Hv.
Defined.

(* ===================================================================== *)
(** ** The guard: claims and canActivate                                  *)
(* ===================================================================== *)

Lemma num_le_false (a : option Z) (b : Z) :
  ShopifySessionGuard.num_le a b = false <-> forall x, a = Some x -> b < x.
Proof.
  destruct a as [x|]; simpl.
  - rewrite Z.leb_gt. split; [intros H y Hy; inversion Hy; now subst|auto].
  - split; [intros _ x Hx; discriminate|reflexivity].
Qed.

Lemma num_gt_false (a : option Z) (b : Z) :
  ShopifySessionGuard.num_gt a b = false <-> forall x, a = Some x -> x <= b.
Proof.
  destruct a as [x|]; simpl.
  - rewrite Z.gtb_ltb, Z.ltb_ge.
    split; [intros H y Hy; inversion Hy; now subst|auto].
  - split; [intros _ x Hx; discriminate|reflexivity].
Qed.

Lemma validateTokenClaims_iff (env : Env) (now_ms : Z) (p : SessionTokenPayload) :
  ShopifySessionGuard.validateTokenClaims env now_ms p = Returned tt
  <->
  (forall x, exp p = Some x -> seconds now_ms < x)
  /\ (forall t, nbf p = Some t -> t <= seconds now_ms)
  /\ aud p = config_get env "SHOPIFY_API_KEY"
  /\ exists h,
      url_hostname env (Js.or_empty (Js.or_else (iss p) (Some ""))) = Some h
      /\ url_hostname env (Js.or_empty (Js.or_else (dest p) (Some ""))) = Some h
      /\ Js.endsWith ".myshopify.com" h = true.
Proof.
  unfold ShopifySessionGuard.validateTokenClaims, ShopifySessionGuard.differs,
    ShopifySessionGuard.extractDomainFromUrl.
  cbv zeta. split.
  - destruct (ShopifySessionGuard.num_le (exp p) (seconds now_ms)) eqn:He;
      cbn [negb bind guard_that]; [discriminate|].
    destruct (ShopifySessionGuard.num_gt (nbf p) (seconds now_ms)) eqn:Hn;
      cbn [negb bind guard_that]; [discriminate|].
    destruct (bool_decide (aud p = config_get env "SHOPIFY_API_KEY")) eqn:Ha;
      cbn [negb bind guard_that]; [|discriminate].
    destruct (url_hostname env (Js.or_empty (Js.or_else (iss p) (Some ""))))
      as [hi|]; cbn [bind]; [|discriminate].
    destruct (url_hostname env (Js.or_empty (Js.or_else (dest p) (Some ""))))
      as [hd|]; cbn [bind]; [|discriminate].
    destruct (String.eqb_spec hi hd) as [->|]; cbn [bind guard_that]; [|discriminate].
    destruct (Js.endsWith ".myshopify.com" hd) eqn:Hend; cbn [bind guard_that];
      [|discriminate].
    intros _. split; [now apply num_le_false|]. split; [now apply num_gt_false|].
    split; [now apply bool_decide_eq_true_1 in Ha|]. now exists hd.
  - intros (He & Hn & Ha & h & Hi & Hd & Hend).
    apply num_le_false in He. apply num_gt_false in Hn.
    rewrite He, Hn, (bool_decide_eq_true_2 _ Ha), Hi, Hd.
    cbn [negb bind guard_that]. rewrite String.eqb_refl, Hend. reflexivity.
Qed.

(** [validateTokenClaims] of the guard passes exactly the payloads whose
    [exp], when present, is after now, whose [nbf], when present, is not
    after now, whose [aud] is what the configuration holds as client id,
    and whose issuer and destination are URLs of one host that ends in
    [.myshopify.com]. A payload without [exp] passes. *)
Theorem guard_claims_exactly (env : Env) (now_ms : Z) (p : SessionTokenPayload) :
  ShopifySessionGuard.validateTokenClaims env now_ms p = Returned tt
  <->
  (forall x, exp p = Some x -> seconds now_ms < x)
  /\ (forall t, nbf p = Some t -> t <= seconds now_ms)
  /\ aud p = config_get env "SHOPIFY_API_KEY"
  /\ exists h,
      url_hostname env (Js.or_empty (Js.or_else (iss p) (Some ""))) = Some h
      /\ url_hostname env (Js.or_empty (Js.or_else (dest p) (Some ""))) = Some h
      /\ Js.endsWith ".myshopify.com" h = true.
Proof. apply validateTokenClaims_iff. Qed.

(** [guard_claims_exactly] on the test world: a payload without [exp]
    passes the claim checks of the guard. *)
Lemma guard_claims_exactly_witness :
  ShopifySessionGuard.validateTokenClaims World.production World.NOW_MS
    (World.payload World.ADMIN World.STORE "abc" None) = Returned tt.
Proof.
  apply (proj2 (guard_claims_exactly World.production World.NOW_MS
                  (World.payload World.ADMIN World.STORE "abc" None))).
  split; [intros x Hx; discriminate|].
  split; [intros t Ht; inversion Ht; vm_compute; discriminate|].
  split; [reflexivity|].
  exists "test-shop.myshopify.com". repeat split; vm_compute; reflexivity.
Defined.

Lemma strip_prefix_app (p r : string) : Js.strip_prefix p (p +:+ r) = Some r.
Proof.
  induction p as [|a p IH]; [reflexivity|].
  change (Js.strip_prefix (String a p) (String a (p +:+ r)) = Some r).
  simpl. now rewrite Ascii.eqb_refl.
Qed.

Lemma canActivate_rejects (env : Env) (now_ms : Z) (c : JWKSService.Cache)
    (request : ShopifySessionGuard.Request) (e : HttpError) :
  (ShopifySessionGuard.canActivate env now_ms c request).1 = Rejected e ->
  e = UnauthorizedException "Invalid session token".
Proof.
  unfold ShopifySessionGuard.canActivate.
  destruct (ShopifySessionGuard.extractSessionToken request) as [[|a r]|];
    cbn [fst]; try (intros H; now inversion H).
  destruct (ShopifySessionGuard.validateSessionToken env now_ms c (String a r))
    as [[q|err] c']; cbn [fst]; [|intros H; now inversion H].
  destruct (ShopifySessionGuard.extractShopFromDest env (dest q));
    intros H; now inversion H.
Qed.

(** A request that [canActivate] lets through carried a non-empty token
    that the guard validated, and the shop attached to the request is the
    host of the token's destination, which is the host of its issuer and
    ends in [.myshopify.com]; the token is attached unchanged. Whatever
    makes the guard refuse a request, a missing token included, the
    client is told [Invalid session token]. *)
Theorem canActivate_attaches_checked_shop
    (env : Env) (now_ms : Z) (c : JWKSService.Cache)
    (request : ShopifySessionGuard.Request) :
  url_hostname env "" = None ->
  (forall att,
      (ShopifySessionGuard.canActivate env now_ms c request).1 = Completed att ->
      exists tok,
        ShopifySessionGuard.extractSessionToken request = Some tok
        /\ tok <> EmptyString
        /\ ShopifySessionGuard.originalSessionToken att = tok
        /\ (ShopifySessionGuard.validateSessionToken env now_ms c tok).1
           = Returned (ShopifySessionGuard.shopifySession att)
        /\ url_hostname env (Js.or_empty (dest (ShopifySessionGuard.shopifySession att)))
           = Some (ShopifySessionGuard.attached_shop att)
        /\ url_hostname env (Js.or_empty (iss (ShopifySessionGuard.shopifySession att)))
           = Some (ShopifySessionGuard.attached_shop att)
        /\ Js.endsWith ".myshopify.com" (ShopifySessionGuard.attached_shop att) = true
        /\ aud (ShopifySessionGuard.shopifySession att)
           = config_get env "SHOPIFY_API_KEY")
  /\ (forall e,
        (ShopifySessionGuard.canActivate env now_ms c request).1 = Rejected e ->
        e = UnauthorizedException "Invalid session token").
Proof.
  intros Hurl. split; [|apply canActivate_rejects].
  intros att. unfold ShopifySessionGuard.canActivate.
  destruct (ShopifySessionGuard.extractSessionToken request) as [[|a r]|] eqn:Htok;
    cbn [fst]; try discriminate.
  destruct (ShopifySessionGuard.validateSessionToken env now_ms c (String a r))
    as [[q|err] c'] eqn:Hval; cbn [fst]; [|discriminate].
  assert (Hq : (ShopifySessionGuard.validateSessionToken env now_ms c (String a r)).1
               = Returned q) by now rewrite Hval.
  destruct (guard_accepts_inv env now_ms c (String a r) q Hq) as [Hclaims _].
  apply validateTokenClaims_iff in Hclaims
    as (_ & _ & Haud & h & Hi & Hd & Hend).
  assert (Ho : forall o : option string,
             url_hostname env (Js.or_empty (Js.or_else o (Some ""))) = Some h ->
             url_hostname env (Js.or_empty o) = Some h
             /\ Js.to_string o = Js.or_empty o).
  { intros [[|x y]|]; unfold Js.or_else; simpl; intros H;
      try (rewrite Hurl in H; discriminate). now split. }
  destruct (Ho _ Hi) as [Hi' _]. destruct (Ho _ Hd) as [Hd' Hstr].
  unfold ShopifySessionGuard.extractShopFromDest. rewrite Hstr, Hd'.
  intros H; inversion H; subst att. cbn.
  exists (String a r). split; [reflexivity|]. split; [discriminate|].
  split; [reflexivity|]. split; [exact Hq|]. split; [exact Hd'|].
  split; [exact Hi'|]. split; [exact Hend|exact Haud].
Qed.

(** [canActivate_attaches_checked_shop] on the test world. *)
Lemma canActivate_attaches_checked_shop_witness :
  (ShopifySessionGuard.canActivate World.production World.NOW_MS World.empty_cache
     {| ShopifySessionGuard.authorization := Some "Bearer hs.good";
        ShopifySessionGuard.query_id_token := None |}).1
  = Completed
      {| ShopifySessionGuard.shopifySession :=
           World.payload World.ADMIN World.STORE "abc" (Some (World.NOW + 60));
         ShopifySessionGuard.attached_shop := "test-shop.myshopify.com";
         ShopifySessionGuard.originalSessionToken := "hs.good" |}
  /\ Js.endsWith ".myshopify.com" "test-shop.myshopify.com" = true.
Proof.
  assert (H : (ShopifySessionGuard.canActivate World.production World.NOW_MS
                 World.empty_cache
                 {| ShopifySessionGuard.authorization := Some "Bearer hs.good";
                    ShopifySessionGuard.query_id_token := None |}).1
              = Completed
                  {| ShopifySessionGuard.shopifySession :=
                       World.payload World.ADMIN World.STORE "abc"
                         (Some (World.NOW + 60));
                     ShopifySessionGuard.attached_shop := "test-shop.myshopify.com";
                     ShopifySessionGuard.originalSessionToken := "hs.good" |})
    by (vm_compute; reflexivity).
  split; [exact H|].
  destruct (proj1 (canActivate_attaches_checked_shop World.production World.NOW_MS
                     World.empty_cache _ eq_refl) _ H)
    as (tok & _ & _ & _ & _ & _ & _ & Hend & _).
  exact Hend.
Defined.

(** The token of the [Authorization] header comes first: with a header
    that starts with [Bearer ] the [id_token] parameter of the query is
    not looked at, so a request whose header is [Bearer ] alone is refused
    without any validation, whatever token the query carries. Without
    such a header the non-empty [id_token] parameter is the token. *)
Theorem guard_header_before_query
    (env : Env) (now_ms : Z) (c : JWKSService.Cache)
    (token : string) (query : option string) :
  ShopifySessionGuard.extractSessionToken
    {| ShopifySessionGuard.authorization := Some ("Bearer " +:+ token);
       ShopifySessionGuard.query_id_token := query |} = Some token
  /\ ShopifySessionGuard.canActivate env now_ms c
       {| ShopifySessionGuard.authorization := Some "Bearer ";
          ShopifySessionGuard.query_id_token := query |}
     = (Rejected (UnauthorizedException "Invalid session token"), c)
  /\ (forall header,
        Js.strip_prefix "Bearer " (Js.or_empty header) = None ->
        ShopifySessionGuard.extractSessionToken
          {| ShopifySessionGuard.authorization := header;
             ShopifySessionGuard.query_id_token := query |}
        = if Js.truthy_str query then query else None).
Proof.
  split; [|split].
  - unfold ShopifySessionGuard.extractSessionToken.
    cbn [ShopifySessionGuard.authorization]. now rewrite strip_prefix_app.
  - reflexivity.
  - intros header Hnone. unfold ShopifySessionGuard.extractSessionToken.
    cbn [ShopifySessionGuard.authorization ShopifySessionGuard.query_id_token].
    destruct header as [h|]; [|reflexivity]. cbn [Js.or_empty] in Hnone.
    now rewrite Hnone.
Qed.

(** [guard_header_before_query] on the test world: a valid token in the
    query does not help a request whose header is [Bearer ] alone. *)
Lemma guard_header_before_query_witness :
  (ShopifySessionGuard.canActivate World.production World.NOW_MS World.empty_cache
     {| ShopifySessionGuard.authorization := None;
        ShopifySessionGuard.query_id_token := Some "hs.good" |}).1
  = Completed
      {| ShopifySessionGuard.shopifySession :=
           World.payload World.ADMIN World.STORE "abc" (Some (World.NOW + 60));
         ShopifySessionGuard.attached_shop := "test-shop.myshopify.com";
         ShopifySessionGuard.originalSessionToken := "hs.good" |}
  /\ ShopifySessionGuard.canActivate World.production World.NOW_MS World.empty_cache
       {| ShopifySessionGuard.authorization := Some "Bearer ";
          ShopifySessionGuard.query_id_token := Some "hs.good" |}
     = (Rejected (UnauthorizedException "Invalid session token"), World.empty_cache).
Proof.
  split; [vm_compute; reflexivity|].
  exact (proj1 (proj2 (guard_header_before_query World.production World.NOW_MS
                         World.empty_cache "" (Some "hs.good")))).
Defined.

(* ===================================================================== *)
(** ** AuthController                                                     *)
(* ===================================================================== *)

Lemma bearer_Some (authHeader : option string) (tok : string) :
  AuthController.bearer authHeader = Some tok <->
  authHeader = Some ("Bearer " +:+ tok).
Proof.
  unfold AuthController.bearer. split.
  - destruct authHeader as [h|]; [|discriminate].
    intros H. apply strip_prefix_Some in H. now subst.
  - intros ->. apply strip_prefix_app.
Qed.

(** [validateToken] answers with a body only for a token that the service
    validates and that carries an [exp] a date can hold: the body's
    [expiresAt] is that instant and its [userId] the token's [sub].
    A token without [exp], which the service accepts, is answered with
    [Invalid session token] since rendering its expiry throws. *)
Theorem validateToken_needs_expiry
    (env : Env) (now_ms : Z) (authHeader : option string) :
  (forall body,
      AuthController.validateToken env now_ms authHeader = Completed body ->
      exists tok p x,
        authHeader = Some ("Bearer " +:+ tok)
        /\ ShopifyAuthService.validateSessionToken env now_ms tok = Returned p
        /\ exp p = Some x
        /\ - MAX_DATE_MS <= x * 1000 <= MAX_DATE_MS
        /\ SessionValidationResult.success body = true
        /\ SessionValidationResult.expiresAt body = Some (x * 1000)
        /\ SessionValidationResult.userId body = sub p)
  /\ (forall tok p,
        authHeader = Some ("Bearer " +:+ tok) ->
        ShopifyAuthService.validateSessionToken env now_ms tok = Returned p ->
        exp p = None ->
        AuthController.validateToken env now_ms authHeader
        = Rejected (UnauthorizedException "Invalid session token"))
  /\ (AuthController.bearer authHeader = None ->
      AuthController.validateToken env now_ms authHeader
      = Rejected (UnauthorizedException "Missing or invalid authorization header")).
Proof.
  split; [|split].
  - intros body. unfold AuthController.validateToken.
    destruct (AuthController.bearer authHeader) as [tok|] eqn:Hb; [|discriminate].
    apply bearer_Some in Hb.
    destruct (ShopifyAuthService.validateSessionToken env now_ms tok) as [p|] eqn:Hv;
      [|discriminate].
    unfold iso_of_seconds. destruct (exp p) as [x|] eqn:Hx; [|discriminate].
    destruct ((- MAX_DATE_MS <=? x * 1000) && (x * 1000 <=? MAX_DATE_MS)) eqn:Hr;
      [|discriminate].
    apply andb_true_iff in Hr as [Hlo Hhi].
    apply Z.leb_le in Hlo. apply Z.leb_le in Hhi.
    intros H; inversion H; subst body. cbn.
    exists tok, p, x. split; [exact Hb|]. split; [exact Hv|].
    split; [exact Hx|]. split; [lia|]. split; [reflexivity|].
    split; reflexivity.
  - intros tok p Hh Hv Hx. apply bearer_Some in Hh.
    unfold AuthController.validateToken. rewrite Hh, Hv, Hx. reflexivity.
  - intros Hb. unfold AuthController.validateToken. now rewrite Hb.
Qed.

(** [validateToken_needs_expiry] on the test world: the token without
    [exp] that the service accepts is refused by the controller. *)
Lemma validateToken_needs_expiry_witness :
  ShopifyAuthService.validateSessionToken World.production World.NOW_MS "hs.noexp"
  = Returned (World.payload World.ADMIN World.STORE "abc" None)
  /\ AuthController.validateToken World.production World.NOW_MS
       (Some "Bearer hs.noexp")
     = Rejected (UnauthorizedException "Invalid session token").
Proof.
  assert (H : ShopifyAuthService.validateSessionToken World.production
                World.NOW_MS "hs.noexp"
              = Returned (World.payload World.ADMIN World.STORE "abc" None))
    by (vm_compute; reflexivity).
  split; [exact H|].
  destruct (validateToken_needs_expiry World.production World.NOW_MS
              (Some "Bearer hs.noexp")) as (_ & Hnoexp & _).
  exact (Hnoexp "hs.noexp" _ eq_refl H eq_refl).
Defined.

(** [exchangeToken] of the controller: a request without [Bearer ]
    header is refused before anything is validated or requested; a
    refused request leaves the session table as it was and is told one of
    two fixed messages, never the reason; an accepted one hands the
    provider's access token, scope and expiry to the client, for the
    token type of the body, ['offline'] when the body names none. *)
Theorem exchangeToken_replies
    (env : Env) (schema_ok : Table -> bool) (now_ms : Z) (tbl : Table)
    (authHeader : option string) (tokenType : option TokenType) :
  (AuthController.bearer authHeader = None ->
   AuthController.exchangeToken env schema_ok now_ms tbl authHeader tokenType
   = {| AuthController.reply :=
          Rejected (UnauthorizedException "Missing or invalid authorization header");
        AuthController.reply_table := tbl;
        AuthController.reply_requested := [] |})
  /\ (forall e,
        AuthController.reply
          (AuthController.exchangeToken env schema_ok now_ms tbl authHeader tokenType)
        = Rejected e ->
        AuthController.reply_table
          (AuthController.exchangeToken env schema_ok now_ms tbl authHeader tokenType)
        = tbl
        /\ (e = UnauthorizedException "Missing or invalid authorization header"
            \/ e = UnauthorizedException "Token exchange failed"))
  /\ (forall body,
        AuthController.reply
          (AuthController.exchangeToken env schema_ok now_ms tbl authHeader tokenType)
        = Completed body ->
        exists tok response,
          authHeader = Some ("Bearer " +:+ tok)
          /\ ShopifyAuthService.result
               (ShopifyAuthService.exchangeSessionToken env schema_ok now_ms tbl tok
                  (default Offline tokenType)) = Returned response
          /\ AuthController.reply_table
               (AuthController.exchangeToken env schema_ok now_ms tbl authHeader
                  tokenType)
             = ShopifyAuthService.table_after
                 (ShopifyAuthService.exchangeSessionToken env schema_ok now_ms tbl tok
                    (default Offline tokenType))
          /\ TokenExchangeResult.access_token body = Exchange.access_token response
          /\ TokenExchangeResult.scope body = Exchange.scope response
          /\ TokenExchangeResult.expires_in body = Exchange.expires_in response
          /\ TokenExchangeResult.token_type body = default Offline tokenType).
Proof.
  unfold AuthController.exchangeToken. split; [|split].
  - intros ->. reflexivity.
  - intros e. destruct (AuthController.bearer authHeader) as [tok|].
    + cbn [AuthController.reply AuthController.reply_table].
      destruct (ShopifyAuthService.result
                  (ShopifyAuthService.exchangeSessionToken env schema_ok now_ms tbl
                     tok (default Offline tokenType))) as [r|err] eqn:Hr;
        [discriminate|].
      intros H; inversion H. split; [|now right].
      exact (exchange_failure_frame env schema_ok now_ms tbl tok _ err Hr).
    + cbn [AuthController.reply AuthController.reply_table].
      intros H; inversion H. split; [reflexivity|now left].
  - intros body. destruct (AuthController.bearer authHeader) as [tok|] eqn:Hb;
      [|discriminate].
    apply bearer_Some in Hb.
    cbn [AuthController.reply AuthController.reply_table].
    destruct (ShopifyAuthService.result
                (ShopifyAuthService.exchangeSessionToken env schema_ok now_ms tbl
                   tok (default Offline tokenType))) as [r|err] eqn:Hr;
      [|discriminate].
    intros H; inversion H; subst body. cbn.
    exists tok, r. split; [exact Hb|]. split; [exact Hr|].
    repeat split; reflexivity.
Qed.

(** [exchangeToken_replies] on the test world: a forged token is told
    [Token exchange failed] and the table is as before. *)
Lemma exchangeToken_replies_witness :
  AuthController.reply
    (AuthController.exchangeToken World.production Datastore.entity_schema
       World.NOW_MS World.table_other_key (Some "Bearer forged.expired") None)
  = Rejected (UnauthorizedException "Token exchange failed")
  /\ AuthController.reply_table
       (AuthController.exchangeToken World.production Datastore.entity_schema
          World.NOW_MS World.table_other_key (Some "Bearer forged.expired") None)
     = World.table_other_key.
Proof.
  assert (H : AuthController.reply
                (AuthController.exchangeToken World.production
                   Datastore.entity_schema World.NOW_MS World.table_other_key
                   (Some "Bearer forged.expired") None)
              = Rejected (UnauthorizedException "Token exchange failed"))
    by (vm_compute; reflexivity).
  split; [exact H|].
  destruct (exchangeToken_replies World.production Datastore.entity_schema
              World.NOW_MS World.table_other_key (Some "Bearer forged.expired") None)
    as (_ & Hrejected & _).
  exact (proj1 (Hrejected _ H)).
Defined.

(* ===================================================================== *)
(** ** The configuration                                                  *)
(* ===================================================================== *)

(** The check of the constructor, the health check and
    [getRequiredConfig] agree: [validateConfiguration] passes exactly when
    [healthCheck] reports [healthy], and exactly when [getRequiredConfig]
    returns a non-empty value for the client id and for the client
    secret; otherwise the health check reports [degraded]. A value that
    is the empty string counts as missing in all three. *)
Theorem configuration_checks_agree (env : Env) (now_ms : Z) :
  (ShopifyAuthService.validateConfiguration env = Returned tt
   <-> ShopifyAuthService.status (ShopifyAuthService.healthCheck env now_ms)
       = "healthy")
  /\ (ShopifyAuthService.validateConfiguration env = Returned tt
      <-> exists clientId clientSecret,
            ShopifyAuthService.getRequiredConfig env "SHOPIFY_API_KEY"
            = Returned clientId
            /\ ShopifyAuthService.getRequiredConfig env "SHOPIFY_API_SECRET"
               = Returned clientSecret
            /\ clientId <> EmptyString /\ clientSecret <> EmptyString)
  /\ (ShopifyAuthService.validateConfiguration env <> Returned tt
      -> ShopifyAuthService.status (ShopifyAuthService.healthCheck env now_ms)
         = "degraded").
Proof.
  unfold ShopifyAuthService.validateConfiguration, ShopifyAuthService.healthCheck,
    ShopifyAuthService.getRequiredConfig, ShopifyAuthService.requiredConfigs.
  cbn [List.filter List.map forallb snd ShopifyAuthService.status].
  destruct (config_get env "SHOPIFY_API_KEY") as [[|a k]|];
    destruct (config_get env "SHOPIFY_API_SECRET") as [[|b s]|];
    cbn [Js.truthy_str negb andb].
  all: split; [split; intros H; (reflexivity || discriminate)|].
  all: split;
    [split;
     [intros H; try discriminate; eexists _, _; repeat split; discriminate
     |intros (x & y & Hx & Hy & _); (reflexivity || discriminate)]
    |intros H; (reflexivity || (exfalso; apply H; reflexivity))].
Qed.

(** [configuration_checks_agree] on the test world. *)
Lemma configuration_checks_agree_witness :
  ShopifyAuthService.validateConfiguration World.production = Returned tt
  /\ ShopifyAuthService.status
       (ShopifyAuthService.healthCheck World.production World.NOW_MS) = "healthy".
Proof.
  destruct (configuration_checks_agree World.production World.NOW_MS)
    as (Hhealth & Hconfig & _).
  assert (H : ShopifyAuthService.validateConfiguration World.production = Returned tt).
  { apply (proj2 Hconfig). exists "abc", "shhh".
    repeat split; try discriminate; vm_compute; reflexivity. }
  split; [exact H|exact (proj1 Hhealth H)].
Defined.

(* ===================================================================== *)
(** ** isValidShopDomain                                                  *)
(* ===================================================================== *)

Lemma host_with_suffix_myshopify (s : string) :
  ShopifyAuthService.host_with_suffix [".myshopify.com"] s = true
  <-> exists c name,
        s = String c (name +:+ ".myshopify.com")
        /\ Js.is_alnum c = true
        /\ Js.all_chars Js.is_alnum_dash name = true.
Proof.
  unfold ShopifyAuthService.host_with_suffix. split.
  - destruct s as [|c r]; [discriminate|].
    intros H. apply andb_true_iff in H as [Hc Hsuffix].
    cbn [existsb] in Hsuffix. rewrite orb_false_r in Hsuffix.
    apply String.eqb_eq in Hsuffix.
    exists c, (Js.span Js.is_alnum_dash r).1.
    split; [|split; [exact Hc|apply span_all]].
    f_equal. rewrite <- Hsuffix. apply span_app.
  - intros (c & name & -> & Hc & Hname). rewrite Hc. cbn [andb existsb].
    rewrite (span_exact Js.is_alnum_dash name ".myshopify.com" Hname).
    + reflexivity.
    + right. exists "."%char, "myshopify.com". split; reflexivity.
Qed.

(** [isValidShopDomain] accepts every host made of a letter or digit,
    then letters, digits and dashes, then [.myshopify.com]; in production
    it accepts nothing else: no host with a further label, no leading
    dash, no other domain. *)
Theorem isValidShopDomain_production_exactly (env : Env) (s : string) :
  ((exists c name,
       s = String c (name +:+ ".myshopify.com")
       /\ Js.is_alnum c = true
       /\ Js.all_chars Js.is_alnum_dash name = true)
   -> ShopifyAuthService.isValidShopDomain env s = true)
  /\ (is_production env = true ->
      ShopifyAuthService.isValidShopDomain env s = true ->
      exists c name,
        s = String c (name +:+ ".myshopify.com")
        /\ Js.is_alnum c = true
        /\ Js.all_chars Js.is_alnum_dash name = true).
Proof.
  split.
  - intros H. pose proof (proj2 (host_with_suffix_myshopify s) H) as Hhost.
    destruct H as (c & name & -> & _).
    unfold ShopifyAuthService.isValidShopDomain. now rewrite Hhost.
  - intros Hprod. unfold ShopifyAuthService.isValidShopDomain.
    destruct s as [|c r]; [discriminate|].
    rewrite Hprod. cbn [negb andb]. rewrite orb_false_r.
    apply host_with_suffix_myshopify.
Qed.

(** [isValidShopDomain_production_exactly] on the test world. *)
Lemma isValidShopDomain_production_exactly_witness :
  ShopifyAuthService.isValidShopDomain World.production "test-shop.myshopify.com"
  = true
  /\ exists c name,
      "test-shop.myshopify.com" = String c (name +:+ ".myshopify.com")
      /\ Js.is_alnum c = true.
Proof.
  assert (H : ShopifyAuthService.isValidShopDomain World.production
                "test-shop.myshopify.com" = true) by (vm_compute; reflexivity).
  split; [exact H|].
  destruct (proj2 (isValidShopDomain_production_exactly World.production
                     "test-shop.myshopify.com") eq_refl H)
    as (c & name & Heq & Hc & _).
  exists c, name. split; assumption.
Defined.

(* ===================================================================== *)
(** ** From the exchange to the stored session                            *)
(* ===================================================================== *)

(** The row a successful exchange has stored, and what looking the
    derived shop up returns afterwards. *)
Lemma lookup_after_exchange
    (env : Env) (schema_ok : Table -> bool) (pick : Datastore.Choice)
    (now_ms : Z) (tbl : Table) (tok : string) (ty : TokenType)
    (response : Exchange.Response) :
  Datastore.chooses pick ->
  is_production env = true ->
  ShopifyAuthService.result
    (ShopifyAuthService.exchangeSessionToken env schema_ok now_ms tbl tok ty)
  = Returned response ->
  exists p s k row,
    ShopifyAuthService.validateSessionToken env now_ms tok = Returned p
    /\ ShopifyAuthService.extractShopFromPayload env p = Returned s
    /\ ShopifyAuthService.getSessionByShop env pick
         (ShopifyAuthService.table_after
            (ShopifyAuthService.exchangeSessionToken env schema_ok now_ms tbl tok ty)) s
       = Some (k, row)
    /\ (exists a name, s = String a (name +:+ ".myshopify.com"))
    /\ row = match (Datastore.update s now_ms tbl).2 !! k with
             | Some old =>
                 Datastore.merged old
                   (ShopifyAuthService.new_session now_ms s p response ty)
             | None => ShopifyAuthService.new_session now_ms s p response ty
             end.
Proof.
  intros Hpick Hprod H.
  destruct (exchange_success_inv _ _ _ _ _ _ _ H)
    as (p & s & urls & k & row & Hv & Hs & _ & Hbody & _).
  set (after := ShopifyAuthService.table_after _) in *.
  destruct (storeSession_body_inv _ _ _ _ _ _ _ _ _ _ Hbody)
    as (Hkey & Hafter & Hrow & _ & _ & Hfilter).
  destruct (extractShop_sanitized env p s Hs) as (raw & Hraw).
  pose proof (sanitizeShop_fixed_point env raw s Hprod Hraw) as Hfix.
  destruct (sanitizeShop_production env raw s Hprod Hraw)
    as (name & rest & _ & Hne & _ & _ & Hform).
  exists p, s, k, row. split; [exact Hv|]. split; [exact Hs|]. split; [|split].
  - unfold ShopifyAuthService.getSessionByShop, Datastore.findOne.
    rewrite Hfix, (newest_active_singleton s k row after Hfilter).
    now apply chooses_singleton.
  - destruct name as [|a name]; [contradiction|]. exists a, name. exact Hform.
  - exact Hrow.
Qed.

(** After a successful online exchange in production that granted a
    non-empty token with a lifetime, [refreshOnlineToken] for the shop of
    the token, the shop [extractShopFromPayload] takes from the payload
    the token validates to, hands that token out at every instant before
    the exchange time plus [expires_in] seconds, and nothing from that
    instant on. *)
Theorem online_exchange_then_refresh
    (env : Env) (schema_ok : Table -> bool) (pick : Datastore.Choice)
    (now_ms : Z) (tbl : Table) (tok : string) (response : Exchange.Response)
    (token : string) (lifetime : Z) :
  Datastore.chooses pick ->
  is_production env = true ->
  ShopifyAuthService.result
    (ShopifyAuthService.exchangeSessionToken env schema_ok now_ms tbl tok Online)
  = Returned response ->
  Exchange.access_token response = Some token -> token <> EmptyString ->
  Exchange.expires_in response = Some lifetime -> lifetime <> 0 ->
  exists p s,
    ShopifyAuthService.validateSessionToken env now_ms tok = Returned p
    /\ ShopifyAuthService.extractShopFromPayload env p = Returned s
    /\ Js.endsWith ".myshopify.com" s = true
    /\ forall later,
         ShopifyAuthService.refreshOnlineToken env pick later
           (ShopifyAuthService.table_after
              (ShopifyAuthService.exchangeSessionToken
                 env schema_ok now_ms tbl tok Online)) s
         = if later <? now_ms + lifetime * 1000 then Some token else None.
Proof.
  intros Hpick Hprod H Htok Hne Hlife Hnz.
  destruct (lookup_after_exchange env schema_ok pick now_ms tbl tok Online response
              Hpick Hprod H)
    as (p & s & k & row & Hv & Hshop & Hget & (a & name & Hs) & Hrow).
  exists p, s. split; [exact Hv|]. split; [exact Hshop|]. split.
  { rewrite Hs. change (String a (name +:+ ".myshopify.com"))
      with (String a name +:+ ".myshopify.com"). apply endsWith_app. }
  assert (Hfields : onlineAccessToken row = Some token
                    /\ expiresAt row = Some (now_ms + lifetime * 1000)).
  { rewrite Hrow.
    destruct ((Datastore.update s now_ms tbl).2 !! k) as [old|];
      cbn [Datastore.merged ShopifyAuthService.new_session onlineAccessToken
             expiresAt];
      rewrite Htok, Hlife; cbn [Js.truthy_num default from_option];
      (destruct (Z.eqb_spec lifetime 0) as [|_]; [contradiction|]);
      cbn [negb from_option]; split; reflexivity. }
  destruct Hfields as [Ho He]. intros later.
  unfold ShopifyAuthService.refreshOnlineToken. rewrite Hget, Ho.
  destruct token as [|b t]; [contradiction|]. cbn [Js.truthy_str negb].
  unfold ShopifyAuthService.expires_later. rewrite He.
  rewrite Z.gtb_ltb. reflexivity.
Qed.

(** [online_exchange_then_refresh] on the test world: the online token
    of a session that was stored before is handed out for a day, for the
    shop of the token's issuer. *)
Lemma online_exchange_then_refresh_witness :
  ShopifyAuthService.extractShopFromPayload World.production_online
    (World.payload World.ADMIN World.STORE "abc" (Some (World.NOW + 60)))
  = Returned "test-shop.myshopify.com"
  /\ ShopifyAuthService.refreshOnlineToken World.production_online World.first_row
       (World.NOW_MS + 86399999)
       (ShopifyAuthService.table_after
          (ShopifyAuthService.exchangeSessionToken World.production_online
             Datastore.entity_schema World.NOW_MS World.table_same_key
             "hs.good" Online)) "test-shop.myshopify.com" = Some "user-tok"
  /\ ShopifyAuthService.refreshOnlineToken World.production_online World.first_row
       (World.NOW_MS + 86400000)
       (ShopifyAuthService.table_after
          (ShopifyAuthService.exchangeSessionToken World.production_online
             Datastore.entity_schema World.NOW_MS World.table_same_key
             "hs.good" Online)) "test-shop.myshopify.com" = None.
Proof.
  destruct (online_exchange_then_refresh World.production_online
              Datastore.entity_schema World.first_row World.NOW_MS
              World.table_same_key "hs.good"
              {| Exchange.access_token := Some "user-tok";
                 Exchange.scope := Some "read_products";
                 Exchange.expires_in := Some 86400;
                 Exchange.associated_user_scope := Some "read_products";
                 Exchange.associated_user := None |}
              "user-tok" 86400 first_row_chooses eq_refl
              ltac:(vm_compute; reflexivity) eq_refl ltac:(discriminate)
              eq_refl ltac:(discriminate))
    as (p & s & Hv & Hshop & _ & Hrefresh).
  assert (Hp : p = World.payload World.ADMIN World.STORE "abc" (Some (World.NOW + 60)))
    by (vm_compute in Hv; inversion Hv; reflexivity).
  subst p. split; [vm_compute; reflexivity|].
  assert (Hs : s = "test-shop.myshopify.com")
    by (vm_compute in Hshop; inversion Hshop; reflexivity).
  subst s. split.
  - rewrite (Hrefresh (World.NOW_MS + 86399999)). reflexivity.
  - rewrite (Hrefresh (World.NOW_MS + 86400000)). reflexivity.
Defined.

(** After [exchangeToken] of the controller has answered with a body, in
    production, its [getSession] for the shop of the token, the shop
    [extractShopFromPayload] takes from the payload the token of the
    header validates to, a [.myshopify.com] host, reports an active
    session of that shop with the scopes the provider granted, split at
    the commas, and, when the provider granted a non-empty token, the
    presence of a token of the type asked for. *)
Theorem session_reported_after_exchange
    (env : Env) (schema_ok : Table -> bool) (pick : Datastore.Choice)
    (now_ms : Z) (tbl : Table) (authHeader : option string)
    (tokenType : option TokenType) (body : TokenExchangeResult.t) :
  Datastore.chooses pick ->
  is_production env = true ->
  AuthController.reply
    (AuthController.exchangeToken env schema_ok now_ms tbl authHeader tokenType)
  = Completed body ->
  exists tok p s info,
    authHeader = Some ("Bearer " +:+ tok)
    /\ ShopifyAuthService.validateSessionToken env now_ms tok = Returned p
    /\ ShopifyAuthService.extractShopFromPayload env p = Returned s
    /\ AuthController.getSession env pick
         (AuthController.reply_table
            (AuthController.exchangeToken env schema_ok now_ms tbl authHeader
               tokenType))
         (Some s) = Completed info
    /\ Js.endsWith ".myshopify.com" s = true
    /\ SessionInfo.hasSession info = true
    /\ SessionInfo.shop info = s
    /\ SessionInfo.isActive info = Some true
    /\ SessionInfo.scope info
       = Some (if Js.truthy_str (TokenExchangeResult.scope body)
               then Js.split "," (Js.or_empty (TokenExchangeResult.scope body))
               else [])
    /\ (Js.truthy_str (TokenExchangeResult.access_token body) = true ->
        match TokenExchangeResult.token_type body with
        | Online => SessionInfo.hasOnlineToken info = Some true
        | Offline => SessionInfo.hasOfflineToken info = Some true
        end).
Proof.
  intros Hpick Hprod. unfold AuthController.exchangeToken.
  destruct (AuthController.bearer authHeader) as [tok|] eqn:Hb; [|discriminate].
  apply bearer_Some in Hb.
  cbn [AuthController.reply AuthController.reply_table].
  destruct (ShopifyAuthService.result
              (ShopifyAuthService.exchangeSessionToken env schema_ok now_ms tbl
                 tok (default Offline tokenType))) as [response|] eqn:Hr;
    [|discriminate].
  intros H; inversion H; subst body. clear H.
  cbn [TokenExchangeResult.scope TokenExchangeResult.access_token
         TokenExchangeResult.token_type].
  destruct (lookup_after_exchange env schema_ok pick now_ms tbl tok
              (default Offline tokenType) response Hpick Hprod Hr)
    as (p & s & k & row & Hv & Hextract & Hget & (a & name & Hs) & Hrow).
  assert (Hfields :
            shop row = s /\ isActive row = true
            /\ scope row
               = (if Js.truthy_str (Exchange.scope response)
                  then Js.split "," (Js.or_empty (Exchange.scope response))
                  else [])
            /\ (Js.truthy_str (Exchange.access_token response) = true ->
                match default Offline tokenType with
                | Online => Js.truthy_str (onlineAccessToken row) = true
                | Offline => Js.truthy_str (accessToken row) = true
                end)).
  { rewrite Hrow.
    destruct ((Datastore.update s now_ms tbl).2 !! k) as [old|];
      cbn [Datastore.merged ShopifyAuthService.new_session shop isActive scope
             onlineAccessToken accessToken];
      (split; [reflexivity|]); (split; [reflexivity|]); (split; [reflexivity|]);
      intros Htruthy; destruct (default Offline tokenType);
      destruct (Exchange.access_token response) as [[|b t]|];
      try discriminate; reflexivity. }
  destruct Hfields as (Hshop & Hactive & Hscope & Htoken).
  clear Hrow. subst s.
  exists tok, p, (String a (name +:+ ".myshopify.com")).
  unfold AuthController.getSession. cbv iota zeta.
  rewrite Hget. eexists. split; [exact Hb|]. split; [exact Hv|].
  split; [exact Hextract|]. split; [reflexivity|].
  cbn [SessionInfo.hasSession SessionInfo.shop SessionInfo.isActive
         SessionInfo.scope SessionInfo.hasOnlineToken SessionInfo.hasOfflineToken].
  split.
  { change (String a (name +:+ ".myshopify.com"))
      with (String a name +:+ ".myshopify.com"). apply endsWith_app. }
  split; [reflexivity|]. split; [exact Hshop|]. split; [now rewrite Hactive|].
  split; [now rewrite Hscope|].
  intros Htruthy. specialize (Htoken Htruthy).
  destruct (default Offline tokenType); now rewrite Htoken.
Qed.

(** [session_reported_after_exchange] on the test world. *)
Lemma session_reported_after_exchange_witness :
  exists info,
    AuthController.getSession World.production World.first_row
      (AuthController.reply_table
         (AuthController.exchangeToken World.production Datastore.entity_schema
            World.NOW_MS World.table_other_key (Some "Bearer hs.good") None))
      (Some "test-shop.myshopify.com") = Completed info
    /\ SessionInfo.hasSession info = true
    /\ SessionInfo.scope info = Some ["read_products"]
    /\ SessionInfo.hasOfflineToken info = Some true.
Proof.
  destruct (session_reported_after_exchange World.production
              Datastore.entity_schema World.first_row World.NOW_MS
              World.table_other_key (Some "Bearer hs.good") None
              {| TokenExchangeResult.success := true;
                 TokenExchangeResult.access_token := Some "tok1";
                 TokenExchangeResult.scope := Some "read_products";
                 TokenExchangeResult.expires_in := None;
                 TokenExchangeResult.token_type := Offline;
                 TokenExchangeResult.associated_user := None |}
              first_row_chooses eq_refl ltac:(vm_compute; reflexivity))
    as (tok & p & s & info & Hb & Hv & Hextract & Hget & _ & Hhas & _ & _
        & Hscope & Htoken).
  assert (Htok : tok = "hs.good") by (cbv in Hb; inversion Hb; reflexivity).
  subst tok.
  assert (Hp : p = World.payload World.ADMIN World.STORE "abc" (Some (World.NOW + 60)))
    by (vm_compute in Hv; inversion Hv; reflexivity).
  subst p.
  assert (Hs : s = "test-shop.myshopify.com")
    by (vm_compute in Hextract; inversion Hextract; reflexivity).
  subst s.
  exists info. split; [exact Hget|]. split; [exact Hhas|].
  split; [exact Hscope|exact (Htoken eq_refl)].
Defined.

(** Whatever the environment, production or not, the provider is
    contacted only for a token whose HMAC signature verified under the
    configured secret, and only at the token endpoint of the shop taken
    from its payload, a host that [isValidShopDomain] accepts. *)
Theorem exchange_contacts_only_valid_hosts
    (env : Env) (schema_ok : Table -> bool) (now_ms : Z) (tbl : Table)
    (tok : string) (ty : TokenType) (url : string) :
  In url (ShopifyAuthService.requested
            (ShopifyAuthService.exchangeSessionToken env schema_ok now_ms tbl tok ty)) ->
  exists p s secret,
    ShopifyAuthService.getRequiredConfig env "SHOPIFY_API_SECRET" = Returned secret
    /\ jwt_verify env tok secret = Returned (DecodedObject p)
    /\ ShopifyAuthService.extractShopFromPayload env p = Returned s
    /\ ShopifyAuthService.isValidShopDomain env s = true
    /\ url = "https://" +:+ s +:+ "/admin/oauth/access_token".
Proof.
  intros Hin.
  destruct (exchange_requested _ _ _ _ _ _ _ Hin) as (p & s & Hv & Hs & ->).
  apply service_accepts_iff in Hv
    as (secret & clientId & s' & Hsecret & _ & Hverify & _ & _ & _ & _ & _ & _ & _
        & Hs' & Hvalid & _).
  rewrite Hs in Hs'. inversion Hs'; subst s'.
  exists p, s, secret. repeat split; assumption || reflexivity.
Qed.

(** [exchange_contacts_only_valid_hosts] on a development world. *)
Lemma exchange_contacts_only_valid_hosts_witness :
  In "https://test-shop.myshopify.com/admin/oauth/access_token"
    (ShopifyAuthService.requested
       (ShopifyAuthService.exchangeSessionToken World.development
          Datastore.entity_schema World.NOW_MS World.table_other_key
          "hs.good" Offline))
  /\ exists s,
      ShopifyAuthService.isValidShopDomain World.development s = true
      /\ "https://test-shop.myshopify.com/admin/oauth/access_token"
         = "https://" +:+ s +:+ "/admin/oauth/access_token".
Proof.
  assert (H : In "https://test-shop.myshopify.com/admin/oauth/access_token"
                (ShopifyAuthService.requested
                   (ShopifyAuthService.exchangeSessionToken World.development
                      Datastore.entity_schema World.NOW_MS World.table_other_key
                      "hs.good" Offline))) by (vm_compute; left; reflexivity).
  split; [exact H|].
  destruct (exchange_contacts_only_valid_hosts World.development
              Datastore.entity_schema World.NOW_MS World.table_other_key
              "hs.good" Offline _ H) as (p & s & secret & _ & _ & _ & Hvalid & Hurl).
  exists s. split; assumption.
Defined.

(* ===================================================================== *)
(** ** The order of the checks: signature, expiry, audience, hosts        *)
(* ===================================================================== *)

(** What [JwtService.verify] throws is what the service reports. *)
Lemma service_reports_verify_error
    (env : Env) (now_ms : Z) (tok secret clientId : string) (err : Msg) :
  ShopifyAuthService.getRequiredConfig env "SHOPIFY_API_SECRET" = Returned secret ->
  ShopifyAuthService.getRequiredConfig env "SHOPIFY_API_KEY" = Returned clientId ->
  jwt_verify env tok secret = Thrown err ->
  ShopifyAuthService.validateSessionToken env now_ms tok
  = Thrown (InvalidSessionToken err).
Proof.
  intros Hs Hk Hv. unfold ShopifyAuthService.validateSessionToken.
  rewrite Hs; simpl. rewrite Hk; simpl. rewrite Hv. reflexivity.
Qed.

(** And what [validateWithSecret] reports. *)
Lemma secret_reports_verify_error
    (env : Env) (now_ms : Z) (tok secret : string) (err : Msg) :
  ShopifyAuthService.getRequiredConfig env "SHOPIFY_API_SECRET" = Returned secret ->
  jwt_verify env tok secret = Thrown err ->
  ShopifySessionGuard.validateWithSecret env now_ms tok
  = Thrown (JwtValidationFailed err).
Proof.
  unfold ShopifyAuthService.getRequiredConfig, ShopifySessionGuard.validateWithSecret.
  destruct (config_get env "SHOPIFY_API_SECRET") as [[|a r]|]; try discriminate.
  intros H; inversion H; subst. intros ->. reflexivity.
Qed.

(** Unless the key-set strategy yields a payload that passes the claim
    checks, the guard answers what [validateWithSecret] answers. *)
Lemma guard_reports_secret_outcome
    (env : Env) (now_ms : Z) (c : JWKSService.Cache) (tok : string) :
  (forall q, (JWKSService.validateSessionToken env now_ms c tok).1 = Returned q ->
             ShopifySessionGuard.validateTokenClaims env now_ms q <> Returned tt) ->
  (ShopifySessionGuard.validateSessionToken env now_ms c tok).1
  = ShopifySessionGuard.validateWithSecret env now_ms tok.
Proof.
  intros H. rewrite guard_unfold.
  destruct (JWKSService.validateSessionToken env now_ms c tok).1 as [q|e];
    cbn [bind orElse]; [|reflexivity].
  destruct (ShopifySessionGuard.validateTokenClaims env now_ms q) as [[]|e] eqn:Hc;
    cbn [bind orElse]; [|reflexivity].
  exfalso. exact (H q eq_refl Hc).
Qed.

(** The claim C2 as it is worded fails in the service: the signature of
    the token verifies under the client secret, its issuer and its
    destination are on different hosts, and [validateSessionToken] of the
    service returns the payload, since [validateTokenPayload] compares no
    hosts. *)
Lemma service_accepts_domain_mismatch :
  jwt_verify World.production "hs.mismatch" World.CLIENT_SECRET
  = Returned (DecodedObject
                (World.payload World.ADMIN "https://other-shop.myshopify.com"
                   "abc" (Some (World.NOW + 60))))
  /\ url_hostname World.production World.ADMIN = Some "test-shop.myshopify.com"
  /\ url_hostname World.production "https://other-shop.myshopify.com"
     = Some "other-shop.myshopify.com"
  /\ "test-shop.myshopify.com" <> "other-shop.myshopify.com"
  /\ ShopifyAuthService.validateSessionToken World.production World.NOW_MS
       "hs.mismatch"
     = Returned (World.payload World.ADMIN "https://other-shop.myshopify.com"
                   "abc" (Some (World.NOW + 60))).
Proof.
  split; [vm_compute; reflexivity|]. split; [vm_compute; reflexivity|].
  split; [vm_compute; reflexivity|]. split; [discriminate|].
  vm_compute; reflexivity.
Qed.

(** C2, amended. For a payload whose issuer and destination are on
    different hosts: the guard never accepts it; the guard reports
    [JWT validation failed: Issuer and destination domains do not match]
    when [JwtService.verify] returns the payload under the client secret,
    the key-set strategy returns no other payload, and the payload passes
    the three checks that come first ([exp] absent or after now, [nbf]
    absent or not after now, [aud] the configured client id); the service
    compares no hosts and returns the payload when [JwtService.verify]
    returns it and the checks of [validateTokenPayload] pass ([iss],
    [dest], [sub] non-empty, [aud] the client id, [exp], [nbf] and [iat]
    absent, zero or in range, the shop of the issuer a valid shop domain,
    the issuer mentioning [.myshopify.com]). *)
Theorem guard_rejects_domain_mismatch
    (env : Env) (now_ms : Z) (c : JWKSService.Cache) (tok : string)
    (p : SessionTokenPayload) (issuerDomain destDomain : string) :
  url_hostname env (Js.or_empty (Js.or_else (iss p) (Some ""))) = Some issuerDomain ->
  url_hostname env (Js.or_empty (Js.or_else (dest p) (Some ""))) = Some destDomain ->
  issuerDomain <> destDomain ->
  (ShopifySessionGuard.validateSessionToken env now_ms c tok).1 <> Returned p
  /\ (forall secret,
        ShopifyAuthService.getRequiredConfig env "SHOPIFY_API_SECRET"
        = Returned secret ->
        jwt_verify env tok secret = Returned (DecodedObject p) ->
        (forall q, (JWKSService.validateSessionToken env now_ms c tok).1 = Returned q ->
                   q = p) ->
        ShopifySessionGuard.num_le (exp p) (seconds now_ms) = false ->
        ShopifySessionGuard.num_gt (nbf p) (seconds now_ms) = false ->
        aud p = config_get env "SHOPIFY_API_KEY" ->
        (ShopifySessionGuard.validateSessionToken env now_ms c tok).1
        = Thrown (JwtValidationFailed DomainsDoNotMatch))
  /\ (forall secret clientId s,
        ShopifyAuthService.getRequiredConfig env "SHOPIFY_API_SECRET"
        = Returned secret ->
        ShopifyAuthService.getRequiredConfig env "SHOPIFY_API_KEY"
        = Returned clientId ->
        jwt_verify env tok secret = Returned (DecodedObject p) ->
        Js.truthy_str (iss p) = true -> Js.truthy_str (dest p) = true ->
        Js.truthy_str (sub p) = true ->
        aud p = Some clientId ->
        (forall x, exp p = Some x -> x = 0 \/ seconds now_ms <= x) ->
        (forall t, nbf p = Some t -> t = 0 \/ t <= seconds now_ms) ->
        (forall t, iat p = Some t -> t = 0 \/ seconds now_ms - t <= 90) ->
        ShopifyAuthService.extractShopFromPayload env p = Returned s ->
        ShopifyAuthService.isValidShopDomain env s = true ->
        Js.includes ".myshopify.com" (Js.or_empty (iss p)) = true ->
        ShopifyAuthService.validateSessionToken env now_ms tok = Returned p).
Proof.
  intros Hi Hd Hne. split; [|split].
  - intros Hacc. destruct (guard_accepts_inv env now_ms c tok p Hacc) as (Hc & _).
    destruct (claims_pass_same_host env now_ms p Hc) as (h & H1 & H2).
    rewrite Hi in H1. rewrite Hd in H2. congruence.
  - intros secret Hs Hv Hsame He Hn Ha.
    apply (guard_reports_claim_error env now_ms c tok secret p _ Hs Hv Hsame).
    now apply (claims_domain_mismatch env now_ms p issuerDomain destDomain).
  - intros secret clientId s Hs Hk Hv Hiss Hdest Hsub Haud Hexp Hnbf Hiat
      Hshop Hvalid Hmy.
    apply service_accepts_iff. exists secret, clientId, s.
    repeat split; assumption.
Qed.

(** [guard_rejects_domain_mismatch] on the test world: the guard reports
    the mismatch, the service accepts the token. *)
Lemma guard_rejects_domain_mismatch_witness :
  url_hostname World.production World.ADMIN = Some "test-shop.myshopify.com"
  /\ url_hostname World.production "https://other-shop.myshopify.com"
     = Some "other-shop.myshopify.com"
  /\ (ShopifySessionGuard.validateSessionToken World.production World.NOW_MS
        World.empty_cache "hs.mismatch").1
     = Thrown (JwtValidationFailed DomainsDoNotMatch)
  /\ ShopifyAuthService.validateSessionToken World.production World.NOW_MS
       "hs.mismatch"
     = Returned (World.payload World.ADMIN "https://other-shop.myshopify.com"
                   "abc" (Some (World.NOW + 60))).
Proof.
  split; [reflexivity|]. split; [reflexivity|].
  destruct (guard_rejects_domain_mismatch World.production World.NOW_MS
              World.empty_cache "hs.mismatch"
              (World.payload World.ADMIN "https://other-shop.myshopify.com"
                 "abc" (Some (World.NOW + 60)))
              "test-shop.myshopify.com" "other-shop.myshopify.com"
              eq_refl eq_refl ltac:(discriminate)) as (_ & Hguard & Hservice).
  split.
  - apply (Hguard "shhh");
      [ reflexivity | vm_compute; reflexivity
      | intros q Hq; vm_compute in Hq; discriminate
      | reflexivity | reflexivity | reflexivity ].
  - apply (Hservice "shhh" "abc" "test-shop.myshopify.com");
      [ reflexivity | reflexivity | vm_compute; reflexivity
      | reflexivity | reflexivity | reflexivity | reflexivity
      | intros x Hx; inversion Hx; right; vm_compute; discriminate
      | intros t Ht; inversion Ht; right; vm_compute; discriminate
      | intros t Ht; inversion Ht; right; vm_compute; discriminate
      | vm_compute; reflexivity | vm_compute; reflexivity
      | vm_compute; reflexivity ].
Defined.

(** The claim C3 as the spec words it fails: a token with a past expiry
    whose signature does not verify is reported with the error of the
    signature check, by the service and by the guard. *)
Lemma expired_forged_token_not_reported_expired :
  exp (World.payload World.ADMIN World.STORE "abc" (Some (World.NOW - 1)))
  = Some (World.NOW - 1)
  /\ World.NOW - 1 < seconds World.NOW_MS
  /\ jose_decodeJwt World.production "forged.expired"
     = Returned (World.payload World.ADMIN World.STORE "abc" (Some (World.NOW - 1)))
  /\ ShopifyAuthService.validateSessionToken World.production World.NOW_MS
       "forged.expired"
     = Thrown (InvalidSessionToken (External "invalid signature"))
  /\ (ShopifySessionGuard.validateSessionToken World.production World.NOW_MS
        World.empty_cache "forged.expired").1
     = Thrown (JwtValidationFailed (External "invalid signature")).
Proof. repeat split; vm_compute; reflexivity. Qed.

(** C3, amended. The signature comes before the expiry: both validators
    call [JwtService.verify] first and report the error it throws, the
    service as [Invalid session token: ...] when both credentials are
    configured, the guard as [JWT validation failed: ...] when the secret
    is configured and the key-set strategy yields no payload that passes
    the claim checks. And neither returns a payload whose expiry is in
    the past: the service none whose [exp] is not zero and before now, the
    guard none whose [exp] is now or before. *)
Theorem expired_token_rejected_after_signature
    (env : Env) (now_ms : Z) (c : JWKSService.Cache) (tok : string) :
  (forall secret clientId err,
      ShopifyAuthService.getRequiredConfig env "SHOPIFY_API_SECRET"
      = Returned secret ->
      ShopifyAuthService.getRequiredConfig env "SHOPIFY_API_KEY"
      = Returned clientId ->
      jwt_verify env tok secret = Thrown err ->
      ShopifyAuthService.validateSessionToken env now_ms tok
      = Thrown (InvalidSessionToken err))
  /\ (forall secret err,
        ShopifyAuthService.getRequiredConfig env "SHOPIFY_API_SECRET"
        = Returned secret ->
        jwt_verify env tok secret = Thrown err ->
        (forall q,
            (JWKSService.validateSessionToken env now_ms c tok).1 = Returned q ->
            ShopifySessionGuard.validateTokenClaims env now_ms q <> Returned tt) ->
        (ShopifySessionGuard.validateSessionToken env now_ms c tok).1
        = Thrown (JwtValidationFailed err))
  /\ (forall p x,
        exp p = Some x -> x <> 0 -> x < seconds now_ms ->
        ShopifyAuthService.validateSessionToken env now_ms tok <> Returned p)
  /\ (forall p x,
        exp p = Some x -> x <= seconds now_ms ->
        (ShopifySessionGuard.validateSessionToken env now_ms c tok).1 <> Returned p).
Proof.
  split; [|split; [|split]].
  - intros secret clientId err. apply service_reports_verify_error.
  - intros secret err Hs Hv Hjwks.
    rewrite (guard_reports_secret_outcome env now_ms c tok Hjwks).
    now apply (secret_reports_verify_error env now_ms tok secret).
  - intros p x Hx Hnz Hlt Hacc.
    apply service_accepts_iff in Hacc
      as (secret & clientId & s & _ & _ & _ & _ & _ & _ & _ & Hexp & _).
    destruct (Hexp x Hx); [contradiction|lia].
  - intros p x Hx Hle Hacc.
    destruct (guard_accepts_inv env now_ms c tok p Hacc) as (Hc & _).
    apply validateTokenClaims_iff in Hc as (Hexp & _).
    specialize (Hexp x Hx). lia.
Qed.

(** [expired_token_rejected_after_signature] on the test world: the
    expired token signed with the secret is refused by the library, and
    its error is what the service and the guard report. *)
Lemma expired_token_rejected_after_signature_witness :
  jwt_verify World.production "hs.expired" "shhh" = Thrown (External "jwt expired")
  /\ ShopifyAuthService.validateSessionToken World.production World.NOW_MS "hs.expired"
     = Thrown (InvalidSessionToken (External "jwt expired"))
  /\ (ShopifySessionGuard.validateSessionToken World.production World.NOW_MS
        World.empty_cache "hs.expired").1
     = Thrown (JwtValidationFailed (External "jwt expired")).
Proof.
  destruct (expired_token_rejected_after_signature World.production World.NOW_MS
              World.empty_cache "hs.expired") as (Hservice & Hguard & _).
  split; [vm_compute; reflexivity|]. split.
  - apply (Hservice "shhh" "abc"); vm_compute; reflexivity.
  - apply (Hguard "shhh"); [vm_compute; reflexivity|vm_compute; reflexivity|].
    intros q Hq. vm_compute in Hq. discriminate.
Defined.

(** The claim C7 as the spec words it fails in the guard: a token signed
    for the shop's key set and valid in every other claim (with the
    client id as audience it is accepted) is refused by the key-set
    verification for its audience, handed to the secret and reported with
    the error of the HMAC verification, not with an audience error. *)
Lemma guard_wrong_audience_not_reported :
  jose_decodeJwt World.production "rs.wrongaud"
  = Returned (World.payload "https://a-shop.myshopify.com"
                "https://a-shop.myshopify.com" "wrong" (Some (World.NOW + 60)))
  /\ config_get World.production "SHOPIFY_API_KEY" = Some "abc"
  /\ (ShopifySessionGuard.validateSessionToken World.production World.NOW_MS
        World.empty_cache "rs.wrongaud").1
     = Thrown (JwtValidationFailed (External "invalid algorithm"))
  /\ (ShopifySessionGuard.validateSessionToken World.production World.NOW_MS
        World.empty_cache "rs.good").1
     = Returned (World.payload "https://a-shop.myshopify.com"
                   "https://a-shop.myshopify.com" "abc"
                   (Some (World.NOW + 60))).
Proof. repeat split; vm_compute; reflexivity. Qed.

(** C7, amended. For a token whose payload [JwtService.verify] returns
    under the client secret, that is not expired and already valid, and
    whose audience is not the client id: the service throws [Invalid
    session token: Invalid session token audience. Expected: ..., Got:
    ...] when [iss], [dest], [aud] and [sub] are not empty; the guard
    throws [JWT validation failed: Invalid audience in session token] when
    the key-set strategy returns no other payload. A token the key-set
    strategy verifies and whose claims fail a check of the guard is handed
    to the secret, and the guard answers what [validateWithSecret]
    answers. *)
Theorem wrong_audience_reported_after_signature
    (env : Env) (now_ms : Z) (c : JWKSService.Cache)
    (tok secret clientId : string) (p : SessionTokenPayload) (a : string) :
  ShopifyAuthService.getRequiredConfig env "SHOPIFY_API_SECRET" = Returned secret ->
  ShopifyAuthService.getRequiredConfig env "SHOPIFY_API_KEY" = Returned clientId ->
  jwt_verify env tok secret = Returned (DecodedObject p) ->
  (forall x, exp p = Some x -> seconds now_ms < x) ->
  (forall t, nbf p = Some t -> t <= seconds now_ms) ->
  aud p = Some a ->
  a <> clientId ->
  (Js.truthy_str (iss p) = true -> Js.truthy_str (dest p) = true ->
   Js.truthy_str (sub p) = true -> a <> EmptyString ->
   ShopifyAuthService.validateSessionToken env now_ms tok
   = Thrown (InvalidSessionToken (InvalidAudience clientId a)))
  /\ ((forall q, (JWKSService.validateSessionToken env now_ms c tok).1 = Returned q ->
                 q = p) ->
      (ShopifySessionGuard.validateSessionToken env now_ms c tok).1
      = Thrown (JwtValidationFailed InvalidAudienceInToken))
  /\ (forall q e,
        (JWKSService.validateSessionToken env now_ms c tok).1 = Returned q ->
        ShopifySessionGuard.validateTokenClaims env now_ms q = Thrown e ->
        (ShopifySessionGuard.validateSessionToken env now_ms c tok).1
        = ShopifySessionGuard.validateWithSecret env now_ms tok).
Proof.
  intros Hs Hk Hv Hexp Hnbf Ha Hne. split; [|split].
  - intros Hi Hd Hsub Hnonempty.
    apply (service_wrong_audience env now_ms tok secret clientId p Hs Hk Hv);
      try assumption.
    rewrite Hi, Hd, Hsub, Ha. destruct a; [contradiction|reflexivity].
  - intros Hsame.
    apply (guard_reports_claim_error env now_ms c tok secret p _ Hs Hv Hsame).
    apply claims_wrong_audience.
    + now apply num_le_false.
    + now apply num_gt_false.
    + unfold ShopifyAuthService.getRequiredConfig in Hk.
      destruct (config_get env "SHOPIFY_API_KEY") as [[|b r]|]; try discriminate.
      inversion Hk; subst. rewrite Ha. congruence.
  - intros q e. apply guard_falls_back_on_claims.
Qed.

(** [wrong_audience_reported_after_signature] on the test world. *)
Lemma wrong_audience_reported_after_signature_witness :
  jwt_verify World.production "hs.wrongaud" "shhh"
  = Returned (DecodedObject
                (World.payload World.ADMIN World.STORE "wrong"
                   (Some (World.NOW + 3600))))
  /\ ShopifyAuthService.validateSessionToken World.production World.NOW_MS
       "hs.wrongaud"
     = Thrown (InvalidSessionToken (InvalidAudience "abc" "wrong"))
  /\ (ShopifySessionGuard.validateSessionToken World.production World.NOW_MS
        World.empty_cache "hs.wrongaud").1
     = Thrown (JwtValidationFailed InvalidAudienceInToken).
Proof.
  assert (Hv : jwt_verify World.production "hs.wrongaud" "shhh"
               = Returned (DecodedObject
                             (World.payload World.ADMIN World.STORE "wrong"
                                (Some (World.NOW + 3600)))))
    by (vm_compute; reflexivity).
  destruct (wrong_audience_reported_after_signature World.production World.NOW_MS
              World.empty_cache "hs.wrongaud" "shhh" "abc"
              (World.payload World.ADMIN World.STORE "wrong" (Some (World.NOW + 3600)))
              "wrong" eq_refl eq_refl Hv
              ltac:(intros x Hx; inversion Hx; vm_compute; reflexivity)
              ltac:(intros t Ht; inversion Ht; vm_compute; discriminate)
              eq_refl ltac:(discriminate))
    as (Hservice & Hguard & _).
  split; [exact Hv|]. split.
  - apply Hservice; [reflexivity|reflexivity|reflexivity|discriminate].
  - apply Hguard. intros q Hq. vm_compute in Hq. discriminate.
Defined.
